(** * Network Test Utility Library: a shallow embedding of [NetworkTester]

    The TypeScript class [NetworkTester] measures latency, download and
    upload throughput, classifies the result into a quality tier and
    normalises provider names.  This development embeds its methods as Rocq
    functions and proves the properties stated about them.

    Numbers.  A TypeScript [number] is an IEEE 754 binary64 value.  The
    methods are written once, over an interface [Number] of the arithmetic
    they use, and read at two instances:
    - [float], Rocq's primitive binary64 numbers, which compute exactly what
      the program computes, rounding, NaN and the infinities included;
    - [Q], exact rational arithmetic (every finite binary64 value is a
      rational), which says what the formulas of the program are when
      nothing is rounded.  A quotient whose divisor is zero is [NaN] or an
      infinity in the program and has no counterpart in [Q].
    What a method does step by step (which requests it makes, when it reads
    the clock, which formula it returns) is stated for every instance; what
    holds of the values is stated for binary64 where rounding allows it, and
    for exact arithmetic otherwise.

    Options.  An option of the tester is a number or [undefined].

    Strings.  A string is a sequence of UTF-16 code units.  Lower-casing is
    exact on ASCII; on the other characters it is what the Unicode tables
    say, which are a parameter ([Unicode]).

    Effects.  [performance.now()] and [fetch] are the program's only
    contact with the outside.  A [World] fixes what the successive readings
    of the clock and the successive requests yield; the methods run in a
    small state-and-exception monad [M] that counts how many readings and
    requests were consumed.  Loops bounded by the clock take fuel.

    Limits of an engine that the language leaves open are not modelled: the
    number of arguments a call accepts ([Math.min(...latencies)]) and the
    memory a typed array may take.  Where they matter, the statements speak
    of the runs that return. *)

From Stdlib Require Import ZArith QArith Qabs Qround Qminmax Lqa Lia List Bool.
From Stdlib Require Import Ascii String Floats Uint63.
From stdpp Require Import gmap strings.

Set Default Proof Using "Type".
Local Open Scope Z_scope.

(* ================================================================== *)
(** ** Numbers *)

(** The arithmetic of [number] that the class uses.  [ltb a b] is the
    program's [a < b], [leb a b] its [a <= b]; [a >= b] is [leb b a]. *)
Class Number (num : Type) := {
  ofZ : Z -> num;
  add : num -> num -> num;
  sub : num -> num -> num;
  mul : num -> num -> num;
  div : num -> num -> num;
  ltb : num -> num -> bool;
  leb : num -> num -> bool;
  Math_abs : num -> num;
  Math_round : num -> num;
  Math_min2 : num -> num -> num;
  Math_max2 : num -> num -> num;
  ToIndex : num -> option num;
}.

Declare Scope js_scope.
Delimit Scope js_scope with js.
Notation "a + b" := (add a b) : js_scope.
Notation "a - b" := (sub a b) : js_scope.
Notation "a * b" := (mul a b) : js_scope.
Notation "a / b" := (div a b) : js_scope.
Notation "a <? b" := (ltb a b) : js_scope.
Notation "a <=? b" := (leb a b) : js_scope.
Notation "a >=? b" := (leb b a) (at level 70) : js_scope.

(** [Math.round] on a real: the nearest integer, a tie going up. *)
Definition Qround_half_up (x : Q) : Q := inject_Z (Qfloor (x + (1 # 2))%Q).

(** The length of [new Uint8Array(x)]: [x] truncated toward zero; a negative
    length or one above [2^53 - 1] is a [RangeError].  (An engine may refuse
    to allocate a smaller array as well; no such limit is modelled.) *)
Definition ToIndex_Q (x : Q) : option Q :=
  let i := Z.quot (Qnum x) (Zpos (Qden x)) in
  if (i <? 0) || (2 ^ 53 - 1 <? i) then None else Some (inject_Z i).

#[export] Instance Number_Q : Number Q := {|
  ofZ := inject_Z;
  add := Qplus;
  sub := Qminus;
  mul := Qmult;
  div := Qdiv;
  ltb := fun a b => negb (Qle_bool b a);
  leb := Qle_bool;
  Math_abs := Qabs;
  Math_round := Qround_half_up;
  Math_min2 := Qmin;
  Math_max2 := Qmax;
  ToIndex := ToIndex_Q;
|}.

(** [Math.round] on a binary64 value: NaN, the infinities and the zeros are
    returned as they are; a finite [x = (-1)^s * m * 2^e] with [e >= 0] is an
    integer already; otherwise the result is [floor (x + 1/2)], computed
    exactly, and a zero result keeps the sign of [x]. *)
Definition Math_round_f64 (x : float) : float :=
  match Prim2SF x with
  | S754_finite s m e =>
      if 0 <=? e then x
      else
        let d := 2 ^ (- e) in
        let n := if s then Z.neg m else Z.pos m in
        let r := (2 * n + d) / (2 * d) in
        if r =? 0 then (if s then neg_zero else zero)
        else if r <? 0 then PrimFloat.opp (of_uint63 (Uint63.of_Z (- r)))
        else of_uint63 (Uint63.of_Z r)
  | _ => x
  end.

(** [Math.min] and [Math.max] of two binary64 values: NaN if either is NaN,
    and [-0] below [+0]. *)
Definition Math_min2_f64 (x y : float) : float :=
  if is_nan x || is_nan y then nan
  else if PrimFloat.ltb x y then x
  else if PrimFloat.ltb y x then y
  else if get_sign x then x else y.

Definition Math_max2_f64 (x y : float) : float :=
  if is_nan x || is_nan y then nan
  else if PrimFloat.ltb x y then y
  else if PrimFloat.ltb y x then x
  else if get_sign x then y else x.

(** An integer literal of the program, as a binary64 value (exact below
    [2^53]). *)
Definition float_ofZ (z : Z) : float :=
  if z <? 0 then PrimFloat.opp (of_uint63 (Uint63.of_Z (- z)))
  else of_uint63 (Uint63.of_Z z).

(** The length of [new Uint8Array(x)] for a binary64 [x]: NaN counts as 0,
    an infinity is a [RangeError]. *)
Definition ToIndex_f64 (x : float) : option float :=
  match Prim2SF x with
  | S754_nan | S754_zero _ => Some zero
  | S754_infinity _ => None
  | S754_finite s m e =>
      let a := if 0 <=? e then Z.pos m * 2 ^ e else Z.pos m / 2 ^ (- e) in
      if s && (0 <? a) then None
      else if 2 ^ 53 - 1 <? a then None
      else Some (float_ofZ a)
  end.

#[export] Instance Number_f64 : Number float := {|
  ofZ := float_ofZ;
  add := PrimFloat.add;
  sub := PrimFloat.sub;
  mul := PrimFloat.mul;
  div := PrimFloat.div;
  ltb := PrimFloat.ltb;
  leb := PrimFloat.leb;
  Math_abs := PrimFloat.abs;
  Math_round := Math_round_f64;
  Math_min2 := Math_min2_f64;
  Math_max2 := Math_max2_f64;
  ToIndex := ToIndex_f64;
|}.

(** *** binary64 values

    What the statements about the binary64 program say of a value: whether
    it is a number, finite, of a given sign, and where it stands in the
    order. *)

(** The place of a binary64 value other than NaN in the order of the
    values: the class first (the infinities, the negative and the positive
    finite values, the zeros), then exponent and mantissa. *)
Definition SFkey (x : spec_float) : Z * Z * Z :=
  match x with
  | S754_infinity true => (-2, 0, 0)
  | S754_finite true m e => (-1, - e, Z.neg m)
  | S754_zero _ => (0, 0, 0)
  | S754_finite false m e => (1, e, Z.pos m)
  | S754_infinity false => (2, 0, 0)
  | S754_nan => (3, 0, 0)
  end.

Definition key_le (a b : Z * Z * Z) : Prop :=
  let '(a1, a2, a3) := a in
  let '(b1, b2, b3) := b in
  a1 < b1 \/ (a1 = b1 /\ (a2 < b2 \/ (a2 = b2 /\ a3 <= b3))).

Definition key_lt (a b : Z * Z * Z) : Prop :=
  let '(a1, a2, a3) := a in
  let '(b1, b2, b3) := b in
  a1 < b1 \/ (a1 = b1 /\ (a2 < b2 \/ (a2 = b2 /\ a3 < b3))).

Definition SFnumber (x : spec_float) : Prop := x <> S754_nan.

(** A binary64 value other than NaN, and a finite one. *)
Definition f64_number (x : float) : Prop := SFnumber (Prim2SF x).

Definition f64_finite (x : float) : Prop :=
  match Prim2SF x with
  | S754_zero _ | S754_finite _ _ _ => True
  | _ => False
  end.

(** A binary64 value whose sign bit is [s] and that is not NaN. *)
Definition SFsigned (s : bool) (x : spec_float) : Prop :=
  match x with
  | S754_zero s' | S754_infinity s' | S754_finite s' _ _ => s' = s
  | S754_nan => False
  end.

Definition SFfinite (x : spec_float) : Prop :=
  match x with
  | S754_zero _ | S754_finite _ _ _ => True
  | _ => False
  end.

(** A positive finite value. *)
Definition SFpositive (x : spec_float) : Prop :=
  match x with
  | S754_finite false _ _ => True
  | _ => False
  end.

Definition f64_signed (s : bool) (x : float) : Prop := SFsigned s (Prim2SF x).
Definition f64_positive (x : float) : Prop := SFpositive (Prim2SF x).

(** The rational number that a finite binary64 value is; 0 for the others. *)
Definition exact_value (x : float) : Q :=
  match Prim2SF x with
  | S754_finite s m e =>
      ((if s then inject_Z (Z.neg m) else inject_Z (Z.pos m)) * Qpower 2 e)%Q
  | _ => 0%Q
  end.

(* ================================================================== *)
(** ** Types *)

Module SpeedTestResult.
Record t (num : Type) := Build {
  downloadSpeed : num;
  uploadSpeed : num;
  latency : num;
  jitter : num;
  timestamp : num;
}.
Arguments Build {num}.
Arguments downloadSpeed {num}.
Arguments uploadSpeed {num}.
Arguments latency {num}.
Arguments jitter {num}.
Arguments timestamp {num}.
End SpeedTestResult.

Inductive Quality := excellent | good | fair | poor | very_poor.

Module NetworkQuality.
Record t (num : Type) := Build {
  quality : Quality;
  downloadSpeed : num;
  uploadSpeed : num;
  latency : num;
  recommendation : string;
}.
Arguments Build {num}.
Arguments quality {num}.
Arguments downloadSpeed {num}.
Arguments uploadSpeed {num}.
Arguments latency {num}.
Arguments recommendation {num}.
End NetworkQuality.

Module Threshold.
Record t (num : Type) := Build { download : num; upload : num; latency : num }.
Arguments Build {num}.
Arguments download {num}.
Arguments upload {num}.
Arguments latency {num}.
End Threshold.

(** The shape of [QUALITY_THRESHOLDS]: one entry for each tier but the
    last. *)
Module QualityThresholds.
Record t (num : Type) := Build {
  excellent : Threshold.t num;
  good : Threshold.t num;
  fair : Threshold.t num;
  poor : Threshold.t num;
}.
Arguments Build {num}.
Arguments excellent {num}.
Arguments good {num}.
Arguments fair {num}.
Arguments poor {num}.
End QualityThresholds.

(* ================================================================== *)
(** ** Quality classification *)

Section Classifier.
Context {num : Type} `{Number num}.
Local Open Scope string_scope.
Local Open Scope js_scope.

Definition QUALITY_THRESHOLDS : QualityThresholds.t num :=
  QualityThresholds.Build
    (Threshold.Build (ofZ 50) (ofZ 10) (ofZ 30))
    (Threshold.Build (ofZ 25) (ofZ 5) (ofZ 50))
    (Threshold.Build (ofZ 10) (ofZ 2) (ofZ 100))
    (Threshold.Build (ofZ 5) (ofZ 1) (ofZ 200)).

Definition analyzeQuality (result : SpeedTestResult.t num) : NetworkQuality.t num :=
  let '(quality, recommendation) :=
    if (SpeedTestResult.downloadSpeed result
          >=? Threshold.download (QualityThresholds.excellent QUALITY_THRESHOLDS))
       && (SpeedTestResult.uploadSpeed result
             >=? Threshold.upload (QualityThresholds.excellent QUALITY_THRESHOLDS))
       && (SpeedTestResult.latency result
             <=? Threshold.latency (QualityThresholds.excellent QUALITY_THRESHOLDS))
    then (excellent, "Perfect for 4K streaming, gaming, and large file transfers.")
    else if (SpeedTestResult.downloadSpeed result
               >=? Threshold.download (QualityThresholds.good QUALITY_THRESHOLDS))
       && (SpeedTestResult.uploadSpeed result
             >=? Threshold.upload (QualityThresholds.good QUALITY_THRESHOLDS))
       && (SpeedTestResult.latency result
             <=? Threshold.latency (QualityThresholds.good QUALITY_THRESHOLDS))
    then (good, "Suitable for HD streaming, video calls, and online gaming.")
    else if (SpeedTestResult.downloadSpeed result
               >=? Threshold.download (QualityThresholds.fair QUALITY_THRESHOLDS))
       && (SpeedTestResult.uploadSpeed result
             >=? Threshold.upload (QualityThresholds.fair QUALITY_THRESHOLDS))
       && (SpeedTestResult.latency result
             <=? Threshold.latency (QualityThresholds.fair QUALITY_THRESHOLDS))
    then (fair, "Good for browsing and SD streaming. May experience delays in video calls.")
    else if (SpeedTestResult.downloadSpeed result
               >=? Threshold.download (QualityThresholds.poor QUALITY_THRESHOLDS))
       && (SpeedTestResult.uploadSpeed result
             >=? Threshold.upload (QualityThresholds.poor QUALITY_THRESHOLDS))
    then (poor, "Basic browsing only. Video streaming and calls will be problematic.")
    else (very_poor, "Very slow connection. Consider switching networks or contacting your ISP.")
  in
  NetworkQuality.Build quality
    (SpeedTestResult.downloadSpeed result)
    (SpeedTestResult.uploadSpeed result)
    (SpeedTestResult.latency result)
    recommendation.
End Classifier.


(* ================================================================== *)
(** ** The outside world: clock and network *)

Inductive Method := GET | HEAD | POST.

Record Request := { method : Method; url : string }.

(** One result of [reader.read()]: a chunk whose [value] may be undefined,
    the end of the stream, or a rejection. *)
Inductive Chunk (num : Type) :=
| ChunkValue (length : option num)
| ChunkDone
| ChunkError.
Arguments ChunkValue {num}.
Arguments ChunkDone {num}.
Arguments ChunkError {num}.

(** A response: [body] is the chunks its stream reader yields ([None] when
    [response.body] is null), [arrayBuffer] the [byteLength] of the whole
    body ([None] when reading it rejects). *)
Record Response (num : Type) := {
  body : option (list (Chunk num));
  arrayBuffer : option num;
}.
Arguments body {num}.
Arguments arrayBuffer {num}.

Inductive FetchResult (num : Type) :=
| Rejected
| Resolved (response : Response num).
Arguments Rejected {num}.
Arguments Resolved {num}.

(** [clock k] is what the [k]-th call of [performance.now()] returns,
    [network k r] how the [k]-th request ends when it is request [r]. *)
Record World (num : Type) := {
  clock : nat -> num;
  network : nat -> Request -> FetchResult num;
}.
Arguments clock {num}.
Arguments network {num}.

(** What a run has consumed and written so far: the number of clock
    readings, the requests issued (latest first), the lines written with
    [console.warn] (latest first), and the byte counter [totalBytes] of the
    throughput samplers, which an exception does not roll back. *)
Record State (num : Type) := {
  reads : nat;
  requests : list Request;
  console : list string;
  totalBytes : num;
}.
Arguments reads {num}.
Arguments requests {num}.
Arguments console {num}.
Arguments totalBytes {num}.

Inductive Error := JsError (message : string) | NetworkError.

(** How a run ends: with a value, with an exception, or without an answer
    when a loop was given too little fuel. *)
Inductive Outcome (A : Type) :=
| Return (a : A)
| Throw (e : Error)
| OutOfFuel.
Arguments Return {A}.
Arguments Throw {A}.
Arguments OutOfFuel {A}.

Section Effects.
Context {num : Type} `{Number num}.

Definition M (A : Type) : Type := World num -> State num -> Outcome A * State num.

Definition ret {A} (a : A) : M A := fun _ s => (Return a, s).

Definition bind {A B} (m : M A) (k : A -> M B) : M B :=
  fun w s =>
    match m w s with
    | (Return a, s') => k a w s'
    | (Throw e, s') => (Throw e, s')
    | (OutOfFuel, s') => (OutOfFuel, s')
    end.

Definition throw {A} (e : Error) : M A := fun _ s => (Throw e, s).

Definition out_of_fuel {A} : M A := fun _ s => (OutOfFuel, s).

(** [try { m } catch (error) { handler error }] *)
Definition try_catch {A} (m : M A) (handler : Error -> M A) : M A :=
  fun w s =>
    match m w s with
    | (Throw e, s') => handler e w s'
    | r => r
    end.

(** [performance.now()] *)
Definition performance_now : M num :=
  fun w s =>
    (Return (clock w (reads s)),
     {| reads := S (reads s); requests := requests s;
        console := console s; totalBytes := totalBytes s |}).

(** [await fetch(url, { method })], and the [https.request] of the latency
    probe, which resolves and rejects in the same way. *)
Definition fetch (m : Method) (u : string) : M (Response num) :=
  fun w s =>
    let r := {| method := m; url := u |} in
    (match network w (List.length (requests s)) r with
     | Rejected => Throw NetworkError
     | Resolved response => Return response
     end,
     {| reads := reads s; requests := r :: requests s;
        console := console s; totalBytes := totalBytes s |}).

(** [console.warn] and [console.error] *)
Definition console_warn (line : string) : M unit :=
  fun _ s =>
    (Return tt,
     {| reads := reads s; requests := requests s;
        console := line :: console s; totalBytes := totalBytes s |}).

Definition get_totalBytes : M num := fun _ s => (Return (totalBytes s), s).

Definition set_totalBytes (n : num) : M unit :=
  fun _ s =>
    (Return tt,
     {| reads := reads s; requests := requests s;
        console := console s; totalBytes := n |}).

End Effects.

Notation "x <- m ;; k" := (bind m (fun x => k))
  (at level 100, m at next level, right associativity).
Notation "m ;;; k" := (bind m (fun _ => k))
  (at level 100, right associativity).

Definition initial {num : Type} `{Number num} : State num :=
  {| reads := 0; requests := []; console := []; totalBytes := ofZ 0 |}.

(* ================================================================== *)
(** ** The tester *)

Module LatencyStats.
Record t (num : Type) := Build { avg : num; jitter : num; min : num; max : num }.
Arguments Build {num}.
Arguments avg {num}.
Arguments jitter {num}.
Arguments min {num}.
Arguments max {num}.
End LatencyStats.

Module QuickCheck.
Record t (num : Type) := Build { isOnline : bool; latency : num }.
Arguments Build {num}.
Arguments isOnline {num}.
Arguments latency {num}.
End QuickCheck.

(** An instance of the class: [this.options] is an object, a finite map
    from property names to values.  The type [SpeedTestOptions] lets each
    property be absent, a number, or [undefined], which is [None] here. *)
Record NetworkTester (num : Type) := {
  options : gmap string (option num);
  isBrowser : bool;
}.
Arguments options {num}.
Arguments isBrowser {num}.

Section Tester.
Context {num : Type} `{Number num}.
Local Open Scope string_scope.
Local Open Scope js_scope.

Definition DEFAULT_OPTIONS : gmap string (option num) :=
  {[ "downloadTestDuration" := Some (ofZ 5);
     "uploadTestDuration" := Some (ofZ 5);
     "latencyTestCount" := Some (ofZ 5);
     "testFileSize" := Some (ofZ 1024 * ofZ 100) ]}.

(** [constructor(options = {})]: the spread [{ ...DEFAULT_OPTIONS,
    ...options }] keeps every property of [options], one that holds
    [undefined] too, and takes the others from the defaults.  [has_window]
    and [has_document] say whether the globals [window] and [document] are
    defined. *)
Definition constructor (opts : gmap string (option num))
    (has_window has_document : bool) : NetworkTester num :=
  {| options := opts ∪ DEFAULT_OPTIONS;
     isBrowser := has_window && has_document |}.

(** [this.options.key]: [undefined] when the object has no such property
    or the property holds [undefined]. *)
Definition option_of (this : NetworkTester num) (key : string) : option num :=
  match options this !! key with
  | Some value => value
  | None => None
  end.

Definition downloadTestDuration (this : NetworkTester num) : option num :=
  option_of this "downloadTestDuration".
Definition uploadTestDuration (this : NetworkTester num) : option num :=
  option_of this "uploadTestDuration".
Definition latencyTestCount (this : NetworkTester num) : option num :=
  option_of this "latencyTestCount".
Definition testFileSize (this : NetworkTester num) : option num :=
  option_of this "testFileSize".

(** [a < b] where [b] is a number or [undefined]: [undefined] is converted
    to NaN, and nothing is less than NaN. *)
Definition lt_number (a : num) (b : option num) : bool :=
  match b with
  | Some b => a <? b
  | None => false
  end.

(** The length of [new Uint8Array(size)]: [undefined] gives an empty
    array. *)
Definition Uint8Array_length (size : option num) : option num :=
  match size with
  | Some size => ToIndex size
  | None => Some (ofZ 0)
  end.

(** *** testLatency *)

Definition latency_testUrls : list string :=
  [ "https://www.cloudflare.com/cdn-cgi/trace";
    "https://www.google.com/generate_204";
    "https://1.1.1.1/cdn-cgi/trace" ].

(** The body of the [for] loop: one probe, timed; [None] when it failed. *)
Definition latency_probe (i : nat) : M (option num) :=
  let url := nth (i mod List.length latency_testUrls) latency_testUrls "" in
  start <- performance_now ;;
  try_catch
    (fetch HEAD url ;;;
     end_ <- performance_now ;;
     ret (Some (end_ - start)))
    (fun _ =>
       console_warn ("Latency test failed for: " ++ url) ;;;
       ret None).

(** [for (let i = 0; i < this.options.latencyTestCount; i++)], from [i] on,
    with the samples pushed so far. *)
Fixpoint latency_for (fuel : nat) (this : NetworkTester num) (i : nat)
    (latencies : list num) : M (list num) :=
  match fuel with
  | O => out_of_fuel
  | S fuel' =>
      if lt_number (ofZ (Z.of_nat i)) (latencyTestCount this) then
        sample <- latency_probe i ;;
        latency_for fuel' this (S i)
          match sample with
          | Some d => latencies ++ [d]
          | None => latencies
          end
      else ret latencies
  end.

(** The statistics of a non-empty array of samples, [first :: rest]. *)
Definition latency_stats (first : num) (rest : list num) : LatencyStats.t num :=
  let latencies := first :: rest in
  let length := ofZ (Z.of_nat (List.length latencies)) in
  let avg := fold_left (fun a b => a + b) latencies (ofZ 0) / length in
  let min := fold_left Math_min2 rest first in
  let max := fold_left Math_max2 rest first in
  let jitter :=
    fold_left (fun sum lat => sum + Math_abs (lat - avg)) latencies (ofZ 0) / length in
  LatencyStats.Build avg jitter min max.

Definition testLatency (fuel : nat) (this : NetworkTester num)
  : M (LatencyStats.t num) :=
  latencies <- latency_for fuel this 0%nat [] ;;
  match latencies with
  | [] => throw (JsError "All latency tests failed")
  | first :: rest => ret (latency_stats first rest)
  end.

(** *** testDownloadSpeed *)

Definition download_testUrls : list string :=
  [ "https://speed.cloudflare.com/__down?bytes=10000000";
    "https://proof.ovh.net/files/10Mb.dat" ].

Definition add_totalBytes (n : num) : M unit :=
  total <- get_totalBytes ;;
  set_totalBytes (total + n).

(** The reader loop: [while (performance.now() < endTime)], one
    [reader.read()] per turn; a stream with no chunk left is done. *)
Fixpoint download_read (endTime : num) (chunks : list (Chunk num)) : M unit :=
  t <- performance_now ;;
  if t <? endTime then
    match chunks with
    | [] => ret tt
    | ChunkDone :: _ => ret tt
    | ChunkError :: _ => throw NetworkError
    | ChunkValue length :: chunks' =>
        add_totalBytes (default (ofZ 0) length) ;;;
        download_read endTime chunks'
    end
  else ret tt.

(** One endpoint: the inner [try] with its [catch]. *)
Definition download_request (this : NetworkTester num) (endTime : num)
    (url : string) : M unit :=
  try_catch
    (response <- fetch GET url ;;
     match (if isBrowser this then body response else None) with
     | Some chunks => download_read endTime chunks
     | None =>
         match arrayBuffer response with
         | Some byteLength => add_totalBytes byteLength
         | None => throw NetworkError
         end
     end)
    (fun _ => console_warn ("Download test failed for: " ++ url)).

(** [for (const url of testUrls)], with its [break] at the deadline. *)
Fixpoint download_for (this : NetworkTester num) (endTime : num)
    (urls : list string) : M unit :=
  match urls with
  | [] => ret tt
  | url :: urls' =>
      t <- performance_now ;;
      if t >=? endTime then ret tt
      else
        download_request this endTime url ;;;
        download_for this endTime urls'
  end.

Fixpoint download_while (fuel : nat) (this : NetworkTester num)
    (endTime : num) : M unit :=
  match fuel with
  | O => out_of_fuel
  | S fuel' =>
      t <- performance_now ;;
      if t <? endTime then
        download_for this endTime download_testUrls ;;;
        download_while fuel' this endTime
      else ret tt
  end.

(** The conversion both samplers end with. *)
Definition speed_Mbps (totalBytes duration : num) : num :=
  let speedBps := totalBytes / duration in
  let speedMbps := (speedBps * ofZ 8) / (ofZ 1024 * ofZ 1024) in
  Math_round (speedMbps * ofZ 100) / ofZ 100.

(** [while (performance.now() < endTime) ...] for
    [endTime = startTime + duration * 1000].  When [duration] is
    [undefined], [endTime] is NaN: the first reading of the clock is not
    before it, and the loop ends there. *)
Definition until_deadline (startTime : num) (duration : option num)
    (loop : num -> @M num unit) : @M num unit :=
  match duration return @M num unit with
  | Some duration => loop (startTime + duration * ofZ 1000)
  | None => performance_now ;;; ret tt
  end.

Definition testDownloadSpeed (fuel : nat) (this : NetworkTester num) : M num :=
  set_totalBytes (ofZ 0) ;;;
  startTime <- performance_now ;;
  try_catch
    (until_deadline startTime (downloadTestDuration this)
       (download_while fuel this) ;;;
     t <- performance_now ;;
     let duration := (t - startTime) / ofZ 1000 in
     total <- get_totalBytes ;;
     ret (speed_Mbps total duration))
    (fun _ =>
       console_warn "Download speed test failed:" ;;;
       ret (ofZ 0)).

(** *** testUploadSpeed *)

Definition upload_testUrl : string := "https://httpbin.org/post".

(** The [while] loop; the [break] of the [catch] ends it. *)
Fixpoint upload_while (fuel : nat) (endTime data_length : num) : M unit :=
  match fuel with
  | O => out_of_fuel
  | S fuel' =>
      t <- performance_now ;;
      if t <? endTime then
        sent <- try_catch
                  (fetch POST upload_testUrl ;;;
                   add_totalBytes data_length ;;;
                   ret true)
                  (fun _ =>
                     console_warn "Upload test request failed" ;;;
                     ret false) ;;
        if sent then upload_while fuel' endTime data_length else ret tt
      else ret tt
  end.

(** [new Uint8Array(this.options.testFileSize)] comes before the [try]: its
    [RangeError] reaches the caller.  The random bytes written into [data]
    are not read again by the method. *)
Definition testUploadSpeed (fuel : nat) (this : NetworkTester num) : M num :=
  match Uint8Array_length (testFileSize this) with
  | None => throw (JsError "Invalid typed array length")
  | Some data_length =>
      set_totalBytes (ofZ 0) ;;;
      startTime <- performance_now ;;
      try_catch
        (until_deadline startTime (uploadTestDuration this)
           (fun endTime => upload_while fuel endTime data_length) ;;;
         t <- performance_now ;;
         let duration := (t - startTime) / ofZ 1000 in
         total <- get_totalBytes ;;
         ret (speed_Mbps total duration))
        (fun _ =>
           console_warn "Upload speed test failed:" ;;;
           ret (ofZ 0))
  end.

(** *** quickCheck *)

Definition quickCheck : M (QuickCheck.t num) :=
  try_catch
    (start <- performance_now ;;
     fetch HEAD "https://www.google.com/generate_204" ;;;
     t <- performance_now ;;
     let latency := t - start in
     ret (QuickCheck.Build true latency))
    (fun _ => ret (QuickCheck.Build false (ofZ (-1)))).

End Tester.

(* ================================================================== *)
(** ** Provider names *)

(** A JavaScript string is a sequence of UTF-16 code units; [utf16 s] is
    the string written as the ASCII literal [s] in the program. *)
Definition js_string : Type := list N.

Definition utf16 (s : string) : js_string :=
  map N_of_ascii (list_ascii_of_string s).

(** [toLowerCase] turns the letters A to Z into a to z and leaves the other
    ASCII characters as they are.  What it does to a code unit above 127 is
    laid down in the Unicode tables: the capital letters of other alphabets
    are lower-cased, the Kelvin sign becomes k, a capital I with a dot above
    becomes i and a combining dot, a capital sigma depends on what surrounds
    it, and a surrogate pair is mapped as the one character it encodes.  The
    tables are not reproduced: [lower_other before c after] stands for the
    code units that replace [c] where it occurs between [before] and
    [after], and the statements hold whatever these are. *)
Class Unicode := { lower_other : js_string -> N -> js_string -> js_string }.

(** The interpretation that leaves the code units above 127 alone, for the
    examples that need one. *)
Definition ascii_only : Unicode := {| lower_other := fun _ c _ => [c] |}.

Section ProviderName.
Context `{Unicode}.
Local Open Scope N_scope.

Definition is_upper (c : N) : bool := (65 <=? c) && (c <=? 90).

(** [\d], without the flag [u]: the digits 0 to 9. *)
Definition is_digit (c : N) : bool := (48 <=? c) && (c <=? 57).

(** [\s], and what [trim] removes: the white space and the line terminators
    of ECMAScript, which are tab, line feed, vertical tab, form feed,
    carriage return, space, no-break space (U+00A0), U+1680, U+2000 to
    U+200A, the line and paragraph separators (U+2028, U+2029), U+202F,
    U+205F, U+3000 and the byte order mark (U+FEFF). *)
Definition is_space (c : N) : bool :=
  ((9 <=? c) && (c <=? 13))
  || (c =? 32) || (c =? 160) || (c =? 5760)
  || ((8192 <=? c) && (c <=? 8202))
  || (c =? 8232) || (c =? 8233) || (c =? 8239) || (c =? 8287)
  || (c =? 12288) || (c =? 65279).

Definition lower_ascii (c : N) : N := if is_upper c then c + 32 else c.

(** [toLowerCase] of [s] where it follows [before]. *)
Fixpoint lower_from (before s : js_string) : js_string :=
  match s with
  | [] => []
  | c :: s' =>
      (if c <? 128 then [lower_ascii c] else lower_other before c s')
      ++ lower_from (before ++ [c]) s'
  end.

Definition toLowerCase (s : js_string) : js_string := lower_from [] s.

Fixpoint starts_with (pattern s : js_string) : bool :=
  match pattern, s with
  | [], _ => true
  | p :: pattern', c :: s' => (p =? c) && starts_with pattern' s'
  | _ :: _, [] => false
  end.

(** [s.includes(pattern)] *)
Fixpoint includes (s pattern : js_string) : bool :=
  starts_with pattern s
  || match s with
     | [] => false
     | _ :: s' => includes s' pattern
     end.

(** The longest prefix of code units satisfying [p], removed. *)
Fixpoint drop_while (p : N -> bool) (s : js_string) : js_string :=
  match s with
  | [] => []
  | c :: s' => if p c then drop_while p s' else s
  end.

(** [s.trim()] *)
Definition trim (s : js_string) : js_string :=
  rev (drop_while is_space (rev (drop_while is_space s))).

(** [s.replace(/^(AS\d+\s+)/i, '')]: at the start of [s], an [A] and an
    [S] in either case (the flag [i] makes no other character match them),
    one or more digits, one or more white-space characters.  Digits and
    white space being disjoint, the greedy match takes all the digits and
    then all the white space. *)
Definition replace_AS_prefix (s : js_string) : js_string :=
  match s with
  | a :: b :: digits =>
      if ((a =? 65) || (a =? 97)) && ((b =? 83) || (b =? 115)) then
        let spaces := drop_while is_digit digits in
        let rest := drop_while is_space spaces in
        if (List.length spaces <? List.length digits)%nat
           && (List.length rest <? List.length spaces)%nat
        then rest
        else s
      else s
  | _ => s
  end.

Definition normalizeProviderName (orgString : option js_string)
  : option js_string :=
  match orgString with
  | None => None
  | Some [] => None
  | Some orgString =>
      let lower := toLowerCase orgString in
      if includes lower (utf16 "mtn") then Some (utf16 "MTN")
      else if includes lower (utf16 "airtel") then Some (utf16 "Airtel")
      else if includes lower (utf16 "glo") || includes lower (utf16 "globacom")
      then Some (utf16 "Glo")
      else if includes lower (utf16 "9mobile") || includes lower (utf16 "etisalat")
      then Some (utf16 "9mobile")
      else if includes lower (utf16 "vodafone") then Some (utf16 "Vodafone")
      else if includes lower (utf16 "orange") then Some (utf16 "Orange")
      else if includes lower (utf16 "verizon") then Some (utf16 "Verizon")
      else if includes lower (utf16 "at&t") || includes lower (utf16 "att")
      then Some (utf16 "AT&T")
      else if includes lower (utf16 "t-mobile") then Some (utf16 "T-Mobile")
      else if includes lower (utf16 "telkom") then Some (utf16 "Telkom")
      else Some (trim (replace_AS_prefix orgString))
  end.

End ProviderName.

(* ================================================================== *)
(** ** The properties, in the specification's terms *)

(** *** Quality tiers

    The tiers in the order in which they are tried, the condition of each
    on (download, upload, latency), and the recommendation each carries. *)
Definition tier_order : list Quality := [excellent; good; fair; poor; very_poor].

Definition tier_condition (tier : Quality) (d u l : Q) : Prop :=
  match tier with
  | excellent => (50 <= d /\ 10 <= u /\ l <= 30)%Q
  | good => (25 <= d /\ 5 <= u /\ l <= 50)%Q
  | fair => (10 <= d /\ 2 <= u /\ l <= 100)%Q
  | poor => (5 <= d /\ 1 <= u)%Q
  | very_poor => True
  end.

Definition tier_recommendation (tier : Quality) : string :=
  match tier with
  | excellent => "Perfect for 4K streaming, gaming, and large file transfers."
  | good => "Suitable for HD streaming, video calls, and online gaming."
  | fair => "Good for browsing and SD streaming. May experience delays in video calls."
  | poor => "Basic browsing only. Video streaming and calls will be problematic."
  | very_poor => "Very slow connection. Consider switching networks or contacting your ISP."
  end.

(** The condition of a tier, decided. *)
Definition tier_holds (tier : Quality) (d u l : Q) : bool :=
  match tier with
  | excellent => Qle_bool 50 d && Qle_bool 10 u && Qle_bool l 30
  | good => Qle_bool 25 d && Qle_bool 5 u && Qle_bool l 50
  | fair => Qle_bool 10 d && Qle_bool 2 u && Qle_bool l 100
  | poor => Qle_bool 5 d && Qle_bool 1 u
  | very_poor => true
  end.

(** [tier] is the first tier of [tier_order] whose condition holds. *)
Definition first_matching_tier (tier : Quality) (d u l : Q) : Prop :=
  exists before after,
    tier_order = before ++ tier :: after
    /\ tier_condition tier d u l
    /\ forall t, In t before -> ~ tier_condition t d u l.

(** *** Latency samples *)

(** The request of probe [i]. *)
Definition probe_request (i : nat) : Request :=
  {| method := HEAD;
     url := nth (i mod 3) latency_testUrls ""%string |}.

(** The samples of [n] probes, the first being probe [i], made when [r]
    readings of the clock and [k] requests have been consumed: a probe that
    resolves contributes the difference of the two readings around it, a
    probe that is rejected contributes nothing and costs one reading. *)
Fixpoint collected {num : Type} `{Number num} (w : World num) (n i r k : nat)
  : list num :=
  match n with
  | O => []
  | S n' =>
      match network w k (probe_request i) with
      | Resolved _ =>
          sub (clock w (S r)) (clock w r) :: collected w n' (S i) (S (S r)) (S k)
      | Rejected => collected w n' (S i) (S r) (S k)
      end
  end.

(** The number of turns of [for (let i = 0; i < count; i++)]: none when
    [count] is [undefined]. *)
Definition turns (count : option Q) : nat :=
  match count with
  | Some count => Z.to_nat (Qceiling count)
  | None => 0
  end.

Definition Qsum (l : list Q) : Q := fold_right Qplus 0%Q l.

Definition mean (l : list Q) : Q := (Qsum l / inject_Z (Z.of_nat (List.length l)))%Q.

(** Mean absolute deviation from the mean. *)
Definition mean_abs_deviation (l : list Q) : Q :=
  mean (map (fun x => Qabs (x - mean l)%Q) l).

Definition is_minimum (m : Q) (l : list Q) : Prop :=
  In m l /\ forall x, In x l -> (m <= x)%Q.

Definition is_maximum (m : Q) (l : list Q) : Prop :=
  In m l /\ forall x, In x l -> (x <= m)%Q.

(** The sum of [l], accumulated from the left and from 0 as [reduce] does,
    and the number of its elements, in the program's numbers. *)
Definition sum_of {num : Type} `{Number num} (l : list num) : num :=
  fold_left add l (ofZ 0).

Definition count_of {num : Type} `{Number num} (l : list num) : num :=
  ofZ (Z.of_nat (List.length l)).

(** [m] is an element of [l] that the program's [<=] puts below, or above,
    every element of [l]. *)
Definition least {num : Type} `{Number num} (m : num) (l : list num) : Prop :=
  In m l /\ forall x, In x l -> leb m x = true.

Definition greatest {num : Type} `{Number num} (m : num) (l : list num) : Prop :=
  In m l /\ forall x, In x l -> leb x m = true.

(** The turns of [for (let i = 0; i < count; i++)] are [n]: the test holds
    for each [i] below [n] and fails for [n]. *)
Definition turns_are {num : Type} `{Number num} (count : option num) (n : nat)
  : Prop :=
  (forall i, (i < n)%nat -> lt_number (ofZ (Z.of_nat i)) count = true)
  /\ lt_number (ofZ (Z.of_nat n)) count = false.

(** *** Worlds *)

Definition all_rejected {num : Type} (w : World num) : Prop :=
  forall k r, network w k r = Rejected.

(** From reading [r] on, exactly the next [m] readings are before
    [deadline], as the program compares them: for each of them
    [t < deadline] holds and [t >= deadline] fails, and for every later one
    [t < deadline] fails and [t >= deadline] holds. *)
Definition readings_before {num : Type} `{Number num} (w : World num)
    (deadline : num) (r m : nat) : Prop :=
  (forall k, (r <= k < r + m)%nat ->
     ltb (clock w k) deadline = true /\ leb deadline (clock w k) = false)
  /\ (forall k, (r + m <= k)%nat ->
        ltb (clock w k) deadline = false /\ leb deadline (clock w k) = true).

(** The requests a download run issues when every request fails and [m]
    readings are before the deadline.  The readings come in rounds of three:
    one for the [while], then one for each of the two endpoints, and each
    endpoint reading before the deadline issues a request. *)
Fixpoint download_attempts (m : nat) : nat :=
  match m with
  | S (S (S m')) => 2 + download_attempts m'
  | 2%nat => 1
  | _ => 0
  end.

(** The requests an upload run issues in the same situation. *)
Definition upload_attempts (m : nat) : nat := Nat.min m 1.

(** A world given by the list of its clock readings ([last] from then on)
    and the list of the results of its requests ([Rejected] from then on). *)
Definition world_of {num : Type} (readings : list num) (last : num)
    (results : list (FetchResult num)) : World num :=
  {| clock := fun k => nth k readings last;
     network := fun k _ => nth k results Rejected |}.

(** A response whose whole body has [n] bytes and no stream. *)
Definition buffer_of {num : Type} (n : num) : FetchResult num :=
  Resolved {| body := None; arrayBuffer := Some n |}.

(** A response to a probe: a resolved request whose body is empty. *)
Definition resolved {num : Type} `{Number num} : FetchResult num :=
  Resolved {| body := None; arrayBuffer := Some (ofZ 0) |}.

(** A tester with the default options, outside a browser. *)
Definition default_tester {num : Type} `{Number num} : NetworkTester num :=
  constructor ∅ false false.

(** Five probes that all resolve, after 100, 120, 110, 90 and 130 ms. *)
Definition five_probes {num : Type} `{Number num} : World num :=
  world_of (map ofZ [0; 100; 100; 220; 220; 330; 330; 420; 420; 550]) (ofZ 550)
    [resolved; resolved; resolved; resolved; resolved].

(** Five probes of which the second and the fourth resolve, after 42 and
    48 ms, and the others are rejected. *)
Definition two_of_five {num : Type} `{Number num} : World num :=
  world_of (map ofZ [0; 10; 52; 60; 70; 118; 130]) (ofZ 130)
    [Rejected; resolved; Rejected; resolved; Rejected].

(** Three probes that each take 45.7 ms (0x1.6d9999999999ap+5), measured
    in binary64. *)
Definition three_equal_probes : World float :=
  let d := 0x1.6d9999999999ap+5%float in
  let t := next_up (d + d)%float in
  world_of [0; d; d; d + d; t; t + d]%float (t + d)%float
    [resolved; resolved; resolved].

(** A world in which every request is rejected and the [k]-th reading of
    the clock is [k] seconds. *)
Definition ticking {num : Type} `{Number num} : World num :=
  {| clock := fun k => ofZ (1000 * Z.of_nat k);
     network := fun _ _ => Rejected |}.

(** A world in which every request is rejected and the clock, of a coarse
    resolution, reads 0 three times before it reads 5000. *)
Definition stalled {num : Type} `{Number num} : World num :=
  world_of (map ofZ [0; 0; 0]) (ofZ 5000) [].

(** A tester that samples for two seconds and uploads 12,500,000 bytes. *)
Definition two_second_tester {num : Type} `{Number num} : NetworkTester num :=
  constructor
    {[ "downloadTestDuration"%string := Some (ofZ 2);
       "uploadTestDuration"%string := Some (ofZ 2);
       "testFileSize"%string := Some (ofZ 12500000) ]}
    false false.

(** A world in which the first request brings 12,500,000 bytes and ends two
    seconds after the start, seen by a download run. *)
Definition two_second_download {num : Type} `{Number num} : World num :=
  world_of (map ofZ [0; 0; 0; 2000; 2000; 2000]) (ofZ 2000)
    [buffer_of (ofZ 12500000)].

(** The same, seen by an upload run. *)
Definition two_second_upload {num : Type} `{Number num} : World num :=
  world_of (map ofZ [0; 0; 2000; 2000]) (ofZ 2000) [resolved].

(** In binary64: a tester that samples for a tenth of a second, and a world
    in which the first request brings 15,540,224 bytes and ends 100 ms after
    the start, seen by a download run. *)
Definition tenth_second_tester : NetworkTester float :=
  constructor {[ "downloadTestDuration"%string := Some (1 / 10)%float ]} false false.

Definition tenth_second_download : World float :=
  world_of [0; 0; 0; 100; 100; 100]%float 100%float [buffer_of 15540224%float].

(** *** Options *)

(** The four properties of the options object that the class reads. *)
Definition recognized : list string :=
  [ "downloadTestDuration"; "uploadTestDuration"; "latencyTestCount";
    "testFileSize" ]%string.


(** *** Provider names

    The carriers in priority order: the substrings that select each and the
    name returned for it. *)
Definition carrier_rules : list (list js_string * js_string) :=
  [ ([utf16 "mtn"], utf16 "MTN");
    ([utf16 "airtel"], utf16 "Airtel");
    ([utf16 "glo"; utf16 "globacom"], utf16 "Glo");
    ([utf16 "9mobile"; utf16 "etisalat"], utf16 "9mobile");
    ([utf16 "vodafone"], utf16 "Vodafone");
    ([utf16 "orange"], utf16 "Orange");
    ([utf16 "verizon"], utf16 "Verizon");
    ([utf16 "at&t"; utf16 "att"], utf16 "AT&T");
    ([utf16 "t-mobile"], utf16 "T-Mobile");
    ([utf16 "telkom"], utf16 "Telkom") ].

(** The name of the first rule one of whose substrings occurs in [lower]. *)
Definition first_carrier (lower : js_string) : option js_string :=
  snd <$> List.find (fun rule => existsb (includes lower) (fst rule)) carrier_rules.

(** [pattern] occurs in [s]. *)
Definition occurs_in (pattern s : js_string) : Prop :=
  exists before after, s = (before ++ pattern ++ after)%list.

Definition all_chars (p : N -> bool) (s : js_string) : bool := forallb p s.

(** The longest prefix of code units satisfying [p]. *)
Fixpoint take_while (p : N -> bool) (s : js_string) : js_string :=
  match s with
  | [] => []
  | c :: s' => if p c then c :: take_while p s' else []
  end.

Definition first_char_is (p : N -> bool) (s : js_string) : bool :=
  match s with
  | [] => false
  | c :: _ => p c
  end.

(** [s] starts with an autonomous-system prefix followed by [rest]: [A] and
    [S] in either case, digits, white space, and [rest] not starting with
    white space. *)
Definition has_AS_prefix (s rest : js_string) : Prop :=
  exists a b digits spaces,
    s = (a :: b :: digits ++ spaces ++ rest)%list
    /\ (a = 65 \/ a = 97)%N /\ (b = 83 \/ b = 115)%N
    /\ digits <> [] /\ all_chars is_digit digits = true
    /\ spaces <> [] /\ all_chars is_space spaces = true
    /\ first_char_is is_space rest = false.

(** [s] neither starts nor ends with white space. *)
Definition trimmed (s : js_string) : Prop :=
  first_char_is is_space s = false
  /\ first_char_is is_space (rev s) = false.

(** [s] is written in ASCII. *)
Definition is_ascii (s : js_string) : Prop := Forall (fun c => (c < 128)%N) s.

(* ================================================================== *)
(** ** The remaining methods and functions *)

(** A value as JavaScript sees it at run time, where the program reads the
    properties of parsed JSON: the content of an object or array is not
    looked at. *)
Inductive JsValue (num : Type) :=
| JsUndefined
| JsNull
| JsBoolean (b : bool)
| JsNumber (n : num)
| JsString (s : js_string)
| JsObject.
Arguments JsUndefined {num}.
Arguments JsNull {num}.
Arguments JsBoolean {num}.
Arguments JsNumber {num}.
Arguments JsString {num}.
Arguments JsObject {num}.

(** What [await response.json()] gives: a rejection, [null], or a value with
    its properties (a number, a string or an array has none of the
    properties the program reads). *)
Inductive Json (num : Type) :=
| JsonRejected
| JsonNull
| JsonValue (properties : gmap string (JsValue num)).
Arguments JsonRejected {num}.
Arguments JsonNull {num}.
Arguments JsonValue {num}.

Module NetworkProvider.
Record t (num : Type) := Build {
  name : option js_string;
  country : JsValue num;
  isp : JsValue num;
  asn : JsValue num;
}.
Arguments Build {num}.
Arguments name {num}.
Arguments country {num}.
Arguments isp {num}.
Arguments asn {num}.
End NetworkProvider.

Definition Quality_eqb (a b : Quality) : bool :=
  match a, b with
  | excellent, excellent | good, good | fair, fair | poor, poor
  | very_poor, very_poor => true
  | _, _ => false
  end.

Section Facade.
Context {num : Type} `{Number num} `{Unicode}.
Local Open Scope string_scope.
Local Open Scope js_scope.

(** [runSpeedTest]; [Date_now] is what [Date.now()] returns when the result
    is built. *)
Definition runSpeedTest (fuel : nat) (this : NetworkTester num) (Date_now : num)
  : M (SpeedTestResult.t num) :=
  latency <- testLatency fuel this ;;
  downloadSpeed <- testDownloadSpeed fuel this ;;
  uploadSpeed <- testUploadSpeed fuel this ;;
  ret (SpeedTestResult.Build downloadSpeed uploadSpeed
         (LatencyStats.avg latency) (LatencyStats.jitter latency) Date_now).

(** [isNetworkGood]: a tester with the default options, a full run, and
    [['excellent', 'good'].includes(quality.quality)]. *)
Definition isNetworkGood (fuel : nat) (has_window has_document : bool)
    (Date_now : num) : M bool :=
  let tester := constructor ∅ has_window has_document in
  result <- runSpeedTest fuel tester Date_now ;;
  let quality := analyzeQuality result in
  ret (existsb (Quality_eqb (NetworkQuality.quality quality)) [excellent; good]).

(** *** getNetworkProvider *)

(** Whether [if (v)] takes the branch. *)
Definition truthy (v : JsValue num) : bool :=
  match v with
  | JsUndefined | JsNull => false
  | JsBoolean b => b
  | JsNumber n => (n <? ofZ 0) || (ofZ 0 <? n)
  | JsString s => match s with [] => false | _ :: _ => true end
  | JsObject => true
  end.

(** [a || b] *)
Definition or_else (a b : JsValue num) : JsValue num :=
  if truthy a then a else b.

(** [await response.json()] for the response to request [k]. *)
Definition response_json (json : nat -> Json num) (k : nat) : M (Json num) :=
  match json k return @M num (Json num) with
  | JsonRejected => throw NetworkError
  | data => ret data
  end.

(** [data.key]: reading a property of [null] is a [TypeError], a property
    that is missing reads as undefined. *)
Definition property (data : Json num) (key : string) : M (JsValue num) :=
  match data return @M num (JsValue num) with
  | JsonValue properties => ret (default JsUndefined (properties !! key))
  | _ => throw (JsError "Cannot read properties of null")
  end.

(** [this.normalizeProviderName(v)] on a value that need not be a string:
    a falsy value gives [null], and a truthy one that is no string has no
    [toLowerCase]. *)
Definition normalizeProviderName_of (v : JsValue num) : M (option js_string) :=
  if truthy v then
    match v return @M num (option js_string) with
    | JsString s => ret (normalizeProviderName (Some s))
    | _ => throw (JsError "orgString.toLowerCase is not a function")
    end
  else ret None.

Definition provider_services : list string :=
  [ "https://ipapi.co/json/"; "https://ip-api.com/json/" ].

Definition no_provider : NetworkProvider.t num :=
  NetworkProvider.Build None JsNull JsNull JsNull.

(** The number of requests issued so far. *)
Definition request_count : @M num nat :=
  fun _ s => (Return (List.length (requests s)), s).

(** One turn of [for (const service of services)]: the inner [try] with its
    [catch].  [Some provider] is the [return] of the method, [None] the
    passage to the next service.  [json k] is what [response.json()] gives
    for the response to request [k]. *)
Definition provider_attempt (json : nat -> Json num) (service : string)
  : M (option (NetworkProvider.t num)) :=
  try_catch
    (k <- request_count ;;
     fetch GET service ;;;
     data <- response_json json k ;;
     if includes (utf16 service) (utf16 "ipapi.co") then
       org <- property data "org" ;;
       asn <- property data "asn" ;;
       name <- normalizeProviderName_of (or_else org asn) ;;
       country_name <- property data "country_name" ;;
       ret (Some (NetworkProvider.Build name
                    (or_else country_name JsNull)
                    (or_else org JsNull)
                    (or_else asn JsNull)))
     else if includes (utf16 service) (utf16 "ip-api.com") then
       isp <- property data "isp" ;;
       org <- property data "org" ;;
       name <- normalizeProviderName_of (or_else isp org) ;;
       country <- property data "country" ;;
       as_ <- property data "as" ;;
       ret (Some (NetworkProvider.Build name
                    (or_else country JsNull)
                    (or_else isp JsNull)
                    (or_else as_ JsNull)))
     else ret None)
    (fun _ =>
       console_warn ("Failed to fetch from " ++ service) ;;;
       ret None).

Fixpoint provider_for (json : nat -> Json num) (services : list string)
  : M (NetworkProvider.t num) :=
  match services with
  | [] => ret no_provider
  | service :: services' =>
      found <- provider_attempt json service ;;
      match found with
      | Some provider => ret provider
      | None => provider_for json services'
      end
  end.

Definition getNetworkProvider (json : nat -> Json num)
  : M (NetworkProvider.t num) :=
  try_catch
    (provider_for json provider_services)
    (fun _ =>
       console_warn "Failed to detect network provider:" ;;;
       ret no_provider).

End Facade.

(** *** Further properties *)

(** The tiers from worst to best. *)
Definition tier_rank (tier : Quality) : nat :=
  match tier with
  | very_poor => 0
  | poor => 1
  | fair => 2
  | good => 3
  | excellent => 4
  end.

Definition has_method (m : Method) (r : Request) : Prop := method r = m.

(** A clock that never goes back. *)
Definition monotone (w : World Q) : Prop :=
  forall i j, (i <= j)%nat -> (clock w i <= clock w j)%Q.

(** A world in which every request resolves with an empty body and the
    [k]-th reading of the clock is [10 * k] ms. *)
Definition steady : World Q :=
  {| clock := fun k => inject_Z (10 * Z.of_nat k);
     network := fun _ _ => resolved |}.

(** From [s] to [s'] the run has issued requests of method [m] only. *)
Definition issued {num : Type} (m : Method) (s s' : State num) : Prop :=
  exists new, requests s' = new ++ requests s /\ Forall (has_method m) new.

(** The probes in the order in which they are made. *)
Definition probe_requests (n : nat) : list Request := map probe_request (seq 0 n).

(** The request of the upload sampler. *)
Definition upload_request : Request := {| method := POST; url := upload_testUrl |}.

(** The bytes a response brings to a download run that reads it with
    [arrayBuffer()]: none when the request, or the reading of the body, is
    rejected. *)
Definition byteLength_of (r : FetchResult Q) : Q :=
  match r with
  | Resolved {| arrayBuffer := Some byteLength |} => byteLength
  | _ => 0%Q
  end.

(** The bytes brought by the requests [new], in the order in which they are
    made, the first being the [k]-th request of the world. *)
Fixpoint buffered (w : World Q) (k : nat) (new : list Request) : Q :=
  match new with
  | [] => 0%Q
  | r :: new' => (byteLength_of (network w k r) + buffered w (S k) new')%Q
  end.

Definition download_request_of (r : Request) : Prop :=
  method r = GET /\ In (url r) download_testUrls.

(** *** Provider lookup *)

Section ProviderAnswers.
Context {num : Type} `{Number num}.
Local Open Scope string_scope.

Definition ipapi_co : Request := {| method := GET; url := "https://ipapi.co/json/" |}.
Definition ip_api_com : Request := {| method := GET; url := "https://ip-api.com/json/" |}.

(** [data.key] of a value with properties. *)
Definition field (properties : gmap string (JsValue num)) (key : string)
  : JsValue num :=
  default JsUndefined (properties !! key).

Definition text_of (v : JsValue num) : option js_string :=
  match v with
  | JsString s => Some s
  | _ => None
  end.

(** A value that [normalizeProviderName] takes without an exception: a
    falsy one or a string. *)
Definition nameable (v : JsValue num) : bool :=
  negb (truthy v) || match v with JsString _ => true | _ => false end.

Definition null_or_truthy (v : JsValue num) : Prop :=
  v = JsNull \/ truthy v = true.

(** The state after one more request and after one more line on the
    console. *)
Definition requested (r : Request) (s : State num) : State num :=
  {| reads := reads s; requests := r :: requests s;
     console := console s; totalBytes := totalBytes s |}.

Definition warned (line : string) (s : State num) : State num :=
  {| reads := reads s; requests := requests s;
     console := line :: console s; totalBytes := totalBytes s |}.

(** A service answers request [k] when the request resolves, its body
    parses to a value other than [null], and the value the name is taken
    from is nameable. *)
Definition answers (w : World num) (json : nat -> Json num) (k : nat)
    (r : Request) (key key' : string) : bool :=
  match network w k r, json k with
  | Resolved _, JsonValue properties =>
      nameable (or_else (field properties key) (field properties key'))
  | _, _ => false
  end.

End ProviderAnswers.

(** *** Streamed downloads *)

(** [value?.length || 0] of a chunk of a stream. *)
Definition chunk_bytes (c : Chunk Q) : Q :=
  match c with
  | ChunkValue (Some length) => length
  | _ => 0%Q
  end.

Definition is_value (c : Chunk Q) : Prop :=
  match c with
  | ChunkValue _ => True
  | _ => False
  end.

(** A response whose stream yields 1000 bytes, a chunk without a value and
    500 bytes, and then ends; and a world, for a browser, in which the first
    request brings it and the clock advances by 10 ms at each reading. *)
Definition streamed_response : Response Q :=
  {| body := Some [ChunkValue (Some 1000%Q); ChunkValue None;
                   ChunkValue (Some 500%Q); ChunkDone];
     arrayBuffer := None |}.

Definition streaming : World Q :=
  {| clock := fun k => inject_Z (10 * Z.of_nat k);
     network := fun k _ => match k with O => Resolved streamed_response | _ => Rejected end |}.

(* ================================================================== *)
(** * Proofs *)

(** ** binary64 *)

Lemma SFleb_key (x y : spec_float) :
  SFnumber x -> SFnumber y -> (SFleb x y = true <-> key_le (SFkey x) (SFkey y)).
Proof.
  unfold SFnumber, SFleb.
  destruct x as [[] | [] | | [] mx ex], y as [[] | [] | | [] my ey];
    intros Hx Hy; try congruence; cbn [SFcompare SFkey key_le];
    try (split; [intros _; lia | reflexivity]);
    try (split; [discriminate | intros; lia]).
  - destruct (Z.compare_spec ex ey) as [-> | Hlt | Hgt].
    + change (Pos.compare_cont Eq mx my) with (Pos.compare mx my).
      destruct (Pos.compare_spec mx my) as [-> | Hm | Hm]; cbn [CompOpp];
        (split; [try discriminate; intros _; lia | try reflexivity; intros; lia]).
    + split; [discriminate | intros; lia].
    + split; [intros _; lia | reflexivity].
  - destruct (Z.compare_spec ex ey) as [-> | Hlt | Hgt].
    + change (Pos.compare_cont Eq mx my) with (Pos.compare mx my).
      destruct (Pos.compare_spec mx my) as [-> | Hm | Hm];
        (split; [try discriminate; intros _; lia | try reflexivity; intros; lia]).
    + split; [intros _; lia | reflexivity].
    + split; [discriminate | intros; lia].
Qed.

Lemma SFltb_key (x y : spec_float) :
  SFnumber x -> SFnumber y -> (SFltb x y = true <-> key_lt (SFkey x) (SFkey y)).
Proof.
  unfold SFnumber, SFltb.
  destruct x as [[] | [] | | [] mx ex], y as [[] | [] | | [] my ey];
    intros Hx Hy; try congruence; cbn [SFcompare SFkey key_lt];
    try (split; [intros _; lia | reflexivity]);
    try (split; [discriminate | intros; lia]).
  - destruct (Z.compare_spec ex ey) as [-> | Hlt | Hgt].
    + change (Pos.compare_cont Eq mx my) with (Pos.compare mx my).
      destruct (Pos.compare_spec mx my) as [-> | Hm | Hm]; cbn [CompOpp];
        (split; [try discriminate; intros _; lia | try reflexivity; intros; lia]).
    + split; [discriminate | intros; lia].
    + split; [intros _; lia | reflexivity].
  - destruct (Z.compare_spec ex ey) as [-> | Hlt | Hgt].
    + change (Pos.compare_cont Eq mx my) with (Pos.compare mx my).
      destruct (Pos.compare_spec mx my) as [-> | Hm | Hm];
        (split; [try discriminate; intros _; lia | try reflexivity; intros; lia]).
    + split; [intros _; lia | reflexivity].
    + split; [discriminate | intros; lia].
Qed.

Lemma SFcompare_refl (x : spec_float) : SFnumber x -> SFcompare x x = Some Eq.
Proof.
  unfold SFnumber. destruct x as [[] | [] | | [] m e]; intros Hx; try congruence;
    cbn [SFcompare]; try reflexivity; rewrite Z.compare_refl;
    change (Pos.compare_cont Eq m m) with (Pos.compare m m);
    now rewrite Pos.compare_refl.
Qed.

Lemma f64_finite_number (x : float) : f64_finite x -> f64_number x.
Proof. unfold f64_finite, f64_number, SFnumber. destruct (Prim2SF x); congruence || tauto. Qed.

Lemma is_nan_f64_number (x : float) : is_nan x = false <-> f64_number x.
Proof.
  unfold is_nan, f64_number. rewrite FloatAxioms.eqb_spec, negb_false_iff. unfold SFeqb. split.
  - intros E Hx. unfold SFnumber in *. rewrite Hx in E. discriminate E.
  - intros Hx. now rewrite SFcompare_refl.
Qed.

Lemma f64_leb_key (x y : float) :
  f64_number x -> f64_number y ->
  (PrimFloat.leb x y = true <-> key_le (SFkey (Prim2SF x)) (SFkey (Prim2SF y))).
Proof. intros Hx Hy. rewrite FloatAxioms.leb_spec. now apply SFleb_key. Qed.

Lemma f64_ltb_key (x y : float) :
  f64_number x -> f64_number y ->
  (PrimFloat.ltb x y = true <-> key_lt (SFkey (Prim2SF x)) (SFkey (Prim2SF y))).
Proof. intros Hx Hy. rewrite FloatAxioms.ltb_spec. now apply SFltb_key. Qed.

Ltac f64_keys :=
  repeat match goal with
         | |- context [SFkey ?x] =>
             let a := fresh "a" in let b := fresh "b" in let c := fresh "c" in
             destruct (SFkey x) as [[a b] c]
         | H : context [SFkey ?x] |- _ =>
             let a := fresh "a" in let b := fresh "b" in let c := fresh "c" in
             destruct (SFkey x) as [[a b] c]
         end;
  unfold key_le, key_lt in *.

Lemma f64_leb_refl (x : float) : f64_number x -> PrimFloat.leb x x = true.
Proof. intros Hx. apply f64_leb_key; auto. f64_keys. lia. Qed.

Lemma f64_leb_trans (x y z : float) :
  f64_number x -> f64_number y -> f64_number z ->
  PrimFloat.leb x y = true -> PrimFloat.leb y z = true -> PrimFloat.leb x z = true.
Proof.
  intros Hx Hy Hz. rewrite !f64_leb_key by assumption. f64_keys. lia.
Qed.

Lemma f64_ltb_leb (x y : float) :
  f64_number x -> f64_number y -> PrimFloat.ltb x y = true -> PrimFloat.leb x y = true.
Proof. intros Hx Hy. rewrite f64_leb_key, f64_ltb_key by assumption. f64_keys. lia. Qed.

Lemma f64_not_ltb_leb (x y : float) :
  f64_number x -> f64_number y -> PrimFloat.ltb x y = false -> PrimFloat.leb y x = true.
Proof.
  intros Hx Hy E. apply not_true_iff_false in E.
  rewrite f64_ltb_key in E by assumption. rewrite f64_leb_key by assumption.
  f64_keys. lia.
Qed.

Lemma Math_min2_f64_spec (x y : float) :
  f64_number x -> f64_number y ->
  (Math_min2_f64 x y = x \/ Math_min2_f64 x y = y)
  /\ PrimFloat.leb (Math_min2_f64 x y) x = true
  /\ PrimFloat.leb (Math_min2_f64 x y) y = true.
Proof.
  intros Hx Hy. unfold Math_min2_f64.
  rewrite (proj2 (is_nan_f64_number x) Hx), (proj2 (is_nan_f64_number y) Hy). cbn [orb].
  destruct (PrimFloat.ltb x y) eqn:Exy.
  - split; [now left |]. split; [now apply f64_leb_refl | now apply f64_ltb_leb].
  - destruct (PrimFloat.ltb y x) eqn:Eyx.
    + split; [now right |]. split; [now apply f64_ltb_leb | now apply f64_leb_refl].
    + pose proof (f64_not_ltb_leb x y Hx Hy Exy). pose proof (f64_not_ltb_leb y x Hy Hx Eyx).
      destruct (get_sign x); (split; [auto |]); split; auto using f64_leb_refl.
Qed.

Lemma Math_max2_f64_spec (x y : float) :
  f64_number x -> f64_number y ->
  (Math_max2_f64 x y = x \/ Math_max2_f64 x y = y)
  /\ PrimFloat.leb x (Math_max2_f64 x y) = true
  /\ PrimFloat.leb y (Math_max2_f64 x y) = true.
Proof.
  intros Hx Hy. unfold Math_max2_f64.
  rewrite (proj2 (is_nan_f64_number x) Hx), (proj2 (is_nan_f64_number y) Hy). cbn [orb].
  destruct (PrimFloat.ltb x y) eqn:Exy.
  - split; [now right |]. split; [now apply f64_ltb_leb | now apply f64_leb_refl].
  - destruct (PrimFloat.ltb y x) eqn:Eyx.
    + split; [now left |]. split; [now apply f64_leb_refl | now apply f64_ltb_leb].
    + pose proof (f64_not_ltb_leb x y Hx Hy Exy). pose proof (f64_not_ltb_leb y x Hy Hx Eyx).
      destruct (get_sign x); (split; [auto |]); split; auto using f64_leb_refl.
Qed.

Lemma fold_left_min_f64 (rest : list float) :
  forall first,
    f64_number first -> Forall f64_number rest ->
    let m := fold_left Math_min2_f64 rest first in
    In m (first :: rest) /\ f64_number m
    /\ forall x, In x (first :: rest) -> PrimFloat.leb m x = true.
Proof.
  induction rest as [|y rest IH]; intros first Hf Hr; cbn [fold_left].
  - split; [now left |]. split; [exact Hf |]. intros x [<- | []]. now apply f64_leb_refl.
  - inversion Hr as [| ? ? Hy Hrest]; subst.
    destruct (Math_min2_f64_spec first y Hf Hy) as (Hin & Hle1 & Hle2).
    assert (f64_number (Math_min2_f64 first y)) as Hm by (destruct Hin as [-> | ->]; assumption).
    destruct (IH (Math_min2_f64 first y) Hm Hrest) as (Hin' & Hnum & Hle).
    split; [| split; [exact Hnum |]].
    + destruct Hin' as [E | Hin']; [| now right; right].
      rewrite <- E. destruct Hin as [-> | ->]; [now left | now right; left].
    + assert (Forall f64_number (first :: y :: rest)) as Hall by (repeat constructor; assumption).
      intros x [<- | [<- | Hx]].
      * apply f64_leb_trans with (Math_min2_f64 first y); auto. apply Hle. now left.
      * apply f64_leb_trans with (Math_min2_f64 first y); auto. apply Hle. now left.
      * apply Hle. now right.
Qed.

Lemma fold_left_max_f64 (rest : list float) :
  forall first,
    f64_number first -> Forall f64_number rest ->
    let m := fold_left Math_max2_f64 rest first in
    In m (first :: rest) /\ f64_number m
    /\ forall x, In x (first :: rest) -> PrimFloat.leb x m = true.
Proof.
  induction rest as [|y rest IH]; intros first Hf Hr; cbn [fold_left].
  - split; [now left |]. split; [exact Hf |]. intros x [<- | []]. now apply f64_leb_refl.
  - inversion Hr as [| ? ? Hy Hrest]; subst.
    destruct (Math_max2_f64_spec first y Hf Hy) as (Hin & Hle1 & Hle2).
    assert (f64_number (Math_max2_f64 first y)) as Hm by (destruct Hin as [-> | ->]; assumption).
    destruct (IH (Math_max2_f64 first y) Hm Hrest) as (Hin' & Hnum & Hle).
    split; [| split; [exact Hnum |]].
    + destruct Hin' as [E | Hin']; [| now right; right].
      rewrite <- E. destruct Hin as [-> | ->]; [now left | now right; left].
    + intros x [<- | [<- | Hx]].
      * apply f64_leb_trans with (Math_max2_f64 first y); auto. apply Hle. now left.
      * apply f64_leb_trans with (Math_max2_f64 first y); auto. apply Hle. now left.
      * apply Hle. now right.
Qed.

(** ** Signs *)

Lemma SFsigned_number (s : bool) (x : spec_float) : SFsigned s x -> SFnumber x.
Proof. unfold SFnumber. destruct x; simpl; congruence || tauto. Qed.

Lemma iter_pos_invariant {A} (P : A -> Prop) (f : A -> A) :
  (forall x, P x -> P (f x)) -> forall n x, P x -> P (SpecFloat.iter_pos f n x).
Proof.
  intros Hf. induction n as [n IH | n IH |]; intros x Hx; cbn [SpecFloat.iter_pos]; auto.
Qed.

Lemma shr_1_nonneg (mrs : shr_record) : 0 <= shr_m mrs -> 0 <= shr_m (shr_1 mrs).
Proof.
  destruct mrs as [m r s]. cbn [shr_m]. intros Hm.
  destruct m as [| [p | p |] | p]; cbn [shr_1 shr_m]; lia.
Qed.

Lemma shr_fexp_nonneg (m e : Z) (l : location) :
  0 <= m -> 0 <= shr_m (fst (shr_fexp prec emax m e l)).
Proof.
  intros Hm. unfold shr_fexp, shr.
  assert (0 <= shr_m (shr_record_of_loc m l)) as H0
    by (destruct l as [| []]; exact Hm).
  destruct (fexp prec emax (Zdigits2 m + e) - e) as [| n | n]; cbn [fst]; auto.
  apply (iter_pos_invariant (fun r => 0 <= shr_m r)); auto using shr_1_nonneg.
Qed.

Lemma binary_round_aux_signed (s : bool) (m e : Z) (l : location) :
  0 <= m -> SFsigned s (binary_round_aux prec emax s m e l).
Proof.
  intros Hm. unfold binary_round_aux.
  pose proof (shr_fexp_nonneg m e l Hm) as H1.
  destruct (shr_fexp prec emax m e l) as [mrs' e']. cbn [fst] in H1.
  assert (0 <= round_nearest_even (shr_m mrs') (loc_of_shr_record mrs')) as H2.
  { unfold round_nearest_even.
    destruct (loc_of_shr_record mrs') as [| []]; try lia.
    destruct (Z.even (shr_m mrs')); lia. }
  pose proof (shr_fexp_nonneg _ e' loc_Exact H2) as H3.
  destruct (shr_fexp prec emax _ e' loc_Exact) as [mrs'' e'']. cbn [fst] in H3.
  destruct (shr_m mrs'') as [| p | p]; cbn [SFsigned]; try reflexivity; [| lia].
  destruct (e'' <=? emax - prec); reflexivity.
Qed.

Lemma binary_round_signed (s : bool) (m : positive) (e : Z) :
  SFsigned s (binary_round prec emax s m e).
Proof.
  unfold binary_round. destruct (shl_align m e _) as [mz ez].
  now apply binary_round_aux_signed.
Qed.

Lemma binary_normalize_number (m e : Z) (s : bool) :
  SFnumber (binary_normalize prec emax m e s).
Proof.
  destruct m as [| p | p]; cbn [binary_normalize].
  - discriminate.
  - apply (SFsigned_number false), binary_round_signed.
  - apply (SFsigned_number true), binary_round_signed.
Qed.

(** Adding a finite value to a value that is not NaN does not give NaN. *)
Lemma SFadd_number (x y : spec_float) :
  SFnumber x -> SFfinite y -> SFnumber (SF64add x y).
Proof.
  unfold SF64add, SFadd.
  destruct x as [sx | sx | | sx mx ex], y as [sy | sy | | sy my ey];
    intros Hx Hy; try (exfalso; now apply Hx); try destruct Hy;
    try discriminate; try (destruct sx, sy; discriminate).
  apply binary_normalize_number.
Qed.

Lemma SFsub_number (x y : spec_float) :
  SFfinite x -> SFnumber y -> SFnumber (SF64sub x y).
Proof.
  unfold SF64sub, SFsub.
  destruct x as [sx | sx | | sx mx ex], y as [sy | sy | | sy my ey];
    intros Hx Hy; try (exfalso; now apply Hy); try destruct Hx;
    try discriminate; try (destruct sx, sy; discriminate).
  apply binary_normalize_number.
Qed.

(** The sum of two values that are not negative is not negative. *)
Lemma SFadd_signed (x y : spec_float) :
  SFsigned false x -> SFsigned false y -> SFsigned false (SF64add x y).
Proof.
  unfold SF64add, SFadd.
  destruct x as [sx | sx | | sx mx ex], y as [sy | sy | | sy my ey];
    cbn [SFsigned]; intros Hx Hy; subst; try tauto; try reflexivity.
  cbn [cond_Zopp]. cbn [binary_normalize Z.add].
  apply binary_round_signed.
Qed.

Lemma SFabs_signed (x : spec_float) : SFnumber x -> SFsigned false (SFabs x).
Proof.
  unfold SFnumber. destruct x; cbn [SFabs SFsigned]; congruence.
Qed.

Lemma div_eucl_nonneg (a b : Z) : 0 <= a -> 0 < b -> 0 <= fst (Z.div_eucl a b).
Proof.
  intros Ha Hb. change (fst (Z.div_eucl a b)) with (a / b). now apply Z.div_pos.
Qed.

Lemma SFdiv_core_nonneg (m1 : positive) (e1 : Z) (m2 : positive) (e2 : Z) :
  0 <= fst (fst (SFdiv_core_binary prec emax (Z.pos m1) e1 (Z.pos m2) e2)).
Proof.
  unfold SFdiv_core_binary.
  set (s := _ - _ - _).
  set (m' := match s with Z.pos _ => Z.shiftl (Z.pos m1) s | Z0 => Z.pos m1 | Z.neg _ => 0 end).
  assert (0 <= m') as Hm.
  { subst m'. destruct s; try lia. apply Z.shiftl_nonneg. lia. }
  pose proof (div_eucl_nonneg m' (Z.pos m2) Hm ltac:(lia)) as Hq.
  destruct (Z.div_eucl m' (Z.pos m2)) as [q r]. exact Hq.
Qed.

Lemma SFdiv_number (x y : spec_float) :
  SFnumber x -> SFpositive y -> SFnumber (SF64div x y).
Proof.
  unfold SF64div, SFdiv.
  destruct x as [sx | sx | | sx mx ex], y as [sy | sy | | [] my ey];
    intros Hx Hy; try (exfalso; now apply Hx); try destruct Hy; try discriminate.
  pose proof (SFdiv_core_nonneg mx ex my ey) as Hq.
  destruct (SFdiv_core_binary prec emax (Z.pos mx) ex (Z.pos my) ey) as [[mz ez] lz].
  eapply SFsigned_number, binary_round_aux_signed. exact Hq.
Qed.

Lemma SFdiv_signed (x y : spec_float) :
  SFsigned false x -> SFpositive y -> SFsigned false (SF64div x y).
Proof.
  unfold SF64div, SFdiv.
  destruct x as [sx | sx | | sx mx ex], y as [sy | sy | | [] my ey];
    cbn [SFsigned SFpositive]; intros Hx Hy; subst; try tauto; try reflexivity.
  pose proof (SFdiv_core_nonneg mx ex my ey) as Hq.
  destruct (SFdiv_core_binary prec emax (Z.pos mx) ex (Z.pos my) ey) as [[mz ez] lz].
  apply binary_round_aux_signed. exact Hq.
Qed.

(** ** Integers *)

Lemma digits2_pos_bounds (p : positive) :
  2 ^ (Z.pos (digits2_pos p) - 1) <= Z.pos p < 2 ^ Z.pos (digits2_pos p).
Proof.
  induction p as [p IH | p IH |]; cbn [digits2_pos].
  - rewrite Pos2Z.inj_succ.
    replace (Z.succ (Z.pos (digits2_pos p)) - 1) with (Z.succ (Z.pos (digits2_pos p) - 1)) by lia.
    rewrite !Z.pow_succ_r by lia. lia.
  - rewrite Pos2Z.inj_succ.
    replace (Z.succ (Z.pos (digits2_pos p)) - 1) with (Z.succ (Z.pos (digits2_pos p) - 1)) by lia.
    rewrite !Z.pow_succ_r by lia. lia.
  - simpl. lia.
Qed.

Lemma digits2_pos_iter (k p : positive) :
  digits2_pos (Pos.iter xO p k) = (digits2_pos p + k)%positive.
Proof.
  induction k as [| k IH] using Pos.peano_ind.
  - cbn [Pos.iter digits2_pos]. lia.
  - rewrite Pos.iter_succ. cbn [digits2_pos]. rewrite IH. lia.
Qed.

(** An integer of 53 bits at most is a positive finite binary64 value. *)
Lemma binary_round_integer (p : positive) :
  Z.pos p < 2 ^ 53 -> SFpositive (binary_round prec emax false p 0).
Proof.
  intros Hp. pose proof (digits2_pos_bounds p) as [Hlo _].
  assert (Z.pos (digits2_pos p) <= 53) as Hd.
  { destruct (Z_le_gt_dec (Z.pos (digits2_pos p)) 53) as [Hle | Hgt]; [exact Hle |].
    exfalso. assert (2 ^ 53 <= 2 ^ (Z.pos (digits2_pos p) - 1)) by (apply Z.pow_le_mono_r; lia).
    lia. }
  unfold binary_round.
  assert (fexp prec emax (Z.pos (digits2_pos p) + 0) = Z.pos (digits2_pos p) - 53) as ->.
  { unfold fexp, SpecFloat.emin, prec, emax. lia. }
  assert (exists mz ez,
            shl_align p 0 (Z.pos (digits2_pos p) - 53) = (mz, ez)
            /\ Z.pos (digits2_pos mz) = 53 /\ -52 <= ez <= 0 ) as (mz & ez & -> & Hmz & Hez).
  { unfold shl_align.
    destruct (Z.pos (digits2_pos p) - 53 - 0) as [| d | d] eqn:E; try lia.
    - exists p, 0. split; [reflexivity | lia].
    - eexists _, _. split; [reflexivity |]. rewrite digits2_pos_iter. lia. }
  unfold binary_round_aux, shr_fexp. cbn [Zdigits2 shr_record_of_loc].
  rewrite Hmz.
  assert (fexp prec emax (53 + ez) - ez = 0) as ->
    by (unfold fexp, SpecFloat.emin, prec, emax; lia).
  cbn [shr shr_m loc_of_shr_record round_nearest_even Zdigits2].
  rewrite Hmz.
  assert (fexp prec emax (53 + ez) - ez = 0) as ->
    by (unfold fexp, SpecFloat.emin, prec, emax; lia).
  cbn [shr shr_m].
  destruct (ez <=? emax - prec) eqn:E; [exact I |].
  apply Z.leb_gt in E. unfold emax, prec in E. lia.
Qed.

Lemma float_ofZ_positive (z : Z) : 0 < z < 2 ^ 53 -> f64_positive (float_ofZ z).
Proof.
  intros Hz. unfold f64_positive, float_ofZ.
  destruct (z <? 0) eqn:E; [apply Z.ltb_lt in E; lia |].
  rewrite of_uint63_spec, Uint63.of_Z_spec.
  rewrite Z.mod_small by (change wB with (2 ^ 63); split; [lia |];
    apply Z.lt_trans with (2 ^ 53); [lia | reflexivity]).
  destruct z as [| p | p]; try lia.
  cbn [binary_normalize]. apply binary_round_integer. lia.
Qed.

Lemma f64_signed_number (s : bool) (x : float) : f64_signed s x -> f64_number x.
Proof. apply SFsigned_number. Qed.

Lemma f64_finite_SFfinite (x : float) : f64_finite x <-> SFfinite (Prim2SF x).
Proof. unfold f64_finite, SFfinite. destruct (Prim2SF x); tauto. Qed.

Lemma f64_add_number (x y : float) : f64_number x -> f64_finite y -> f64_number (x + y).
Proof.
  unfold f64_number. rewrite FloatAxioms.add_spec, f64_finite_SFfinite. apply SFadd_number.
Qed.

Lemma f64_sub_number (x y : float) : f64_finite x -> f64_number y -> f64_number (x - y).
Proof.
  unfold f64_number. rewrite FloatAxioms.sub_spec, f64_finite_SFfinite. apply SFsub_number.
Qed.

Lemma f64_div_number (x y : float) : f64_number x -> f64_positive y -> f64_number (x / y).
Proof.
  unfold f64_number, f64_positive. rewrite FloatAxioms.div_spec. apply SFdiv_number.
Qed.

Lemma f64_add_signed (x y : float) :
  f64_signed false x -> f64_signed false y -> f64_signed false (x + y).
Proof. unfold f64_signed. rewrite FloatAxioms.add_spec. apply SFadd_signed. Qed.

Lemma f64_div_signed (x y : float) :
  f64_signed false x -> f64_positive y -> f64_signed false (x / y).
Proof. unfold f64_signed, f64_positive. rewrite FloatAxioms.div_spec. apply SFdiv_signed. Qed.

Lemma f64_abs_signed (x : float) : f64_number x -> f64_signed false (abs x).
Proof. unfold f64_signed, f64_number. rewrite FloatAxioms.abs_spec. apply SFabs_signed. Qed.

Lemma float_ofZ_zero : Prim2SF (float_ofZ 0) = S754_zero false.
Proof. reflexivity. Qed.

(** A value whose sign bit is clear is at least 0. *)
Lemma f64_signed_leb (x : float) : f64_signed false x -> PrimFloat.leb (float_ofZ 0) x = true.
Proof.
  intros Hx. apply f64_leb_key.
  - unfold f64_number, SFnumber. rewrite float_ofZ_zero. discriminate.
  - now apply f64_signed_number in Hx.
  - rewrite float_ofZ_zero. unfold f64_signed in Hx.
    destruct (Prim2SF x) as [s | s | | s m e]; cbn [SFsigned] in Hx; subst;
      try tauto; cbn [SFkey key_le]; lia.
Qed.

(** ** Quality classification *)

Lemma tier_holds_iff tier d u l : tier_holds tier d u l = true <-> tier_condition tier d u l.
Proof.
  destruct tier; simpl; rewrite ?andb_true_iff, ?Qle_bool_iff; tauto.
Qed.

Lemma first_match_find {A} (p : A -> bool) (l : list A) (x : A) :
  List.find p l = Some x <->
  exists before after, l = before ++ x :: after /\ p x = true
    /\ forall y, In y before -> p y <> true.
Proof.
  induction l as [|a l IH]; simpl.
  - split; [discriminate|]. intros (b & c & E & _). destruct b; discriminate.
  - destruct (p a) eqn:Ea.
    + split.
      * intros [= ->]. exists [], l. repeat split; auto.
      * intros (b & c & E & Hx & Hb). destruct b as [|b0 b]; simpl in E.
        -- congruence.
        -- injection E as <- ->. exfalso. apply (Hb a); simpl; auto.
    + rewrite IH. split.
      * intros (b & c & -> & Hx & Hb). exists (a :: b), c. repeat split; auto.
        intros y [<-|Hy]; [congruence | auto].
      * intros (b & c & E & Hx & Hb). destruct b as [|b0 b]; simpl in E.
        -- injection E as <- ->. congruence.
        -- injection E as <- ->. exists b, c. repeat split; auto.
           intros y Hy. apply Hb. simpl; auto.
Qed.

Lemma first_matching_tier_find tier d u l :
  first_matching_tier tier d u l <->
  List.find (fun t => tier_holds t d u l) tier_order = Some tier.
Proof.
  rewrite first_match_find. unfold first_matching_tier.
  split; intros (b & c & E & Hx & Hb); exists b, c; repeat split; auto.
  - now apply tier_holds_iff.
  - intros y Hy. rewrite tier_holds_iff. now apply Hb.
  - now apply tier_holds_iff.
  - intros y Hy. rewrite <- tier_holds_iff. now apply Hb.
Qed.

Lemma analyzeQuality_find (result : SpeedTestResult.t Q) :
  List.find (fun t => tier_holds t (SpeedTestResult.downloadSpeed result)
                   (SpeedTestResult.uploadSpeed result) (SpeedTestResult.latency result))
    tier_order
  = Some (NetworkQuality.quality (analyzeQuality result)).
Proof.
  destruct result as [d u l j ts]. unfold analyzeQuality, tier_order. simpl. unfold inject_Z.
  repeat match goal with
         | |- context [Qle_bool ?a ?b] => destruct (Qle_bool a b); simpl
         end; reflexivity.
Qed.

(** C1: [analyzeQuality] is a total function of the result it is given.
    The tier it returns is the first one, in the order excellent, good,
    fair, poor, very-poor, whose condition holds (excellent: download >= 50,
    upload >= 10, latency <= 30; good: 25, 5, 50; fair: 10, 2, 100; poor:
    download >= 5 and upload >= 1, latency not looked at; very-poor:
    always); no other tier is the first matching one; and the
    recommendation is the fixed string of that tier. *)
Theorem analyzeQuality_first_matching_tier (result : SpeedTestResult.t Q) :
  let q := analyzeQuality result in
  let d := SpeedTestResult.downloadSpeed result in
  let u := SpeedTestResult.uploadSpeed result in
  let l := SpeedTestResult.latency result in
  first_matching_tier (NetworkQuality.quality q) d u l
  /\ (forall tier, first_matching_tier tier d u l -> tier = NetworkQuality.quality q)
  /\ NetworkQuality.recommendation q = tier_recommendation (NetworkQuality.quality q).
Proof.
  intros q d u l. pose proof (analyzeQuality_find result) as Hf. fold q d u l in Hf.
  split; [| split].
  - now apply first_matching_tier_find.
  - intros tier Ht. apply first_matching_tier_find in Ht. congruence.
  - subst q. destruct result as [d' u' l' j ts]. unfold analyzeQuality. simpl. unfold inject_Z.
    repeat match goal with
           | |- context [Qle_bool ?a ?b] => destruct (Qle_bool a b); simpl
           end; reflexivity.
Qed.

Example analyzeQuality_at_the_thresholds :
  NetworkQuality.quality
    (analyzeQuality (SpeedTestResult.Build 50 10 30 0 0)%Q) = excellent
  /\ NetworkQuality.quality
       (analyzeQuality (SpeedTestResult.Build (499 # 10) 10 30 0 0)%Q) = good
  /\ NetworkQuality.quality
       (analyzeQuality (SpeedTestResult.Build 50 10 30 0 0)%float) = excellent
  /\ NetworkQuality.quality
       (analyzeQuality
          (SpeedTestResult.Build 0x1.8f33333333333p+5 10 30 0 0)%float) = good
  /\ NetworkQuality.quality
       (analyzeQuality (SpeedTestResult.Build 5 1 100000 0 0)%Q) = poor
  /\ NetworkQuality.quality
       (analyzeQuality (SpeedTestResult.Build nan 10 30 0 0)%float) = very_poor.
Proof. repeat split; reflexivity. Qed.

(** C10: the assessment repeats the download speed, the upload speed and
    the latency of the result it is given, and two results that differ only
    in jitter and timestamp get the same assessment. *)
Theorem analyzeQuality_frame {num : Type} `{Number num}
    (d u l jitter timestamp jitter' timestamp' : num) :
  let result := SpeedTestResult.Build d u l jitter timestamp in
  let q := analyzeQuality result in
  NetworkQuality.downloadSpeed q = d
  /\ NetworkQuality.uploadSpeed q = u
  /\ NetworkQuality.latency q = l
  /\ analyzeQuality (SpeedTestResult.Build d u l jitter' timestamp') = q.
Proof.
  intros result q. subst q result. unfold analyzeQuality. simpl.
  repeat split;
    repeat match goal with
           | |- context [if ?b then _ else _] => destruct b
           end; reflexivity.
Qed.

(** ** quickCheck *)

(** C9: [quickCheck] never raises.  From any state it issues exactly one
    request, a HEAD request, and returns: when the request resolves,
    [isOnline = true] with the difference of the clock readings taken after
    and before it; when the request is rejected, [isOnline = false] with
    latency [-1]. *)
Theorem quickCheck_never_raises {num : Type} `{Number num}
    (w : World num) (s : State num) :
  let request := {| method := HEAD; url := "https://www.google.com/generate_204" |} in
  let '(outcome, s') := quickCheck w s in
  requests s' = request :: requests s
  /\ outcome =
       Return
         match network w (List.length (requests s)) request with
         | Resolved _ =>
             QuickCheck.Build true (sub (clock w (S (reads s))) (clock w (reads s)))
         | Rejected => QuickCheck.Build false (ofZ (-1))
         end.
Proof.
  intros request. unfold quickCheck, try_catch, bind, performance_now, fetch, ret.
  simpl. fold request.
  destruct (network w (List.length (requests s)) request); simpl; split; reflexivity.
Qed.

Example quickCheck_offline_f64 :
  fst (quickCheck (world_of [3; 10]%float 10%float []) initial)
  = Return (QuickCheck.Build false (-1)%float).
Proof. reflexivity. Qed.

(** ** Options *)

Section Options.
Context {num : Type} `{Number num}.
Local Open Scope string_scope.

Lemma DEFAULT_OPTIONS_lookup :
  DEFAULT_OPTIONS !! "downloadTestDuration" = Some (Some (ofZ 5))
  /\ DEFAULT_OPTIONS !! "uploadTestDuration" = Some (Some (ofZ 5))
  /\ DEFAULT_OPTIONS !! "latencyTestCount" = Some (Some (ofZ 5))
  /\ DEFAULT_OPTIONS !! "testFileSize" = Some (Some (mul (ofZ 1024) (ofZ 100))).
Proof. repeat split; reflexivity. Qed.

Lemma constructor_lookup (opts : gmap string (option num)) (hw hd : bool)
    (key : string) :
  options (constructor opts hw hd) !! key
  = match opts !! key with
    | Some v => Some v
    | None => DEFAULT_OPTIONS !! key
    end.
Proof.
  unfold constructor. simpl. destruct (opts !! key) eqn:E.
  - now apply lookup_union_Some_l.
  - now apply lookup_union_r.
Qed.

Lemma constructor_defines (opts : gmap string (option num)) (hw hd : bool)
    (key : string) :
  In key recognized -> is_Some (options (constructor opts hw hd) !! key).
Proof.
  intros Hk. rewrite constructor_lookup. destruct (opts !! key); [eauto |].
  destruct Hk as [<- | [<- | [<- | [<- | []]]]]; eexists; reflexivity.
Qed.





End Options.



(** ** Provider names *)

Section Strings.
Context `{Unicode}.

Lemma starts_with_iff pattern s :
  starts_with pattern s = true <-> exists rest, s = pattern ++ rest.
Proof.
  revert s. induction pattern as [|p pattern IH]; intros s; cbn [starts_with app].
  - split; [intros _; now exists s | reflexivity].
  - destruct s as [|c s].
    + split; [discriminate | intros [rest E]; discriminate].
    + rewrite andb_true_iff, IH. split.
      * intros [Ec [rest ->]]. apply N.eqb_eq in Ec as ->. now exists rest.
      * intros [rest E]. injection E as -> ->. split; [apply N.eqb_refl | now exists rest].
Qed.

Lemma includes_iff s pattern : includes s pattern = true <-> occurs_in pattern s.
Proof.
  unfold occurs_in. induction s as [|c s IH].
  - cbn [includes]. rewrite orb_false_r, starts_with_iff. split.
    + intros [rest E]. exists [], rest. exact E.
    + intros (before & after & E). destruct before; [| discriminate].
      now exists after.
  - cbn [includes]. rewrite orb_true_iff, starts_with_iff, IH. split.
    + intros [[rest E] | (before & after & E)].
      * exists [], rest. exact E.
      * exists (c :: before), after. cbn [app]. now rewrite E.
    + intros (before & after & E). destruct before as [|c' before]; cbn [app] in E.
      * left. now exists after.
      * right. injection E as _ E. now exists before, after.
Qed.

Lemma first_carrier_iff lower name :
  first_carrier lower = Some name <->
  exists before patterns after,
    carrier_rules = (before ++ (patterns, name) :: after)%list
    /\ (exists p, In p patterns /\ occurs_in p lower)
    /\ forall rule p, In rule before -> In p (fst rule) -> ~ occurs_in p lower.
Proof.
  unfold first_carrier.
  set (hit := fun rule : list js_string * js_string => existsb (includes lower) (fst rule)).
  assert (Hhit : forall rule, hit rule = true <->
            exists p, In p (fst rule) /\ occurs_in p lower).
  { intros rule. unfold hit. rewrite existsb_exists.
    split; intros (p & Hp & Ho); exists p; split; auto; now apply includes_iff. }
  split.
  - destruct (List.find hit carrier_rules) as [[patterns name']|] eqn:E; [| discriminate].
    simpl. intros [= ->]. apply first_match_find in E as (before & after & E & Hx & Hb).
    exists before, patterns, after. split; [exact E | split].
    + now apply (Hhit (patterns, name)).
    + intros rule p Hr Hp Ho. apply (Hb rule Hr). apply Hhit. now exists p.
  - intros (before & patterns & after & E & Hx & Hb).
    assert (Hf : List.find hit carrier_rules = Some (patterns, name)).
    { apply first_match_find. exists before, after. split; [exact E | split].
      - now apply (Hhit (patterns, name)).
      - intros rule Hr Hh. apply Hhit in Hh as (p & Hp & Ho). now apply (Hb rule p). }
    now rewrite Hf.
Qed.

Lemma normalizeProviderName_rules s :
  s <> [] ->
  normalizeProviderName (Some s)
  = Some match first_carrier (toLowerCase s) with
         | Some name => name
         | None => trim (replace_AS_prefix s)
         end.
Proof.
  intros Hs. destruct s as [|c s]; [congruence |].
  unfold normalizeProviderName, first_carrier.
  generalize (toLowerCase (c :: s)). intros lower.
  generalize (trim (replace_AS_prefix (c :: s))). intros cleaned.
  cbn [carrier_rules List.find existsb fst snd]. rewrite !orb_false_r.
  repeat match goal with
         | |- context [includes lower ?p] => destruct (includes lower p); cbn
         end; reflexivity.
Qed.

(** On a string written in ASCII, [toLowerCase] works character by
    character. *)
Lemma lower_from_ascii s :
  is_ascii s -> forall before, lower_from before s = map lower_ascii s.
Proof.
  induction 1 as [|c s Hc Hs IH]; intros before; cbn [lower_from map];
    [reflexivity |].
  apply N.ltb_lt in Hc. rewrite Hc, IH. reflexivity.
Qed.

Lemma toLowerCase_ascii s : is_ascii s -> toLowerCase s = map lower_ascii s.
Proof. intros Hs. now apply lower_from_ascii. Qed.

Lemma lower_ascii_cases (c : N) :
  ((65 <= c <= 90)%N -> lower_ascii c = (c + 32)%N)
  /\ (~ (65 <= c <= 90)%N -> lower_ascii c = c).
Proof.
  unfold lower_ascii, is_upper.
  destruct (N.leb_spec 65 c), (N.leb_spec c 90); cbn [andb]; split; intros; lia.
Qed.

Lemma take_drop_while p s : s = take_while p s ++ drop_while p s.
Proof.
  induction s as [|c s IH]; cbn [take_while drop_while app]; [reflexivity |].
  destruct (p c); cbn [app]; congruence.
Qed.

Lemma all_chars_take_while p s : all_chars p (take_while p s) = true.
Proof.
  unfold all_chars. induction s as [|c s IH]; cbn [take_while forallb]; [reflexivity |].
  destruct (p c) eqn:E; cbn [forallb]; [now rewrite E | reflexivity].
Qed.

Lemma first_char_drop_while p s : first_char_is p (drop_while p s) = false.
Proof.
  induction s as [|c s IH]; cbn [drop_while first_char_is]; [reflexivity |].
  destruct (p c) eqn:E; cbn [first_char_is]; [exact IH | exact E].
Qed.

Lemma drop_while_append p prefix rest :
  all_chars p prefix = true -> first_char_is p rest = false ->
  drop_while p (prefix ++ rest) = rest.
Proof.
  unfold all_chars. intros Hp Hr.
  induction prefix as [|c prefix IH]; cbn [app drop_while forallb] in *.
  - destruct rest as [|c rest]; cbn [drop_while first_char_is] in *;
      [reflexivity | now rewrite Hr].
  - apply andb_true_iff in Hp as [Hc Hp]. rewrite Hc. auto.
Qed.

Lemma space_not_digit c : is_space c = true -> is_digit c = false.
Proof.
  unfold is_space, is_digit.
  rewrite !orb_true_iff, !andb_true_iff, andb_false_iff, !N.leb_le, !N.eqb_eq, !N.leb_gt.
  lia.
Qed.

Lemma either_case (c upper lower : N) :
  (c =? upper)%N || (c =? lower)%N = true <-> c = upper \/ c = lower.
Proof. now rewrite orb_true_iff, !N.eqb_eq. Qed.

Lemma replace_AS_prefix_strips s rest :
  has_AS_prefix s rest -> replace_AS_prefix s = rest.
Proof.
  intros (a & b & digits & spaces & -> & Ha & Hb & Hd & Hdd & Hs & Hss & Hr).
  unfold replace_AS_prefix.
  apply either_case in Ha. apply either_case in Hb. rewrite Ha, Hb. cbn [andb].
  assert (Hfirst : first_char_is is_digit (spaces ++ rest) = false).
  { destruct spaces as [|c spaces]; [congruence |]. cbn [app first_char_is].
    unfold all_chars in Hss. cbn [forallb] in Hss.
    apply andb_true_iff in Hss as [Hc _]. now apply space_not_digit. }
  rewrite (drop_while_append is_digit digits (spaces ++ rest) Hdd Hfirst).
  rewrite (drop_while_append is_space spaces rest Hss Hr).
  rewrite !length_app.
  destruct digits; [congruence |]. destruct spaces; [congruence |]. cbn [List.length].
  replace (_ <? _)%nat with true by (symmetry; apply Nat.ltb_lt; lia).
  replace (_ <? _)%nat with true by (symmetry; apply Nat.ltb_lt; lia).
  reflexivity.
Qed.

Lemma shorter_drop_while p s :
  (List.length (drop_while p s) < List.length s)%nat -> take_while p s <> [].
Proof.
  intros Hl E. pose proof (take_drop_while p s) as Hs. rewrite E in Hs. cbn [app] in Hs.
  rewrite <- Hs in Hl. lia.
Qed.

Lemma replace_AS_prefix_keeps s :
  (forall rest, ~ has_AS_prefix s rest) -> replace_AS_prefix s = s.
Proof.
  intros Hno. unfold replace_AS_prefix.
  destruct s as [|a [|b digits]]; try reflexivity.
  destruct (((a =? 65)%N || (a =? 97)%N) && ((b =? 83)%N || (b =? 115)%N)) eqn:Eab;
    [| reflexivity].
  destruct ((_ <? _)%nat && (_ <? _)%nat) eqn:El; [| reflexivity].
  exfalso. apply andb_true_iff in Eab as [Ea Eb]. apply andb_true_iff in El as [E1 E2].
  apply Nat.ltb_lt in E1, E2.
  set (spaces := drop_while is_digit digits) in *.
  apply (Hno (drop_while is_space spaces)).
  exists a, b, (take_while is_digit digits), (take_while is_space spaces).
  rewrite <- (take_drop_while is_space spaces). unfold spaces.
  rewrite <- (take_drop_while is_digit digits).
  repeat split.
  - now apply either_case.
  - now apply either_case.
  - now apply shorter_drop_while.
  - apply all_chars_take_while.
  - now apply shorter_drop_while.
  - apply all_chars_take_while.
  - apply first_char_drop_while.
Qed.

Lemma all_chars_rev p s : all_chars p (rev s) = all_chars p s.
Proof.
  unfold all_chars. induction s as [|c s IH]; cbn [rev forallb]; [reflexivity |].
  rewrite forallb_app, IH. cbn [forallb]. rewrite andb_true_r. apply andb_comm.
Qed.

Lemma first_char_append p a b :
  first_char_is p (a ++ b) = false -> first_char_is p a = false.
Proof. destruct a; cbn [app first_char_is]; auto. Qed.

Lemma trim_decomposes s :
  exists leading trailing,
    s = leading ++ trim s ++ trailing
    /\ all_chars is_space leading = true
    /\ all_chars is_space trailing = true
    /\ trimmed (trim s).
Proof.
  unfold trim.
  set (s1 := drop_while is_space s).
  set (r := rev s1).
  exists (take_while is_space s), (rev (take_while is_space r)).
  assert (E1 : s1 = rev (drop_while is_space r) ++ rev (take_while is_space r)).
  { rewrite <- rev_app_distr, <- take_drop_while. unfold r. now rewrite rev_involutive. }
  repeat split.
  - rewrite <- E1. apply take_drop_while.
  - apply all_chars_take_while.
  - rewrite all_chars_rev. apply all_chars_take_while.
  - apply (first_char_append _ _ (rev (take_while is_space r))).
    rewrite <- E1. apply first_char_drop_while.
  - rewrite rev_involutive. apply first_char_drop_while.
Qed.

(** C7: [normalizeProviderName] returns nothing for an absent or empty
    string.  For any other string it lower-cases the string ([toLowerCase]:
    on a string written in ASCII, A to Z become a to z and nothing else
    changes) and returns the name of the first carrier, in the fixed order
    of [carrier_rules], one of whose substrings occurs in it; when none
    does, it returns the original string without its autonomous-system
    prefix (A and S in either case, digits, white space; removed once, at
    the start only) and without leading and trailing white space.  So
    "AS12345 MTN Nigeria Communications" gives "MTN" and
    "AS9999 Some Random Telco" gives "Some Random Telco".  All this
    whatever the Unicode tables say of the characters outside ASCII; and
    where they leave the no-break space (U+00A0) as it is, "AS9999 Some
    Random Telco " written with no-break spaces gives "Some Random Telco"
    with its two inner no-break spaces. *)
Theorem normalizeProviderName_spec :
  normalizeProviderName None = None
  /\ normalizeProviderName (Some []) = None
  /\ (forall s, s <> [] ->
      normalizeProviderName (Some s)
      = Some match first_carrier (toLowerCase s) with
             | Some name => name
             | None => trim (replace_AS_prefix s)
             end)
  /\ (forall s, is_ascii s -> toLowerCase s = map lower_ascii s)
  /\ (forall c : N,
        ((65 <= c <= 90)%N -> lower_ascii c = (c + 32)%N)
        /\ (~ (65 <= c <= 90)%N -> lower_ascii c = c))
  /\ (forall lower name,
      first_carrier lower = Some name <->
      exists before patterns after,
        carrier_rules = (before ++ (patterns, name) :: after)%list
        /\ (exists p, In p patterns /\ occurs_in p lower)
        /\ forall rule p, In rule before -> In p (fst rule) -> ~ occurs_in p lower)
  /\ (forall s rest, has_AS_prefix s rest -> replace_AS_prefix s = rest)
  /\ (forall s, (forall rest, ~ has_AS_prefix s rest) -> replace_AS_prefix s = s)
  /\ (forall s, exists leading trailing,
        s = leading ++ trim s ++ trailing
        /\ all_chars is_space leading = true
        /\ all_chars is_space trailing = true
        /\ trimmed (trim s))
  /\ normalizeProviderName (Some (utf16 "AS12345 MTN Nigeria Communications"))
     = Some (utf16 "MTN")
  /\ normalizeProviderName (Some (utf16 "AS9999 Some Random Telco"))
     = Some (utf16 "Some Random Telco")
  /\ ((forall before after, lower_other before 160%N after = [160%N]) ->
      normalizeProviderName
        (Some (utf16 "AS9999" ++ [160%N] ++ utf16 "Some" ++ [160%N] ++ utf16 "Random"
                 ++ [160%N] ++ utf16 "Telco" ++ [160%N]))
      = Some (utf16 "Some" ++ [160%N] ++ utf16 "Random" ++ [160%N] ++ utf16 "Telco")).
Proof.
  split; [reflexivity |]. split; [reflexivity |].
  split; [exact normalizeProviderName_rules |].
  split; [exact toLowerCase_ascii |].
  split; [exact lower_ascii_cases |].
  split; [exact first_carrier_iff |].
  split; [exact replace_AS_prefix_strips |].
  split; [exact replace_AS_prefix_keeps |].
  split; [exact trim_decomposes |].
  split; [vm_compute; reflexivity |].
  split; [vm_compute; reflexivity |].
  intros Hnbsp. rewrite normalizeProviderName_rules by discriminate.
  replace (toLowerCase _)
    with (utf16 "as9999" ++ [160%N] ++ utf16 "some" ++ [160%N] ++ utf16 "random"
            ++ [160%N] ++ utf16 "telco" ++ [160%N]).
  - vm_compute. reflexivity.
  - unfold toLowerCase. cbv - [lower_other]. rewrite !Hnbsp. reflexivity.
Qed.

Example normalizeProviderName_no_space_after_digits :
  normalizeProviderName (Some (utf16 "AS9999")) = Some (utf16 "AS9999").
Proof. vm_compute. reflexivity. Qed.

Example normalizeProviderName_substring_anywhere :
  normalizeProviderName (Some (utf16 "Manhattan Telecom")) = Some (utf16 "AT&T").
Proof. vm_compute. reflexivity. Qed.

(** The Kelvin sign (U+212A) is lower-cased to k: where the tables say so,
    a name spelled with it is recognized. *)
Example normalizeProviderName_kelvin_sign :
  (forall before after, lower_other before 8490%N after = [107%N]) ->
  normalizeProviderName (Some (utf16 "TEL" ++ [8490%N] ++ utf16 "OM SA"))
  = Some (utf16 "Telkom").
Proof.
  intros Hk. rewrite normalizeProviderName_rules by discriminate.
  replace (toLowerCase _) with (utf16 "telkom sa").
  - vm_compute. reflexivity.
  - unfold toLowerCase. cbv - [lower_other]. rewrite Hk. reflexivity.
Qed.

End Strings.


(** ** testLatency *)

Section LatencyRun.
Context {num : Type} `{Number num}.

Lemma latency_probe_run (i : nat) (w : World num) (s : State num) :
  latency_probe i w s
  = match network w (List.length (requests s)) (probe_request i) with
    | Resolved _ =>
        (Return (Some (sub (clock w (S (reads s))) (clock w (reads s)))),
         {| reads := S (S (reads s));
            requests := probe_request i :: requests s;
            console := console s;
            totalBytes := totalBytes s |})
    | Rejected =>
        (Return None,
         {| reads := S (reads s);
            requests := probe_request i :: requests s;
            console := ("Latency test failed for: " ++ url (probe_request i))%string
                         :: console s;
            totalBytes := totalBytes s |})
    end.
Proof.
  unfold latency_probe, bind, try_catch, performance_now, fetch, console_warn, ret.
  cbn [reads requests console totalBytes].
  change {| method := HEAD;
            url := nth (i mod List.length latency_testUrls) latency_testUrls ""%string |}
    with (probe_request i).
  destruct (network w (List.length (requests s)) (probe_request i)); reflexivity.
Qed.

(** What [latency_for] returns: the samples it was given, followed by those
    of the probes of its turns. *)
Lemma latency_for_collects (this : NetworkTester num) (w : World num) :
  forall fuel i latencies s l s',
    latency_for fuel this i latencies w s = (Return l, s') ->
    exists n,
      l = latencies ++ collected w n i (reads s) (List.length (requests s))
      /\ (forall j, (j < n)%nat ->
            lt_number (ofZ (Z.of_nat (i + j))) (latencyTestCount this) = true)
      /\ lt_number (ofZ (Z.of_nat (i + n))) (latencyTestCount this) = false
      /\ List.length (requests s') = (List.length (requests s) + n)%nat.
Proof.
  induction fuel as [|fuel IH]; intros i latencies s l s' E; [discriminate |].
  cbn [latency_for] in E.
  destruct (lt_number (ofZ (Z.of_nat i)) (latencyTestCount this)) eqn:Ei.
  - unfold bind in E. rewrite latency_probe_run in E.
    destruct (network w (List.length (requests s)) (probe_request i)) eqn:En;
      apply IH in E as (n & -> & Hin & Hout & Hq);
      exists (S n); cbn [collected]; rewrite En;
      cbn [reads requests List.length] in *.
    + split; [reflexivity |]. split; [| split; [| lia]].
      * intros [|j] Hj; [now rewrite Nat.add_0_r |].
        rewrite <- Nat.add_succ_comm. apply Hin. lia.
      * now rewrite <- Nat.add_succ_comm.
    + split; [now rewrite <- app_assoc |]. split; [| split; [| lia]].
      * intros [|j] Hj; [now rewrite Nat.add_0_r |].
        rewrite <- Nat.add_succ_comm. apply Hin. lia.
      * now rewrite <- Nat.add_succ_comm.
  - injection E as <- <-. exists 0%nat. cbn [collected].
    rewrite app_nil_r, !Nat.add_0_r. split; [reflexivity |].
    split; [intros j Hj; lia |]. split; [exact Ei | reflexivity].
Qed.

Lemma fold_left_map_add (f : num -> num) (l : list num) (acc : num) :
  fold_left (fun sum lat => add sum (f lat)) l acc = fold_left add (map f l) acc.
Proof.
  revert acc. induction l as [|x l IH]; intros acc; cbn [fold_left map];
    [reflexivity | apply IH].
Qed.

(** The statistics, written with sums and counts. *)
Lemma latency_stats_formulas (first : num) (rest : list num) :
  let samples := first :: rest in
  let avg := div (sum_of samples) (count_of samples) in
  latency_stats first rest
  = LatencyStats.Build avg
      (div (sum_of (map (fun x => Math_abs (sub x avg)) samples)) (count_of samples))
      (fold_left Math_min2 rest first)
      (fold_left Math_max2 rest first).
Proof.
  intros samples avg. unfold latency_stats. fold samples.
  rewrite (fold_left_map_add (fun lat => Math_abs (sub lat _))).
  reflexivity.
Qed.

(** What [testLatency] returns is the statistics of the samples of the
    probes it made, of which there is one at least. *)
Lemma testLatency_returns (this : NetworkTester num) (w : World num)
    (fuel : nat) (s s' : State num) (stats : LatencyStats.t num) :
  testLatency fuel this w s = (Return stats, s') ->
  exists n first rest,
    collected w n 0 (reads s) (List.length (requests s)) = first :: rest
    /\ stats = latency_stats first rest
    /\ turns_are (latencyTestCount this) n
    /\ List.length (requests s') = (List.length (requests s) + n)%nat.
Proof.
  unfold testLatency, bind. intros E.
  destruct (latency_for fuel this 0 [] w s) as [[l | e |] s1] eqn:El;
    try discriminate.
  apply latency_for_collects in El as (n & -> & Hin & Hout & Hq).
  cbn [app] in E.
  destruct (collected w n 0 (reads s) (List.length (requests s)))
    as [|first rest] eqn:Ec; [discriminate |].
  injection E as <- <-. exists n, first, rest.
  split; [exact Ec |]. split; [reflexivity |]. split; [| exact Hq].
  split; [exact Hin | exact Hout].
Qed.

End LatencyRun.

Lemma before_count (i : nat) (count : option Q) :
  lt_number (ofZ (Z.of_nat i)) count = true <-> (i < turns count)%nat.
Proof.
  destruct count as [count |]; [| simpl; split; [discriminate | lia]].
  simpl. unfold turns. rewrite negb_true_iff, <- not_true_iff_false, Qle_bool_iff.
  pose proof (Qle_ceiling count) as Hle. pose proof (Qceiling_lt count) as Hlt.
  split.
  - intros Hi. apply Qnot_le_lt in Hi.
    assert (Hz : (Z.of_nat i < Qceiling count)%Z).
    { rewrite Zlt_Qlt. eapply Qlt_le_trans; eauto. }
    lia.
  - intros Hi Hc.
    assert (Hz : (Z.of_nat i <= Qceiling count - 1)%Z) by lia.
    rewrite Zle_Qle in Hz.
    apply (Qlt_irrefl count). eapply Qle_lt_trans; [exact Hc |].
    eapply Qle_lt_trans; [exact Hz | exact Hlt].
Qed.

Lemma latency_for_run (this : NetworkTester Q) (w : World Q) :
  forall fuel i latencies s,
    (i <= turns (latencyTestCount this))%nat ->
    (turns (latencyTestCount this) - i < fuel)%nat ->
    exists s',
      latency_for fuel this i latencies w s
      = (Return (latencies
                 ++ collected w (turns (latencyTestCount this) - i) i
                      (reads s) (List.length (requests s))),
         s')
      /\ List.length (requests s')
         = (List.length (requests s) + (turns (latencyTestCount this) - i))%nat.
Proof.
  induction fuel as [|fuel IH]; intros i latencies s Hi Hfuel; [lia |].
  cbn [latency_for].
  destruct (lt_number (ofZ (Z.of_nat i)) (latencyTestCount this)) eqn:E.
  - apply before_count in E.
    replace (turns (latencyTestCount this) - i)%nat
      with (S (turns (latencyTestCount this) - S i)) by lia.
    cbn [collected]. unfold bind. rewrite latency_probe_run.
    destruct (network w (List.length (requests s)) (probe_request i)).
    + edestruct IH as (s' & -> & Hq); [| | exists s'; split; [reflexivity |]]; [lia | lia |].
      cbn [reads requests List.length] in Hq. lia.
    + edestruct IH as (s' & -> & Hq); [| | exists s'; split]; [lia | lia | |].
      * cbn [reads requests List.length]. rewrite <- app_assoc. reflexivity.
      * cbn [reads requests List.length] in Hq. lia.
  - apply not_true_iff_false in E. rewrite before_count in E.
    replace (turns (latencyTestCount this) - i)%nat with 0%nat by lia.
    cbn [collected]. rewrite app_nil_r. exists s. unfold ret. split; [reflexivity | lia].
Qed.

Lemma testLatency_run (this : NetworkTester Q) (w : World Q) (s : State Q) (fuel : nat) :
  (turns (latencyTestCount this) < fuel)%nat ->
  exists s',
    testLatency fuel this w s
    = (match collected w (turns (latencyTestCount this)) 0 (reads s)
               (List.length (requests s)) with
       | [] => Throw (JsError "All latency tests failed")
       | first :: rest => Return (latency_stats first rest)
       end, s')
    /\ List.length (requests s')
       = (List.length (requests s) + turns (latencyTestCount this))%nat.
Proof.
  intros Hfuel. unfold testLatency, bind.
  destruct (latency_for_run this w fuel 0%nat [] s ltac:(lia) ltac:(lia))
    as (s' & E & Hq).
  rewrite Nat.sub_0_r in E, Hq. cbn [app] in E. rewrite E.
  exists s'. split; [| exact Hq].
  destruct (collected w (turns (latencyTestCount this)) 0 (reads s)
              (List.length (requests s))); reflexivity.
Qed.

Lemma collected_nil {num : Type} `{Number num} (w : World num) :
  forall n i r k,
    collected w n i r k = []
    <-> forall j, (j < n)%nat -> network w (k + j) (probe_request (i + j)) = Rejected.
Proof.
  induction n as [|n IH]; intros i r k; cbn [collected].
  - split; [intros _ j Hj; lia | reflexivity].
  - destruct (network w k (probe_request i)) eqn:E.
    + rewrite IH. split.
      * intros Hrest [|j] Hj.
        -- now rewrite !Nat.add_0_r.
        -- specialize (Hrest j ltac:(lia)).
           now rewrite <- !Nat.add_succ_comm.
      * intros Hall j Hj. specialize (Hall (S j) ltac:(lia)).
        now rewrite <- !Nat.add_succ_comm in Hall.
    + split; [discriminate |].
      intros Hall. specialize (Hall 0%nat ltac:(lia)).
      rewrite !Nat.add_0_r in Hall. congruence.
Qed.

Section LatencyStatsExact.
Local Open Scope Q_scope.

Lemma fold_left_Qplus (l : list Q) (acc : Q) :
  fold_left Qplus l acc == acc + Qsum l.
Proof.
  revert acc. induction l as [|x l IH]; intros acc; unfold Qsum; cbn [fold_left fold_right].
  - ring.
  - rewrite IH. unfold Qsum. ring.
Qed.

Lemma fold_left_deviation (a : Q) (l : list Q) (acc : Q) :
  fold_left (fun sum lat => sum + Qabs (lat - a)) l acc
  == acc + Qsum (map (fun x => Qabs (x - a)) l).
Proof.
  revert acc. induction l as [|x l IH]; intros acc;
    unfold Qsum; cbn [fold_left fold_right map].
  - ring.
  - rewrite IH. unfold Qsum. ring.
Qed.

Lemma Qsum_deviation_wd (a b : Q) (l : list Q) :
  a == b ->
  Qsum (map (fun x => Qabs (x - a)) l) == Qsum (map (fun x => Qabs (x - b)) l).
Proof.
  intros E. induction l as [|x l IH]; unfold Qsum in *; cbn [fold_right map];
    [reflexivity |].
  rewrite IH, E. reflexivity.
Qed.

Lemma Qmin_cases (x y : Q) : Qmin x y = x \/ Qmin x y = y.
Proof. unfold Qmin, GenericMinMax.gmin. destruct (x ?= y); auto. Qed.

Lemma Qmax_cases (x y : Q) : Qmax x y = x \/ Qmax x y = y.
Proof. unfold Qmax, GenericMinMax.gmax. destruct (x ?= y); auto. Qed.

Lemma fold_left_Qmin (rest : list Q) (first : Q) :
  is_minimum (fold_left Qmin rest first) (first :: rest).
Proof.
  revert first. induction rest as [|x rest IH]; intros first; simpl.
  - split; [now left |]. intros y [<- | []]. apply Qle_refl.
  - destruct (IH (Qmin first x)) as [Hin Hle]. split.
    + destruct Hin as [Hin | Hin]; [| now right; right].
      rewrite <- Hin. destruct (Qmin_cases first x) as [-> | ->]; simpl; auto.
    + intros y [<- | [<- | Hy]].
      * eapply Qle_trans; [apply Hle; now left | apply Q.le_min_l].
      * eapply Qle_trans; [apply Hle; now left | apply Q.le_min_r].
      * apply Hle. now right.
Qed.

Lemma fold_left_Qmax (rest : list Q) (first : Q) :
  is_maximum (fold_left Qmax rest first) (first :: rest).
Proof.
  revert first. induction rest as [|x rest IH]; intros first; simpl.
  - split; [now left |]. intros y [<- | []]. apply Qle_refl.
  - destruct (IH (Qmax first x)) as [Hin Hle]. split.
    + destruct Hin as [Hin | Hin]; [| now right; right].
      rewrite <- Hin. destruct (Qmax_cases first x) as [-> | ->]; simpl; auto.
    + intros y [<- | [<- | Hy]].
      * eapply Qle_trans; [apply Q.le_max_l | apply Hle; now left].
      * eapply Qle_trans; [apply Q.le_max_r | apply Hle; now left].
      * apply Hle. now right.
Qed.

Lemma latency_stats_avg (first : Q) (rest : list Q) :
  LatencyStats.avg (latency_stats first rest) == mean (first :: rest).
Proof.
  unfold latency_stats, mean. cbn [LatencyStats.avg].
  change (@add Q _) with Qplus. change (@div Q _) with Qdiv. change (@ofZ Q _) with inject_Z.
  rewrite (fold_left_Qplus (first :: rest) (inject_Z 0)).
  change (inject_Z 0) with 0. rewrite Qplus_0_l. reflexivity.
Qed.

Lemma latency_stats_jitter (first : Q) (rest : list Q) :
  LatencyStats.jitter (latency_stats first rest) == mean_abs_deviation (first :: rest).
Proof.
  pose proof (latency_stats_avg first rest) as Havg.
  unfold latency_stats, mean_abs_deviation in *. cbn [LatencyStats.avg LatencyStats.jitter] in *.
  unfold mean at 1. rewrite length_map.
  change (@add Q _) with Qplus in *. change (@div Q _) with Qdiv in *.
  change (@ofZ Q _) with inject_Z in *. change (@sub Q _) with Qminus.
  change (@Math_abs Q _) with Qabs.
  set (a := fold_left Qplus (first :: rest) (inject_Z 0)
            / inject_Z (Z.of_nat (List.length (first :: rest)))) in *.
  rewrite (fold_left_deviation a (first :: rest) (inject_Z 0)).
  change (inject_Z 0) with 0. rewrite Qplus_0_l.
  rewrite (Qsum_deviation_wd a (mean (first :: rest)) (first :: rest) Havg).
  reflexivity.
Qed.

Lemma Qsum_bounds (lo hi : Q) (l : list Q) :
  (forall x, In x l -> lo <= x /\ x <= hi) ->
  inject_Z (Z.of_nat (List.length l)) * lo <= Qsum l
  /\ Qsum l <= inject_Z (Z.of_nat (List.length l)) * hi.
Proof.
  induction l as [|x l IH]; intros Hb.
  - simpl. split; apply Qle_lteq; right; ring.
  - destruct IH as [IH1 IH2]; [intros y Hy; apply Hb; now right |].
    destruct (Hb x ltac:(now left)) as [H1 H2].
    cbn [List.length Qsum fold_right]. fold (Qsum l).
    rewrite Nat2Z.inj_succ. unfold Z.succ. rewrite inject_Z_plus.
    change (inject_Z 1) with 1. split; lra.
Qed.

Lemma Qsum_nonneg (l : list Q) : (forall x, In x l -> 0 <= x) -> 0 <= Qsum l.
Proof.
  induction l as [|x l IH]; intros Hb; simpl.
  - apply Qle_refl.
  - assert (0 <= x) by (apply Hb; now left).
    assert (0 <= Qsum l) by (apply IH; intros y Hy; apply Hb; now right).
    unfold Qsum in *. lra.
Qed.

Lemma length_positive (first : Q) (rest : list Q) :
  0 < inject_Z (Z.of_nat (List.length (first :: rest))).
Proof.
  change 0 with (inject_Z 0). rewrite <- Zlt_Qlt. simpl. lia.
Qed.

Lemma mean_between (first : Q) (rest : list Q) (lo hi : Q) :
  (forall x, In x (first :: rest) -> lo <= x /\ x <= hi) ->
  lo <= mean (first :: rest) /\ mean (first :: rest) <= hi.
Proof.
  intros Hb. destruct (Qsum_bounds lo hi (first :: rest) Hb) as [H1 H2].
  pose proof (length_positive first rest) as Hn. unfold mean.
  set (n := inject_Z (Z.of_nat (List.length (first :: rest)))) in *.
  split.
  - apply Qle_shift_div_l; [exact Hn |]. lra.
  - apply Qle_shift_div_r; [exact Hn |]. lra.
Qed.

Lemma mean_abs_deviation_nonneg (first : Q) (rest : list Q) :
  0 <= mean_abs_deviation (first :: rest).
Proof.
  unfold mean_abs_deviation, mean at 1. rewrite length_map.
  apply Qle_shift_div_l; [apply length_positive |].
  rewrite Qmult_0_l. apply Qsum_nonneg.
  intros x Hx. apply in_map_iff in Hx as (y & <- & _). apply Qabs_nonneg.
Qed.

End LatencyStatsExact.

Section LatencyTurns.
Context {num : Type} `{Number num}.

Lemma latency_for_turns (this : NetworkTester num) (w : World num) (n : nat) :
  turns_are (latencyTestCount this) n ->
  forall fuel i latencies s,
    (i <= n)%nat ->
    (n - i < fuel)%nat ->
    exists s',
      latency_for fuel this i latencies w s
      = (Return (latencies
                 ++ collected w (n - i) i (reads s) (List.length (requests s))),
         s')
      /\ List.length (requests s') = (List.length (requests s) + (n - i))%nat.
Proof.
  intros [Hin Hout].
  induction fuel as [|fuel IH]; intros i latencies s Hi Hfuel; [lia |].
  cbn [latency_for].
  destruct (Nat.eq_dec i n) as [-> | Hne].
  - rewrite Hout, Nat.sub_diag. cbn [collected]. rewrite app_nil_r.
    exists s. unfold ret. split; [reflexivity | lia].
  - rewrite Hin by lia.
    replace (n - i)%nat with (S (n - S i)) by lia.
    cbn [collected]. unfold bind. rewrite latency_probe_run.
    destruct (network w (List.length (requests s)) (probe_request i)).
    + edestruct IH as (s' & -> & Hq); [| | exists s'; split; [reflexivity |]]; [lia | lia |].
      cbn [reads requests List.length] in Hq. lia.
    + edestruct IH as (s' & -> & Hq); [| | exists s'; split]; [lia | lia | |].
      * cbn [reads requests List.length]. rewrite <- app_assoc. reflexivity.
      * cbn [reads requests List.length] in Hq. lia.
Qed.

Lemma testLatency_turns (this : NetworkTester num) (w : World num)
    (s : State num) (fuel n : nat) :
  turns_are (latencyTestCount this) n ->
  (n < fuel)%nat ->
  exists s',
    testLatency fuel this w s
    = (match collected w n 0 (reads s) (List.length (requests s)) with
       | [] => Throw (JsError "All latency tests failed")
       | first :: rest => Return (latency_stats first rest)
       end, s')
    /\ List.length (requests s') = (List.length (requests s) + n)%nat.
Proof.
  intros Hn Hfuel. unfold testLatency, bind.
  destruct (latency_for_turns this w n Hn fuel 0%nat [] s ltac:(lia) ltac:(lia))
    as (s' & E & Hq).
  rewrite Nat.sub_0_r in E, Hq. cbn [app] in E. rewrite E.
  exists s'. split; [| exact Hq].
  destruct (collected w n 0 (reads s) (List.length (requests s))); reflexivity.
Qed.

End LatencyTurns.

Lemma turns_are_exact (count : option Q) : turns_are count (turns count).
Proof.
  split.
  - intros i Hi. now apply before_count.
  - apply not_true_iff_false. rewrite before_count. lia.
Qed.


Lemma default_turns_exact : turns_are (latencyTestCount (default_tester (num := Q))) 5.
Proof.
  split; [intros [|[|[|[|[|i]]]]] Hi; try reflexivity; lia | reflexivity].
Qed.

Lemma default_turns_f64 :
  turns_are (latencyTestCount (default_tester (num := float))) 5.
Proof.
  split; [intros [|[|[|[|[|i]]]]] Hi; try reflexivity; lia | reflexivity].
Qed.

(** With the default options, [testLatency] returns as soon as one of its
    five probes resolves. *)
Lemma testLatency_default_returns {num : Type} `{Number num}
    (w : World num) (s : State num) :
  turns_are (latencyTestCount (default_tester (num := num))) 5 ->
  collected w 5 0 (reads s) (List.length (requests s)) <> [] ->
  exists stats s', testLatency 6 default_tester w s = (Return stats, s').
Proof.
  intros Hturns Hsome.
  destruct (testLatency_turns default_tester w s 6 5 Hturns ltac:(lia)) as (s' & E & _).
  destruct (collected w 5 0 (reads s) (List.length (requests s))) as [|first rest];
    [congruence |].
  now exists (latency_stats first rest), s'.
Qed.

Section LatencyStatsBinary64.

Lemma sum_f64_number (l : list float) (acc : float) :
  f64_number acc -> Forall f64_finite l -> f64_number (fold_left PrimFloat.add l acc).
Proof.
  revert acc. induction l as [|x l IH]; intros acc Hacc Hl; cbn [fold_left].
  - exact Hacc.
  - inversion Hl as [|? ? Hx Hl']; subst. apply IH; [| exact Hl'].
    now apply f64_add_number.
Qed.

Lemma sum_f64_signed (l : list float) (acc : float) :
  f64_signed false acc -> Forall (f64_signed false) l ->
  f64_signed false (fold_left PrimFloat.add l acc).
Proof.
  revert acc. induction l as [|x l IH]; intros acc Hacc Hl; cbn [fold_left].
  - exact Hacc.
  - inversion Hl as [|? ? Hx Hl']; subst. apply IH; [| exact Hl'].
    now apply f64_add_signed.
Qed.

Lemma count_f64_positive (l : list float) :
  l <> [] -> (Z.of_nat (List.length l) < 2 ^ 32)%Z -> f64_positive (count_of l).
Proof.
  intros Hl Hn. apply float_ofZ_positive. split.
  - destruct l; [congruence | cbn [List.length]; lia].
  - apply Z.lt_trans with (2 ^ 32)%Z; [exact Hn | reflexivity].
Qed.

(** In binary64 and for finite samples, the average is a number (it may be
    an infinity) and the jitter is not negative. *)
Lemma latency_stats_jitter_f64 (first : float) (rest : list float) :
  Forall f64_finite (first :: rest) ->
  (Z.of_nat (List.length (first :: rest)) < 2 ^ 32)%Z ->
  f64_number (LatencyStats.avg (latency_stats first rest))
  /\ f64_signed false (LatencyStats.jitter (latency_stats first rest)).
Proof.
  intros Hfin Hn. rewrite latency_stats_formulas. cbn zeta.
  cbn [LatencyStats.avg LatencyStats.jitter].
  set (samples := first :: rest) in *.
  assert (f64_positive (count_of samples)) as Hcount
    by (apply count_f64_positive; [discriminate | exact Hn]).
  assert (f64_number (div (sum_of samples) (count_of samples))) as Havg.
  { apply f64_div_number; [| exact Hcount].
    apply sum_f64_number; [| exact Hfin].
    unfold f64_number, SFnumber. cbn [ofZ Number_f64]. rewrite float_ofZ_zero. discriminate. }
  split; [exact Havg |].
  apply f64_div_signed; [| exact Hcount].
  apply sum_f64_signed.
  - unfold f64_signed. cbn [ofZ Number_f64]. rewrite float_ofZ_zero. reflexivity.
  - apply List.Forall_forall. intros y Hy. apply in_map_iff in Hy as (x & <- & Hx).
    apply f64_abs_signed, f64_sub_number; [| exact Havg].
    rewrite List.Forall_forall in Hfin. now apply Hfin.
Qed.

Lemma latency_stats_extrema_f64 (first : float) (rest : list float) :
  Forall f64_number (first :: rest) ->
  least (fold_left Math_min2 rest first) (first :: rest)
  /\ greatest (fold_left Math_max2 rest first) (first :: rest).
Proof.
  intros Hall. inversion Hall as [|? ? Hfirst Hrest]; subst.
  destruct (fold_left_min_f64 rest first Hfirst Hrest) as (Hin & _ & Hle).
  destruct (fold_left_max_f64 rest first Hfirst Hrest) as (Hin' & _ & Hge).
  split; split; assumption.
Qed.

End LatencyStatsBinary64.

(** Against C2 as stated: three probes that each measure 45.7 ms
    (0x1.6d9999999999ap+5), in binary64.  The sum of the three samples is
    rounded, and the [avg] returned is 45.70000000000001, the number after
    45.7: it is not the arithmetic mean of the samples, which is 45.7; and
    the [jitter] returned is 7.1e-15, not their mean absolute deviation,
    which is 0. *)
Lemma testLatency_mean_rounded_f64 :
  let this :=
    constructor (num := float) {[ "latencyTestCount"%string := Some 3%float ]}
      false false in
  let samples := collected three_equal_probes 3 0 0 0 in
  exists stats s',
    testLatency 4 this three_equal_probes initial = (Return stats, s')
    /\ samples = [0x1.6d9999999999ap+5; 0x1.6d9999999999ap+5; 0x1.6d9999999999ap+5]%float
    /\ ~ (exact_value (LatencyStats.avg stats) == mean (map exact_value samples))%Q
    /\ ~ (exact_value (LatencyStats.jitter stats)
          == mean_abs_deviation (map exact_value samples))%Q.
Proof.
  cbv zeta. do 2 eexists.
  split; [vm_compute; reflexivity |].
  split; [vm_compute; reflexivity |].
  split; intros E; vm_compute in E; discriminate E.
Qed.

(** C2, amended: whenever [testLatency] returns, in every interpretation of
    numbers, it has collected one sample at least (one probe per request it
    made, the samples being those of the probes that resolved) and returns
    - [avg]: the sum of the samples, accumulated from the left, divided by
      their count;
    - [jitter]: the sum of the [|sample - avg|], divided by the count;
    - [min] and [max]: [Math.min] and [Math.max] of the samples.
    In exact arithmetic these are the arithmetic mean, the mean absolute
    deviation from the mean, and the least and the greatest sample.  In
    binary64 each operation rounds; [min] and [max] are samples and bound
    every sample, as long as no sample is NaN.  With the default options
    and fuel for its five probes, [testLatency] does return whenever one of
    them resolves.  With the samples 100, 120, 110, 90, 130 the result is
    avg 110, jitter 12, min 90 and max 130, in exact arithmetic and in
    binary64 alike. *)
Theorem testLatency_statistics :
  (forall (num : Type) (N : Number num) (fuel : nat) (this : NetworkTester num)
          (w : World num) (s s' : State num) (stats : LatencyStats.t num),
     testLatency fuel this w s = (Return stats, s') ->
     exists (n : nat) (first : num) (rest : list num),
       List.length (requests s') = (List.length (requests s) + n)%nat
       /\ collected w n 0 (reads s) (List.length (requests s)) = first :: rest
       /\ let samples := first :: rest in
          let avg := div (sum_of samples) (count_of samples) in
          stats
          = LatencyStats.Build avg
              (div (sum_of (map (fun x => Math_abs (sub x avg)) samples))
                 (count_of samples))
              (fold_left Math_min2 rest first)
              (fold_left Math_max2 rest first))
  /\ (forall (first : Q) (rest : list Q),
        let samples := first :: rest in
        let avg := (sum_of samples / count_of samples)%Q in
        (avg == mean samples)%Q
        /\ (sum_of (map (fun x => Qabs (x - avg)) samples) / count_of samples
            == mean_abs_deviation samples)%Q
        /\ is_minimum (fold_left Qmin rest first) samples
        /\ is_maximum (fold_left Qmax rest first) samples)
  /\ (forall (first : float) (rest : list float),
        Forall f64_number (first :: rest) ->
        least (fold_left Math_min2 rest first) (first :: rest)
        /\ greatest (fold_left Math_max2 rest first) (first :: rest))
  /\ (forall (w : World float) (s : State float),
        collected w 5 0 (reads s) (List.length (requests s)) <> [] ->
        exists stats s', testLatency 6 default_tester w s = (Return stats, s'))
  /\ (forall (w : World Q) (s : State Q),
        collected w 5 0 (reads s) (List.length (requests s)) <> [] ->
        exists stats s', testLatency 6 default_tester w s = (Return stats, s'))
  /\ (exists (stats : LatencyStats.t Q) (s' : State Q),
        testLatency 6 default_tester five_probes initial = (Return stats, s')
        /\ collected five_probes 5 0 0 0 = [100; 120; 110; 90; 130]%Q
        /\ (LatencyStats.avg stats == 110)%Q
        /\ (LatencyStats.jitter stats == 12)%Q
        /\ (LatencyStats.min stats == 90)%Q
        /\ (LatencyStats.max stats == 130)%Q)
  /\ (exists s' : State float,
        testLatency 6 default_tester five_probes initial
        = (Return (LatencyStats.Build 110 12 90 130)%float, s')
        /\ collected five_probes 5 0 0 0 = [100; 120; 110; 90; 130]%float).
Proof.
  split; [| split; [| split; [| split; [| split; [| split]]]]].
  3: apply latency_stats_extrema_f64.
  3: intros w s; apply testLatency_default_returns, default_turns_f64.
  3: intros w s; apply testLatency_default_returns, default_turns_exact.
  - intros num N fuel this w s s' stats E.
    apply testLatency_returns in E as (n & first & rest & Ec & -> & _ & Hq).
    exists n, first, rest. split; [exact Hq |]. split; [exact Ec |].
    apply latency_stats_formulas.
  - intros first rest samples avg.
    pose proof (latency_stats_avg first rest) as Havg.
    pose proof (latency_stats_jitter first rest) as Hjitter.
    rewrite latency_stats_formulas in Havg, Hjitter.
    cbn zeta in Havg, Hjitter. cbn [LatencyStats.avg LatencyStats.jitter] in Havg, Hjitter.
    split; [exact Havg |]. split; [exact Hjitter |].
    split; [apply fold_left_Qmin | apply fold_left_Qmax].
  - do 2 eexists. split; [vm_compute; reflexivity |].
    split; [vm_compute; reflexivity |]. repeat split; reflexivity.
  - eexists. split; vm_compute; reflexivity.
Qed.

(** Against C8 as stated: in binary64 the three samples 0.1, 0.1, 0.1
    (0x1.999999999999ap-4) have the sum 0.30000000000000004 and the average
    0.10000000000000002, which is above their maximum. *)
Lemma latency_stats_avg_above_max_f64 :
  ~ (forall (first : float) (rest : list float),
       let stats := latency_stats first rest in
       leb (LatencyStats.min stats) (LatencyStats.avg stats) = true
       /\ leb (LatencyStats.avg stats) (LatencyStats.max stats) = true
       /\ leb (ofZ 0) (LatencyStats.jitter stats) = true).
Proof.
  intros Hall.
  specialize (Hall 0x1.999999999999ap-4%float
                [0x1.999999999999ap-4; 0x1.999999999999ap-4]%float).
  vm_compute in Hall. destruct Hall as (_ & Habove & _). discriminate Habove.
Qed.

(** The same in a run: three probes that each measure 45.7 ms. *)
Example testLatency_avg_above_max_f64 :
  exists stats : LatencyStats.t float,
    fst (testLatency 4 (constructor {[ "latencyTestCount"%string := Some 3%float ]} false false)
           three_equal_probes initial) = Return stats
    /\ LatencyStats.max stats = 0x1.6d9999999999ap+5%float
    /\ leb (LatencyStats.avg stats) (LatencyStats.max stats) = false.
Proof. eexists. split; [vm_compute; reflexivity |]. split; reflexivity. Qed.

(** C8, amended: what [testLatency] returns is the statistics of a
    non-empty list of samples, and for every non-empty list of samples
    - in binary64, when the samples are finite (and fewer than 2^32, the
      bound of the length of an array): min <= max and jitter >= 0;
    - in exact arithmetic: min <= avg <= max and jitter >= 0.
    (In binary64 the rounded [avg] can leave the interval from [min] to
    [max], as above.) *)
Theorem latency_stats_invariant :
  (forall (num : Type) (N : Number num) (fuel : nat) (this : NetworkTester num)
          (w : World num) (s s' : State num) (stats : LatencyStats.t num),
     testLatency fuel this w s = (Return stats, s') ->
     exists (n : nat) (first : num) (rest : list num),
       collected w n 0 (reads s) (List.length (requests s)) = first :: rest
       /\ stats = latency_stats first rest)
  /\ (forall (first : float) (rest : list float),
        Forall f64_finite (first :: rest) ->
        (Z.of_nat (List.length (first :: rest)) < 2 ^ 32)%Z ->
        let stats := latency_stats first rest in
        leb (LatencyStats.min stats) (LatencyStats.max stats) = true
        /\ leb (ofZ 0) (LatencyStats.jitter stats) = true)
  /\ (forall (first : Q) (rest : list Q),
        let stats := latency_stats first rest in
        (LatencyStats.min stats <= LatencyStats.avg stats)%Q
        /\ (LatencyStats.avg stats <= LatencyStats.max stats)%Q
        /\ (0 <= LatencyStats.jitter stats)%Q).
Proof.
  split; [| split].
  - intros num N fuel this w s s' stats E.
    apply testLatency_returns in E as (n & first & rest & Ec & -> & _).
    now exists n, first, rest.
  - intros first rest Hfin Hn stats. subst stats. split.
    + assert (Forall f64_number (first :: rest)) as Hnum
        by (eapply List.Forall_impl; [apply f64_finite_number | exact Hfin]).
      destruct (latency_stats_extrema_f64 first rest Hnum) as [[Hin _] [_ Hmax]].
      apply Hmax. exact Hin.
    + apply f64_signed_leb. now apply latency_stats_jitter_f64.
  - intros first rest stats. subst stats.
    rewrite latency_stats_avg, latency_stats_jitter.
    destruct (fold_left_Qmin rest first) as [_ Hmin].
    destruct (fold_left_Qmax rest first) as [_ Hmax].
    destruct (mean_between first rest
                (fold_left Qmin rest first) (fold_left Qmax rest first)) as [H1 H2].
    { intros x Hx. split; [now apply Hmin | now apply Hmax]. }
    split; [exact H1 |]. split; [exact H2 |].
    apply mean_abs_deviation_nonneg.
Qed.

(** ** Throughput samplers *)

Section ThroughputRun.
Context {num : Type} `{Number num}.

Lemma download_read_fuel (endTime : num) (chunks : list (Chunk num))
    (w : World num) (s : State num) :
  fst (download_read endTime chunks w s) <> OutOfFuel.
Proof.
  revert s. induction chunks as [|chunk chunks IH]; intros s.
  - cbn [download_read]. unfold bind, performance_now, ret.
    destruct (ltb _ _); cbn; discriminate.
  - cbn [download_read]. unfold bind at 1. unfold performance_now at 1.
    destruct (ltb _ _); [| cbn; discriminate].
    destruct chunk as [length | |]; try (cbn; discriminate).
    unfold bind at 1. unfold add_totalBytes, bind, get_totalBytes, set_totalBytes.
    apply IH.
Qed.

(** The inner [try] with its [catch] returns, whatever the request does. *)
Lemma download_request_returns (this : NetworkTester num) (endTime : num)
    (u : string) (w : World num) (s : State num) :
  exists s', download_request this endTime u w s = (Return tt, s').
Proof.
  unfold download_request, try_catch. unfold bind at 1.
  destruct (fetch GET u w s) as [[response | e |] s1] eqn:Ef.
  - destruct (if isBrowser this then body response else None) as [chunks |].
    + pose proof (download_read_fuel endTime chunks w s1) as Hfuel.
      destruct (download_read endTime chunks w s1) as [[[] | e |] s2]; cbn in *.
      * now eexists.
      * unfold console_warn. now eexists.
      * congruence.
    + destruct (arrayBuffer response) as [byteLength |].
      * unfold add_totalBytes, bind, get_totalBytes, set_totalBytes. now eexists.
      * unfold throw, console_warn. now eexists.
  - unfold console_warn. now eexists.
  - unfold fetch in Ef. destruct (network w _ _); discriminate.
Qed.

Lemma download_for_returns (this : NetworkTester num) (endTime : num)
    (urls : list string) (w : World num) (s : State num) :
  exists s', download_for this endTime urls w s = (Return tt, s').
Proof.
  revert s. induction urls as [|u urls IH]; intros s; cbn [download_for].
  - unfold ret. now eexists.
  - unfold bind at 1. unfold performance_now at 1.
    destruct (leb _ _); [unfold ret; now eexists |].
    unfold bind.
    destruct (download_request_returns this endTime u w
                {| reads := S (reads s); requests := requests s;
                   console := console s; totalBytes := totalBytes s |})
      as [s1 ->].
    apply IH.
Qed.

Lemma download_while_outcome (fuel : nat) (this : NetworkTester num)
    (endTime : num) (w : World num) (s : State num) :
  forall e, fst (download_while fuel this endTime w s) <> Throw e.
Proof.
  revert s. induction fuel as [|fuel IH]; intros s e; cbn [download_while].
  - cbn. discriminate.
  - unfold bind at 1. unfold performance_now at 1.
    destruct (ltb _ _); [| cbn; discriminate].
    unfold bind.
    destruct (download_for_returns this endTime download_testUrls w
                {| reads := S (reads s); requests := requests s;
                   console := console s; totalBytes := totalBytes s |})
      as [s1 ->].
    apply IH.
Qed.

(** [testDownloadSpeed] never raises, and what it returns is the conversion
    of the bytes counted, over the time between its first and its last
    reading of the clock. *)
Lemma testDownloadSpeed_result (fuel : nat) (this : NetworkTester num)
    (w : World num) (s : State num) :
  match testDownloadSpeed fuel this w s with
  | (Return v, s') =>
      v = speed_Mbps (totalBytes s')
            (div (sub (clock w (pred (reads s'))) (clock w (reads s))) (ofZ 1000))
  | (Throw _, _) => False
  | (OutOfFuel, _) => True
  end.
Proof.
  unfold testDownloadSpeed. unfold bind at 1. unfold set_totalBytes at 1.
  unfold bind at 1. unfold performance_now at 1. cbn [reads requests console totalBytes].
  unfold try_catch. unfold bind at 1.
  set (s0 := {| reads := S (reads s); requests := requests s;
                console := console s; totalBytes := ofZ 0 |}).
  unfold until_deadline.
  destruct (downloadTestDuration this) as [duration |];
    [| unfold bind, performance_now, get_totalBytes, ret; cbn; reflexivity].
  set (endTime := add (clock w (reads s)) (mul duration (ofZ 1000))).
  pose proof (download_while_outcome fuel this endTime w s0) as Hno.
  destruct (download_while fuel this endTime w s0) as [[[] | e |] s1]; cbn in Hno.
  - unfold bind, performance_now, get_totalBytes, ret. cbn. reflexivity.
  - destruct (Hno e eq_refl).
  - exact I.
Qed.

Lemma upload_while_outcome (fuel : nat) (endTime data_length : num)
    (w : World num) (s : State num) :
  forall e, fst (upload_while fuel endTime data_length w s) <> Throw e.
Proof.
  revert s. induction fuel as [|fuel IH]; intros s e; cbn [upload_while].
  - cbn. discriminate.
  - unfold bind at 1. unfold performance_now at 1.
    destruct (ltb _ _); [| cbn; discriminate].
    unfold bind at 1. unfold try_catch, bind, fetch.
    cbn [reads requests console totalBytes].
    destruct (network w _ _); cbn.
    + discriminate.
    + apply IH.
Qed.

(** [testUploadSpeed] raises only the [RangeError] of an invalid
    [testFileSize], and what it returns is the same conversion. *)
Lemma testUploadSpeed_result (fuel : nat) (this : NetworkTester num)
    (w : World num) (s : State num) :
  match testUploadSpeed fuel this w s with
  | (Return v, s') =>
      v = speed_Mbps (totalBytes s')
            (div (sub (clock w (pred (reads s'))) (clock w (reads s))) (ofZ 1000))
  | (Throw _, _) => Uint8Array_length (testFileSize this) = None
  | (OutOfFuel, _) => True
  end.
Proof.
  unfold testUploadSpeed.
  destruct (Uint8Array_length (testFileSize this)) as [data_length |]; [| reflexivity].
  unfold bind at 1. unfold set_totalBytes at 1.
  unfold bind at 1. unfold performance_now at 1. cbn [reads requests console totalBytes].
  unfold try_catch. unfold bind at 1.
  set (s0 := {| reads := S (reads s); requests := requests s;
                console := console s; totalBytes := ofZ 0 |}).
  unfold until_deadline.
  destruct (uploadTestDuration this) as [duration |];
    [| unfold bind, performance_now, get_totalBytes, ret; cbn; reflexivity].
  set (endTime := add (clock w (reads s)) (mul duration (ofZ 1000))).
  pose proof (upload_while_outcome fuel endTime data_length w s0) as Hno.
  destruct (upload_while fuel endTime data_length w s0) as [[[] | e |] s1]; cbn in Hno.
  - unfold bind, performance_now, get_totalBytes, ret. cbn. reflexivity.
  - destruct (Hno e eq_refl).
  - exact I.
Qed.

End ThroughputRun.

Section Deadlines.
Local Open Scope Q_scope.

Lemma after_deadline (t deadline : Q) :
  deadline <= t -> ltb t deadline = false /\ leb deadline t = true.
Proof.
  intros Hle. cbn [ltb leb Number_Q].
  apply Qle_bool_iff in Hle. now rewrite Hle.
Qed.

End Deadlines.

Section ThroughputRejected.
Context {num : Type} `{Number num}.

Lemma readings_before_shift (w : World num) (deadline : num) (r m j : nat) :
  readings_before w deadline r m -> readings_before w deadline (r + j) (m - j).
Proof.
  intros [Hb Ha]. split; intros k Hk; [apply Hb | apply Ha]; lia.
Qed.

Lemma readings_before_next (w : World num) (deadline : num) (r m : nat) :
  readings_before w deadline r (S m) ->
  (ltb (clock w r) deadline = true /\ leb deadline (clock w r) = false)
  /\ readings_before w deadline (S r) m.
Proof.
  intros Hr. split.
  - apply Hr. lia.
  - pose proof (readings_before_shift w deadline r (S m) 1 Hr) as Hs.
    now rewrite Nat.add_1_r, Nat.sub_succ, Nat.sub_0_r in Hs.
Qed.

Lemma readings_before_none (w : World num) (deadline : num) (r : nat) :
  readings_before w deadline r 0 ->
  ltb (clock w r) deadline = false /\ leb deadline (clock w r) = true.
Proof. intros [_ Ha]. apply Ha. lia. Qed.

Lemma download_request_rejected (this : NetworkTester num) (endTime : num)
    (u : string) (w : World num) (s : State num) :
  all_rejected w ->
  download_request this endTime u w s
  = (Return tt,
     {| reads := reads s;
        requests := {| method := GET; url := u |} :: requests s;
        console := ("Download test failed for: " ++ u)%string :: console s;
        totalBytes := totalBytes s |}).
Proof.
  intros Hall. unfold download_request, try_catch, bind, fetch, console_warn.
  rewrite Hall. reflexivity.
Qed.

Lemma download_for_rejected (this : NetworkTester num) (endTime : num) (w : World num) :
  all_rejected w ->
  forall (urls : list string) (m : nat) (s : State num),
    readings_before w endTime (reads s) m ->
    exists s',
      download_for this endTime urls w s = (Return tt, s')
      /\ totalBytes s' = totalBytes s
      /\ List.length (requests s')
         = (List.length (requests s) + Nat.min m (List.length urls))%nat
      /\ reads s'
         = (reads s + if (m <? List.length urls)%nat then S m else List.length urls)%nat.
Proof.
  intros Hall urls. induction urls as [|u urls IH]; intros m s Hr; cbn [download_for].
  - exists s. unfold ret. rewrite Nat.min_0_r. cbn. repeat split; lia.
  - unfold bind at 1. unfold performance_now at 1.
    destruct m as [|m].
    + apply readings_before_none in Hr as [_ ->].
      eexists. unfold ret. split; [reflexivity |]. cbn. repeat split; lia.
    + apply readings_before_next in Hr as [[_ ->] Hr].
      unfold bind. rewrite (download_request_rejected this endTime u w _ Hall).
      cbv beta iota. cbn [reads requests console totalBytes].
      destruct (IH m {| reads := S (reads s);
                        requests := {| method := GET; url := u |} :: requests s;
                        console := ("Download test failed for: " ++ u)%string :: console s;
                        totalBytes := totalBytes s |} Hr)
        as (s' & -> & Ht & Hq & Hreads).
      exists s'. split; [reflexivity |].
      cbn [reads requests console totalBytes List.length] in *.
      split; [exact Ht |]. split; [lia |].
      rewrite Hreads. change (S m <? S (List.length urls))%nat with (m <? List.length urls)%nat.
      destruct (m <? List.length urls)%nat; lia.
Qed.

Lemma download_while_rejected (this : NetworkTester num) (endTime : num) (w : World num) :
  all_rejected w ->
  forall (fuel m : nat) (s : State num),
    readings_before w endTime (reads s) m ->
    (m < fuel)%nat ->
    exists s',
      download_while fuel this endTime w s = (Return tt, s')
      /\ totalBytes s' = totalBytes s
      /\ List.length (requests s')
         = (List.length (requests s) + download_attempts m)%nat
      /\ (reads s + m < reads s')%nat.
Proof.
  intros Hall fuel. induction fuel as [|fuel IH]; intros m s Hr Hfuel; [lia |].
  cbn [download_while]. unfold bind at 1. unfold performance_now at 1.
  destruct m as [|m].
  - apply readings_before_none in Hr as [-> _].
    eexists. unfold ret. split; [reflexivity |]. cbn. repeat split; lia.
  - apply readings_before_next in Hr as [[-> _] Hr].
    unfold bind.
    destruct (download_for_rejected this endTime w Hall download_testUrls m
                {| reads := S (reads s); requests := requests s;
                   console := console s; totalBytes := totalBytes s |} Hr)
      as (s1 & -> & Ht1 & Hq1 & Hreads1).
    cbn [reads requests console totalBytes List.length download_testUrls] in *.
    pose proof (readings_before_shift w endTime (S (reads s)) m 1 Hr) as Hone.
    pose proof (readings_before_shift w endTime (S (reads s)) m 2 Hr) as Htwo.
    destruct m as [|[|m]]; cbn [Nat.ltb Nat.leb Nat.min Nat.sub] in *.
    + destruct (IH 0%nat s1) as (s' & -> & Ht & Hq & Hreads); [| lia |].
      { rewrite Hreads1. exact Hone. }
      exists s'. split; [reflexivity |]. cbn [download_attempts] in *.
      repeat split; [congruence | lia | lia].
    + destruct (IH 0%nat s1) as (s' & -> & Ht & Hq & Hreads); [| lia |].
      { rewrite Hreads1. exact Htwo. }
      exists s'. split; [reflexivity |]. cbn [download_attempts] in *.
      repeat split; [congruence | lia | lia].
    + rewrite Nat.sub_0_r in Htwo. rewrite Nat.min_0_r in Hq1.
      destruct (IH m s1) as (s' & -> & Ht & Hq & Hreads); [| lia |].
      { rewrite Hreads1. exact Htwo. }
      exists s'. split; [reflexivity |]. cbn [download_attempts] in *.
      repeat split; [congruence | lia | lia].
Qed.

Lemma testDownloadSpeed_rejected (this : NetworkTester num) (w : World num)
    (s : State num) (fuel m : nat) (duration : num) :
  all_rejected w ->
  downloadTestDuration this = Some duration ->
  readings_before w (add (clock w (reads s)) (mul duration (ofZ 1000)))
    (S (reads s)) m ->
  (m < fuel)%nat ->
  exists s',
    testDownloadSpeed fuel this w s
    = (Return (speed_Mbps (ofZ 0)
                 (div (sub (clock w (pred (reads s'))) (clock w (reads s)))
                    (ofZ 1000))), s')
    /\ (S (reads s) + m < reads s')%nat
    /\ List.length (requests s') = (List.length (requests s) + download_attempts m)%nat.
Proof.
  intros Hall Hdur Hr Hfuel.
  unfold testDownloadSpeed. unfold bind at 1. unfold set_totalBytes at 1.
  unfold bind at 1. unfold performance_now at 1. cbn [reads requests console totalBytes].
  unfold try_catch. unfold bind at 1.
  set (s0 := {| reads := S (reads s); requests := requests s;
                console := console s; totalBytes := ofZ 0 |}).
  rewrite Hdur. unfold until_deadline.
  destruct (download_while_rejected this _ w Hall fuel m s0 Hr Hfuel)
    as (s1 & -> & Ht & Hq & Hreads).
  unfold bind, performance_now, get_totalBytes, ret. subst s0.
  cbn [reads requests console totalBytes] in *.
  exists {| reads := S (reads s1); requests := requests s1;
            console := console s1; totalBytes := totalBytes s1 |}.
  cbn [reads requests console totalBytes Nat.pred].
  split; [rewrite Ht; reflexivity |]. split; [lia | exact Hq].
Qed.

Lemma upload_while_rejected (endTime data_length : num) (w : World num)
    (s : State num) (fuel m : nat) :
  all_rejected w ->
  readings_before w endTime (reads s) m ->
  (0 < fuel)%nat ->
  exists s',
    upload_while fuel endTime data_length w s = (Return tt, s')
    /\ totalBytes s' = totalBytes s
    /\ reads s' = S (reads s)
    /\ List.length (requests s') = (List.length (requests s) + upload_attempts m)%nat.
Proof.
  intros Hall Hr Hfuel. destruct fuel as [|fuel]; [lia |].
  cbn [upload_while]. unfold bind at 1. unfold performance_now at 1.
  destruct m as [|m].
  - apply readings_before_none in Hr as [-> _].
    eexists. unfold ret. split; [reflexivity |]. cbn. repeat split; lia.
  - apply readings_before_next in Hr as [[-> _] _].
    unfold bind, try_catch, fetch, console_warn, ret. rewrite Hall.
    eexists. split; [reflexivity |]. cbn. repeat split; lia.
Qed.

Lemma testUploadSpeed_rejected (this : NetworkTester num) (w : World num)
    (s s' : State num) (fuel m : nat) (duration v : num) :
  all_rejected w ->
  uploadTestDuration this = Some duration ->
  readings_before w (add (clock w (reads s)) (mul duration (ofZ 1000)))
    (S (reads s)) m ->
  testUploadSpeed fuel this w s = (Return v, s') ->
  v = speed_Mbps (ofZ 0)
        (div (sub (clock w (S (S (reads s)))) (clock w (reads s))) (ofZ 1000))
  /\ reads s' = S (S (S (reads s)))
  /\ List.length (requests s') = (List.length (requests s) + upload_attempts m)%nat.
Proof.
  intros Hall Hdur Hr. unfold testUploadSpeed.
  destruct (Uint8Array_length (testFileSize this)) as [data_length |];
    [| discriminate].
  unfold bind at 1. unfold set_totalBytes at 1.
  unfold bind at 1. unfold performance_now at 1. cbn [reads requests console totalBytes].
  unfold try_catch. unfold bind at 1.
  set (s0 := {| reads := S (reads s); requests := requests s;
                console := console s; totalBytes := ofZ 0 |}).
  rewrite Hdur. unfold until_deadline.
  destruct fuel as [|fuel]; [discriminate |].
  destruct (upload_while_rejected _ data_length w s0 (S fuel) m Hall Hr ltac:(lia))
    as (s1 & -> & Ht & Hreads & Hq).
  unfold bind, performance_now, get_totalBytes, ret. subst s0.
  cbn [reads requests console totalBytes] in *.
  intros E. injection E as <- <-. cbn [reads requests console totalBytes].
  rewrite Ht, Hreads. auto.
Qed.

End ThroughputRejected.

(** The conversion of no bytes: 0 over a positive time, in exact arithmetic
    and in binary64. *)
Lemma speed_Mbps_of_nothing (duration : Q) : (speed_Mbps (0 : Q) duration == 0)%Q.
Proof.
  unfold speed_Mbps. cbn [div mul Math_round ofZ Number_Q]. unfold Qround_half_up.
  assert (E : (0 / duration * inject_Z 8 / (inject_Z 1024 * inject_Z 1024) * inject_Z 100
               + (1 # 2) == (1 # 2))%Q).
  { unfold Qdiv. ring. }
  rewrite (Qfloor_comp _ _ E). reflexivity.
Qed.

Lemma speed_Mbps_of_nothing_f64 (duration : float) :
  ltb (ofZ 0) duration = true -> speed_Mbps (ofZ 0) duration = ofZ 0.
Proof.
  cbn [ltb ofZ Number_f64]. intros Hpos.
  assert (PrimFloat.div (float_ofZ 0) duration = float_ofZ 0) as E.
  { apply Prim2SF_inj. rewrite FloatAxioms.div_spec, float_ofZ_zero.
    rewrite FloatAxioms.ltb_spec, float_ofZ_zero in Hpos.
    destruct (Prim2SF duration) as [[] | [] | | [] m e]; try discriminate Hpos;
      reflexivity. }
  unfold speed_Mbps. cbn [div mul Math_round ofZ Number_f64].
  rewrite E. vm_compute. reflexivity.
Qed.

(** Against C4 as stated: every request is rejected and the clock, read
    three times during the upload run, has not advanced; the elapsed time
    is 0, the speed 0 / 0, and the run returns NaN, not 0. *)
Lemma testUploadSpeed_stalled_clock_f64 :
  all_rejected (stalled (num := float))
  /\ exists v : float,
       fst (testUploadSpeed 1 default_tester stalled initial) = Return v
       /\ is_nan v = true.
Proof.
  split; [intros [|k] r; reflexivity |].
  eexists. split; [vm_compute; reflexivity | reflexivity].
Qed.

Section Conversion.
Local Open Scope Q_scope.

(** In exact arithmetic the conversion is the formula, times 100, rounded
    to the nearest integer (a tie going up), over 100. *)
Lemma speed_Mbps_formula (totalBytes seconds : Q) :
  speed_Mbps totalBytes seconds
  == inject_Z (Qfloor (totalBytes / seconds * 8 / 1048576 * 100 + (1 # 2))) / 100.
Proof. reflexivity. Qed.

Lemma speed_Mbps_rounds (totalBytes seconds : Q) :
  Qabs (speed_Mbps totalBytes seconds - totalBytes / seconds * 8 / 1048576) <= 1 # 200.
Proof.
  rewrite speed_Mbps_formula.
  set (mbps := totalBytes / seconds * 8 / 1048576).
  pose proof (Qfloor_le (mbps * 100 + (1 # 2))) as Hlo.
  pose proof (Qlt_floor (mbps * 100 + (1 # 2))) as Hhi.
  rewrite inject_Z_plus in Hhi. change (inject_Z 1) with 1 in Hhi.
  set (f := inject_Z (Qfloor (mbps * 100 + (1 # 2)))) in *.
  clearbody f mbps.
  apply Qabs_Qle_condition. unfold Qdiv. change (/ 100) with (1 # 100).
  split; lra.
Qed.

End Conversion.

(** Against C5 as stated, in binary64.  A download run that counts
    15,540,224 bytes in 100 ms computes the elapsed seconds 100 / 1000, the
    binary64 number 0x1.999999999999ap-4 just above 0.1, and returns
    1185.63 (0x1.286851eb851ecp+10).  The formula at these bytes and seconds
    is just below 1185.625: the hundredth nearest to it is 1185.62, and
    the value returned is farther than 0.005 from it.  And 59,392 bytes
    over 3.125 s, where the formula is 0.145 and [Math.round] would take a
    tie up to 0.15, give 0.14 (0x1.1eb851eb851ecp-3), because 0.145 * 100 is
    14.499999999999998 in binary64. *)
Lemma speed_Mbps_not_nearest_f64 :
  let seconds := (100 / 1000)%float in
  let v := 0x1.286851eb851ecp+10%float in
  let mbps := (15540224 / exact_value seconds * 8 / 1048576)%Q in
  (exists s',
     testDownloadSpeed 3 tenth_second_tester tenth_second_download initial
     = (Return v, s')
     /\ totalBytes s' = 15540224%float
     /\ ((tenth_second_download.(clock) (pred (reads s'))
          - tenth_second_download.(clock) 0%nat) / 1000)%float = seconds)
  /\ speed_Mbps 15540224%float seconds = v
  /\ (mbps < 1185625 # 1000)%Q
  /\ (1 # 200 < exact_value v - mbps)%Q
  /\ speed_Mbps 59392%float 3.125%float = 0x1.1eb851eb851ecp-3%float
  /\ (59392 / (3125 # 1000) * 8 / 1048576 == 145 # 1000)%Q
  /\ (speed_Mbps (59392 : Q) (3125 # 1000) == 15 # 100)%Q
  /\ (exact_value 0x1.1eb851eb851ecp-3%float < 145 # 1000)%Q.
Proof.
  cbv zeta.
  split; [eexists; split; [vm_compute; reflexivity | split; vm_compute; reflexivity] |].
  split; [vm_compute; reflexivity |].
  split; [vm_compute; reflexivity |].
  split; [vm_compute; reflexivity |].
  split; [vm_compute; reflexivity |].
  split; [vm_compute; reflexivity |].
  split; vm_compute; reflexivity.
Qed.

(** C5, amended: in every interpretation of numbers, what either sampler
    returns is [Math.round(speedMbps * 100) / 100] for
    [speedMbps = ((totalBytes / seconds) * 8) / (1024 * 1024)], where
    [totalBytes] is the bytes it counted and [seconds] the time between its
    first and its last reading of the clock, over 1000; a download run
    raises nothing, and an upload run raises only before it starts, when
    its buffer cannot be made.  In exact arithmetic
    this is (totalBytes / seconds) * 8 / 1048576, times 100, rounded to the
    nearest integer (a tie going up), over 100, which is within 0.005 of the
    formula; in binary64 every operation rounds, and the result can be the
    other hundredth next to the formula, as above.  12,500,000 bytes over
    2.0 seconds give 47.68 (in binary64 0x1.7d70a3d70a3d7p+5, the number
    nearest to 47.68), from the conversion alone and from a download and an
    upload run. *)
Theorem throughput_conversion :
  (forall (num : Type) (N : Number num) (fuel : nat) (this : NetworkTester num)
          (w : World num) (s s' : State num) (v : num),
     (testDownloadSpeed fuel this w s = (Return v, s')
      \/ testUploadSpeed fuel this w s = (Return v, s')) ->
     let seconds :=
       div (sub (clock w (pred (reads s'))) (clock w (reads s))) (ofZ 1000) in
     let speedMbps :=
       div (mul (div (totalBytes s') seconds) (ofZ 8)) (mul (ofZ 1024) (ofZ 1024)) in
     v = div (Math_round (mul speedMbps (ofZ 100))) (ofZ 100))
  /\ (forall (num : Type) (N : Number num) (fuel : nat) (this : NetworkTester num)
             (w : World num) (s s' : State num) (e : Error),
        testDownloadSpeed fuel this w s <> (Throw e, s')
        /\ (testUploadSpeed fuel this w s = (Throw e, s') -> s' = s))
  /\ (forall totalBytes seconds : Q,
        ~ (seconds == 0)%Q ->
        let mbps := (totalBytes / seconds * 8 / 1048576)%Q in
        let speedMbps := (totalBytes / seconds * 8 / (1024 * 1024))%Q in
        (Math_round (speedMbps * 100) / 100
         == inject_Z (Qfloor (mbps * 100 + (1 # 2))) / 100)%Q
        /\ (Qabs (Math_round (speedMbps * 100) / 100 - mbps) <= 1 # 200)%Q)
  /\ (speed_Mbps 12500000 2 == 4768 # 100)%Q
  /\ speed_Mbps 12500000%float 2%float = 0x1.7d70a3d70a3d7p+5%float
  /\ (Qabs (exact_value 0x1.7d70a3d70a3d7p+5%float - (4768 # 100))
      < 1 # 281474976710656)%Q
  /\ (exists (v : Q) (s' : State Q),
        testDownloadSpeed 3 two_second_tester two_second_download initial = (Return v, s')
        /\ (totalBytes s' == 12500000)%Q
        /\ (v == 4768 # 100)%Q)
  /\ (exists (v : Q) (s' : State Q),
        testUploadSpeed 3 two_second_tester two_second_upload initial = (Return v, s')
        /\ (totalBytes s' == 12500000)%Q
        /\ (v == 4768 # 100)%Q)
  /\ (exists s' : State float,
        testDownloadSpeed 3 two_second_tester two_second_download initial
        = (Return 0x1.7d70a3d70a3d7p+5%float, s')
        /\ totalBytes s' = 12500000%float)
  /\ (exists s' : State float,
        testUploadSpeed 3 two_second_tester two_second_upload initial
        = (Return 0x1.7d70a3d70a3d7p+5%float, s')
        /\ totalBytes s' = 12500000%float).
Proof.
  split.
  { intros num N fuel this w s s' v [E | E].
    - pose proof (testDownloadSpeed_result fuel this w s) as Hres.
      rewrite E in Hres. exact Hres.
    - pose proof (testUploadSpeed_result fuel this w s) as Hres.
      rewrite E in Hres. exact Hres. }
  split.
  { intros num N fuel this w s s' e. split; intros E.
    - pose proof (testDownloadSpeed_result fuel this w s) as Hres.
      rewrite E in Hres. exact Hres.
    - pose proof (testUploadSpeed_result fuel this w s) as Hres. rewrite E in Hres.
      unfold testUploadSpeed in E. rewrite Hres in E. unfold throw in E. congruence. }
  split.
  { intros totalBytes seconds _ mbps speedMbps. split.
    - apply speed_Mbps_formula.
    - apply speed_Mbps_rounds. }
  split; [reflexivity |].
  split; [vm_compute; reflexivity |].
  split; [vm_compute; reflexivity |].
  split; [do 2 eexists; split; [vm_compute; reflexivity | split; reflexivity] |].
  split; [do 2 eexists; split; [vm_compute; reflexivity | split; reflexivity] |].
  split; eexists; split; vm_compute; reflexivity.
Qed.

(* ================================================================== *)
(** * Further properties *)

(** ** Further properties of the classification *)

Lemma quality_by_tier (result : SpeedTestResult.t Q) :
  let d := SpeedTestResult.downloadSpeed result in
  let u := SpeedTestResult.uploadSpeed result in
  let l := SpeedTestResult.latency result in
  NetworkQuality.quality (analyzeQuality result)
  = if tier_holds excellent d u l then excellent
    else if tier_holds good d u l then good
    else if tier_holds fair d u l then fair
    else if tier_holds poor d u l then poor
    else very_poor.
Proof.
  destruct result as [d u l j ts]. unfold analyzeQuality, tier_holds. simpl. unfold inject_Z.
  repeat match goal with
         | |- context [Qle_bool ?a ?b] => destruct (Qle_bool a b); simpl
         end; reflexivity.
Qed.

Lemma tier_holds_monotone (tier : Quality) (d u l d' u' l' : Q) :
  (d <= d')%Q -> (u <= u')%Q -> (l' <= l)%Q ->
  tier_holds tier d u l = true -> tier_holds tier d' u' l' = true.
Proof.
  intros Hd Hu Hl. rewrite !tier_holds_iff.
  destruct tier; simpl; intros Ht; repeat split; try tauto; lra.
Qed.

(** X1: [analyzeQuality] is monotone: a result that is no worse in any of
    the three measures (download and upload at least as high, latency at
    most as high) is never put in a worse tier; jitter and timestamp play no
    part. *)
Theorem analyzeQuality_monotone (d u l j t d' u' l' j' t' : Q) :
  (d <= d')%Q -> (u <= u')%Q -> (l' <= l)%Q ->
  (tier_rank (NetworkQuality.quality (analyzeQuality (SpeedTestResult.Build d u l j t)))
   <= tier_rank
        (NetworkQuality.quality (analyzeQuality (SpeedTestResult.Build d' u' l' j' t'))))%nat.
Proof.
  intros Hd Hu Hl. rewrite !quality_by_tier. cbn [SpeedTestResult.downloadSpeed
    SpeedTestResult.uploadSpeed SpeedTestResult.latency].
  pose proof (fun tier => tier_holds_monotone tier d u l d' u' l' Hd Hu Hl) as Hm.
  destruct (tier_holds excellent d u l) eqn:E1;
    [rewrite (Hm excellent E1); simpl; lia |].
  destruct (tier_holds good d u l) eqn:E2;
    [rewrite (Hm good E2); destruct (tier_holds excellent d' u' l'); simpl; lia |].
  destruct (tier_holds fair d u l) eqn:E3;
    [rewrite (Hm fair E3);
     destruct (tier_holds excellent d' u' l'), (tier_holds good d' u' l'); simpl; lia |].
  destruct (tier_holds poor d u l) eqn:E4;
    [rewrite (Hm poor E4);
     destruct (tier_holds excellent d' u' l'), (tier_holds good d' u' l'),
       (tier_holds fair d' u' l'); simpl; lia |].
  simpl. lia.
Qed.

Lemma analyzeQuality_monotone_example :
  (30 <= 60)%Q /\ (6 <= 12)%Q /\ (20 <= 40)%Q
  /\ (tier_rank (NetworkQuality.quality
                   (analyzeQuality (SpeedTestResult.Build 30 6 40 3 0)%Q))
      <= tier_rank (NetworkQuality.quality
                      (analyzeQuality (SpeedTestResult.Build 60 12 20 9 7)%Q)))%nat.
Proof.
  split; [discriminate |]. split; [discriminate |]. split; [discriminate |].
  apply analyzeQuality_monotone; discriminate.
Defined.

Lemma good_or_better (result : SpeedTestResult.t Q) :
  existsb (Quality_eqb (NetworkQuality.quality (analyzeQuality result))) [excellent; good]
  = tier_holds good (SpeedTestResult.downloadSpeed result)
      (SpeedTestResult.uploadSpeed result) (SpeedTestResult.latency result).
Proof.
  rewrite quality_by_tier. cbv zeta.
  set (d := SpeedTestResult.downloadSpeed result).
  set (u := SpeedTestResult.uploadSpeed result).
  set (l := SpeedTestResult.latency result).
  destruct (tier_holds excellent d u l) eqn:E1.
  - symmetry. apply tier_holds_iff. apply tier_holds_iff in E1. simpl in *.
    repeat split; lra.
  - destruct (tier_holds good d u l); [reflexivity |].
    destruct (tier_holds fair d u l); [reflexivity |].
    destruct (tier_holds poor d u l); reflexivity.
Qed.

(** X2: [isNetworkGood] answers [true] exactly when the run of the
    default tester measured a download speed of at least 25, an upload speed
    of at least 5 and a latency of at most 50, the thresholds of the tier
    good; it ends as [runSpeedTest] ends, in the same state, and an
    exception of the run reaches the caller. *)
Theorem isNetworkGood_threshold (fuel : nat) (has_window has_document : bool)
    (Date_now : Q) (w : World Q) (s : State Q) :
  match runSpeedTest fuel (constructor ∅ has_window has_document) Date_now w s with
  | (Return result, s') =>
      exists b : bool,
        isNetworkGood fuel has_window has_document Date_now w s = (Return b, s')
        /\ (b = true <->
            (25 <= SpeedTestResult.downloadSpeed result
             /\ 5 <= SpeedTestResult.uploadSpeed result
             /\ SpeedTestResult.latency result <= 50)%Q)
  | (Throw e, s') =>
      isNetworkGood fuel has_window has_document Date_now w s = (Throw e, s')
  | (OutOfFuel, s') =>
      isNetworkGood fuel has_window has_document Date_now w s = (OutOfFuel, s')
  end.
Proof.
  unfold isNetworkGood. cbv zeta. unfold bind.
  destruct (runSpeedTest fuel (constructor ∅ has_window has_document) Date_now w s)
    as [[result | e |] s'].
  - eexists. split; [reflexivity |].
    rewrite good_or_better, tier_holds_iff. reflexivity.
  - reflexivity.
  - reflexivity.
Qed.

(** ** The order of the requests *)

Section Requests.
Context {num : Type} `{Number num}.

Lemma issued_refl (m : Method) (s s' : State num) :
  requests s' = requests s -> issued m s s'.
Proof. intros E. exists []. split; [exact E | constructor]. Qed.

Lemma issued_trans (m : Method) (s1 s2 s3 : State num) :
  issued m s1 s2 -> issued m s2 s3 -> issued m s1 s3.
Proof.
  intros (a & Ea & Ha) (b & Eb & Hb). exists (b ++ a). split.
  - rewrite Eb, Ea. apply app_assoc.
  - apply Forall_app. split; assumption.
Qed.

Lemma issued_one (m : Method) (u : string) (s s' : State num) :
  requests s' = {| method := m; url := u |} :: requests s -> issued m s s'.
Proof.
  intros E. exists [{| method := m; url := u |}]. split; [exact E |].
  constructor; [reflexivity | constructor].
Qed.

Lemma latency_probe_issued (i : nat) (w : World num) (s : State num) :
  issued HEAD s (snd (latency_probe i w s)).
Proof.
  rewrite latency_probe_run.
  destruct (network w _ _); apply (issued_one HEAD (url (probe_request i))); reflexivity.
Qed.

Lemma latency_for_issued (this : NetworkTester num) (w : World num) :
  forall fuel i latencies s,
    issued HEAD s (snd (latency_for fuel this i latencies w s)).
Proof.
  induction fuel as [|fuel IH]; intros i latencies s; cbn [latency_for].
  - now apply issued_refl.
  - destruct (lt_number _ _); [| now apply issued_refl].
    unfold bind. pose proof (latency_probe_issued i w s) as Hp.
    destruct (latency_probe i w s) as [[sample | e |] s1]; cbn [snd] in *; try exact Hp.
    eapply issued_trans; [exact Hp | apply IH].
Qed.

Lemma testLatency_issued (fuel : nat) (this : NetworkTester num)
    (w : World num) (s : State num) :
  issued HEAD s (snd (testLatency fuel this w s)).
Proof.
  unfold testLatency, bind.
  pose proof (latency_for_issued this w fuel 0%nat [] s) as Hl.
  destruct (latency_for fuel this 0 [] w s) as [[[|first rest] | e |] s1];
    cbn [snd] in *; exact Hl.
Qed.

Lemma download_read_requests (endTime : num) (w : World num) :
  forall chunks s, requests (snd (download_read endTime chunks w s)) = requests s.
Proof.
  induction chunks as [|chunk chunks IH]; intros s; cbn [download_read];
    unfold bind at 1; unfold performance_now at 1.
  - destruct (ltb _ _); reflexivity.
  - destruct (ltb _ _); [| reflexivity].
    destruct chunk as [length | |]; try reflexivity.
    unfold bind at 1. unfold add_totalBytes, bind, get_totalBytes, set_totalBytes.
    cbn [reads requests console totalBytes]. rewrite IH. reflexivity.
Qed.

Lemma download_request_issued (this : NetworkTester num) (endTime : num)
    (u : string) (w : World num) (s : State num) :
  issued GET s (snd (download_request this endTime u w s)).
Proof.
  apply (issued_one GET u).
  unfold download_request, try_catch. unfold bind at 1. unfold fetch at 1.
  cbn [reads requests console totalBytes].
  set (s1 := {| reads := reads s;
                requests := {| method := GET; url := u |} :: requests s;
                console := console s; totalBytes := totalBytes s |}).
  destruct (network w _ _) as [| response]; [reflexivity |].
  destruct (if isBrowser this then body response else None) as [chunks |].
  - pose proof (download_read_requests endTime w chunks s1) as Hr.
    destruct (download_read endTime chunks w s1) as [[[] | e |] s2]; cbn [snd] in *;
      unfold console_warn; cbn; exact Hr.
  - destruct (arrayBuffer response); reflexivity.
Qed.

Lemma download_for_issued (this : NetworkTester num) (endTime : num) (w : World num) :
  forall urls s, issued GET s (snd (download_for this endTime urls w s)).
Proof.
  induction urls as [|u urls IH]; intros s; cbn [download_for].
  - now apply issued_refl.
  - unfold bind at 1. unfold performance_now at 1.
    destruct (leb _ _); [now apply issued_refl |].
    unfold bind.
    set (s1 := {| reads := S (reads s); requests := requests s;
                  console := console s; totalBytes := totalBytes s |}).
    pose proof (download_request_issued this endTime u w s1) as Hq.
    destruct (download_request this endTime u w s1) as [[[] | e |] s2];
      cbn [snd] in *; try exact Hq.
    eapply issued_trans; [exact Hq | apply IH].
Qed.

Lemma download_while_issued (this : NetworkTester num) (endTime : num) (w : World num) :
  forall fuel s, issued GET s (snd (download_while fuel this endTime w s)).
Proof.
  induction fuel as [|fuel IH]; intros s; cbn [download_while].
  - now apply issued_refl.
  - unfold bind at 1. unfold performance_now at 1.
    destruct (ltb _ _); [| now apply issued_refl].
    unfold bind.
    set (s1 := {| reads := S (reads s); requests := requests s;
                  console := console s; totalBytes := totalBytes s |}).
    pose proof (download_for_issued this endTime w download_testUrls s1) as Hq.
    destruct (download_for this endTime download_testUrls w s1) as [[[] | e |] s2];
      cbn [snd] in *; try exact Hq.
    eapply issued_trans; [exact Hq | apply IH].
Qed.

Lemma testDownloadSpeed_issued (fuel : nat) (this : NetworkTester num)
    (w : World num) (s : State num) :
  issued GET s (snd (testDownloadSpeed fuel this w s)).
Proof.
  unfold testDownloadSpeed. unfold bind at 1. unfold set_totalBytes at 1.
  unfold bind at 1. unfold performance_now at 1. cbn [reads requests console totalBytes].
  unfold try_catch. unfold bind at 1.
  set (s0 := {| reads := S (reads s); requests := requests s;
                console := console s; totalBytes := ofZ 0 |}).
  unfold until_deadline.
  destruct (downloadTestDuration this) as [duration |];
    [| unfold bind, performance_now, get_totalBytes, ret; now apply issued_refl].
  set (endTime := add (clock w (reads s)) (mul duration (ofZ 1000))).
  pose proof (download_while_issued this endTime w fuel s0) as Hq.
  destruct (download_while fuel this endTime w s0) as [[[] | e |] s1];
    cbn [snd] in *; exact Hq.
Qed.

Lemma upload_while_issued (endTime data_length : num) (w : World num) :
  forall fuel s, issued POST s (snd (upload_while fuel endTime data_length w s)).
Proof.
  induction fuel as [|fuel IH]; intros s; cbn [upload_while].
  - now apply issued_refl.
  - unfold bind at 1. unfold performance_now at 1.
    destruct (ltb _ _); [| now apply issued_refl].
    unfold bind at 1. unfold try_catch, bind, fetch.
    cbn [reads requests console totalBytes].
    destruct (network w _ _); cbn.
    + apply (issued_one POST upload_testUrl). reflexivity.
    + eapply issued_trans; [| apply IH].
      apply (issued_one POST upload_testUrl). reflexivity.
Qed.

Lemma testUploadSpeed_issued (fuel : nat) (this : NetworkTester num)
    (w : World num) (s : State num) :
  issued POST s (snd (testUploadSpeed fuel this w s)).
Proof.
  unfold testUploadSpeed.
  destruct (Uint8Array_length (testFileSize this)) as [data_length |];
    [| now apply issued_refl].
  unfold bind at 1. unfold set_totalBytes at 1.
  unfold bind at 1. unfold performance_now at 1. cbn [reads requests console totalBytes].
  unfold try_catch. unfold bind at 1.
  set (s0 := {| reads := S (reads s); requests := requests s;
                console := console s; totalBytes := ofZ 0 |}).
  unfold until_deadline.
  destruct (uploadTestDuration this) as [duration |];
    [| unfold bind, performance_now, get_totalBytes, ret; now apply issued_refl].
  set (endTime := add (clock w (reads s)) (mul duration (ofZ 1000))).
  pose proof (upload_while_issued endTime data_length w fuel s0) as Hq.
  destruct (upload_while fuel endTime data_length w s0) as [[[] | e |] s1];
    cbn [snd] in *; exact Hq.
Qed.

(** X3: in every interpretation of numbers, [runSpeedTest] makes its
    requests in three phases: the HEAD probes of [testLatency] first, then
    the GET requests of [testDownloadSpeed], then the POST requests of
    [testUploadSpeed] ([requests] lists the latest first).  When
    [testLatency] raises, the run raises the same exception in the state
    [testLatency] left, with no GET and no POST. *)
Theorem runSpeedTest_sequential (fuel : nat) (this : NetworkTester num)
    (Date_now : num) (w : World num) (s : State num) :
  let after_latency := testLatency fuel this w s in
  let run := runSpeedTest fuel this Date_now w s in
  exists heads gets posts,
    requests (snd after_latency) = heads ++ requests s
    /\ requests (snd run) = posts ++ gets ++ heads ++ requests s
    /\ Forall (has_method HEAD) heads
    /\ Forall (has_method GET) gets
    /\ Forall (has_method POST) posts
    /\ (forall e, fst after_latency = Throw e ->
        run = (Throw e, snd after_latency) /\ gets = [] /\ posts = []).
Proof.
  intros after_latency run. subst after_latency run. unfold runSpeedTest, ret, bind.
  destruct (testLatency_issued fuel this w s) as (heads & Eh & Hh).
  destruct (testLatency fuel this w s) as [[latency | e |] s1]; cbn [fst snd] in *.
  - destruct (testDownloadSpeed_issued fuel this w s1) as (gets & Eg & Hg).
    destruct (testDownloadSpeed fuel this w s1) as [[downloadSpeed | e |] s2];
      cbn [fst snd] in *.
    + destruct (testUploadSpeed_issued fuel this w s2) as (posts & Ep & Hp).
      exists heads, gets, posts.
      destruct (testUploadSpeed fuel this w s2) as [[uploadSpeed | e |] s3];
        cbn [fst snd] in *; rewrite Ep, Eg, Eh;
        repeat split; auto; discriminate.
    + exists heads, gets, []. rewrite Eg, Eh. repeat split; auto; discriminate.
    + exists heads, gets, []. rewrite Eg, Eh. repeat split; auto; discriminate.
  - exists heads, [], []. rewrite Eh. repeat split; auto. congruence.
  - exists heads, [], []. rewrite Eh. repeat split; auto; discriminate.
Qed.

End Requests.

(** ** Further properties of the latency sampler *)

Lemma latency_for_requests (this : NetworkTester Q) (w : World Q) :
  forall fuel i latencies s,
    (i <= turns (latencyTestCount this))%nat ->
    (turns (latencyTestCount this) - i < fuel)%nat ->
    requests (snd (latency_for fuel this i latencies w s))
    = rev (map probe_request (seq i (turns (latencyTestCount this) - i))) ++ requests s.
Proof.
  induction fuel as [|fuel IH]; intros i latencies s Hi Hfuel; [lia |].
  cbn [latency_for].
  destruct (lt_number (ofZ (Z.of_nat i)) (latencyTestCount this)) eqn:E.
  - apply before_count in E.
    replace (turns (latencyTestCount this) - i)%nat
      with (S (turns (latencyTestCount this) - S i)) by lia.
    cbn [seq map rev]. unfold bind. rewrite latency_probe_run.
    destruct (network w (List.length (requests s)) (probe_request i));
      rewrite IH by lia; cbn [requests]; rewrite <- app_assoc; reflexivity.
  - apply not_true_iff_false in E. rewrite before_count in E.
    replace (turns (latencyTestCount this) - i)%nat with 0%nat by lia.
    reflexivity.
Qed.

Lemma probe_request_period (i : nat) : probe_request (i + 3) = probe_request i.
Proof.
  unfold probe_request. f_equal. f_equal.
  replace (i + 3)%nat with (i + 1 * 3)%nat by lia.
  apply Nat.Div0.mod_add.
Qed.

(** X4: given fuel for its loop, [testLatency] makes exactly one probe for
    each turn of the loop, in order ([requests] lists the latest first),
    whether the probes resolve or not; every probe is a HEAD request to one
    of the three URLs, and probe [i + 3] goes where probe [i] went. *)
Theorem testLatency_round_robin (this : NetworkTester Q) (w : World Q)
    (s : State Q) (fuel : nat) :
  (turns (latencyTestCount this) < fuel)%nat ->
  requests (snd (testLatency fuel this w s))
  = rev (probe_requests (turns (latencyTestCount this))) ++ requests s
  /\ (forall i, method (probe_request i) = HEAD
                /\ In (url (probe_request i)) latency_testUrls
                /\ probe_request (i + 3) = probe_request i).
Proof.
  intros Hfuel. split.
  - pose proof (latency_for_requests this w fuel 0%nat [] s ltac:(lia) ltac:(lia)) as Hq.
    rewrite Nat.sub_0_r in Hq. unfold testLatency, bind, probe_requests.
    destruct (latency_for fuel this 0 [] w s) as [[[|first rest] | e |] s'];
      cbn [snd] in *; exact Hq.
  - intros i. split; [reflexivity |]. split; [| apply probe_request_period].
    unfold probe_request. cbn [url].
    pose proof (Nat.mod_upper_bound i 3 ltac:(lia)) as Hb.
    destruct (i mod 3)%nat as [|[|[|k]]]; simpl; auto; lia.
Qed.

Lemma testLatency_round_robin_example :
  (turns (latencyTestCount (default_tester (num := Q))) < 6)%nat
  /\ rev (map url (requests (snd (testLatency (num := Q) 6 default_tester
                                     two_of_five initial))))
     = [ "https://www.cloudflare.com/cdn-cgi/trace";
         "https://www.google.com/generate_204";
         "https://1.1.1.1/cdn-cgi/trace";
         "https://www.cloudflare.com/cdn-cgi/trace";
         "https://www.google.com/generate_204" ]%string.
Proof.
  split; [vm_compute; lia |].
  destruct (testLatency_round_robin (default_tester (num := Q)) two_of_five initial 6)
    as [Hq _]; [vm_compute; lia |].
  rewrite Hq. reflexivity.
Defined.

(** X5: with a [latencyTestCount] of zero or less (or one that is
    [undefined]), [testLatency] raises "All latency tests failed" at once:
    no request is made, the clock is not read and nothing is written. *)
Theorem testLatency_without_probes (this : NetworkTester Q) (w : World Q)
    (s : State Q) (fuel : nat) :
  match latencyTestCount this with
  | Some count => (count <= 0)%Q
  | None => True
  end ->
  testLatency (S fuel) this w s = (Throw (JsError "All latency tests failed"), s).
Proof.
  intros Hcount. unfold testLatency, bind. cbn [latency_for].
  replace (lt_number (ofZ (Z.of_nat 0)) (latencyTestCount this)) with false;
    [reflexivity |].
  destruct (latencyTestCount this) as [count |]; [| reflexivity].
  symmetry. apply (after_deadline (ofZ (Z.of_nat 0)) count).
  exact Hcount.
Qed.

Lemma testLatency_without_probes_example :
  match latencyTestCount
          (constructor {[ "latencyTestCount"%string := Some 0%Q ]} false false) with
  | Some count => (count <= 0)%Q
  | None => True
  end
  /\ testLatency 1 (constructor {[ "latencyTestCount"%string := Some 0%Q ]} false false)
       five_probes initial
     = (Throw (JsError "All latency tests failed"), initial).
Proof.
  split; [vm_compute; discriminate |].
  apply testLatency_without_probes. vm_compute. discriminate.
Defined.

(** X23: in every interpretation of numbers, when the loop of
    [testLatency] makes [n] turns and has fuel for them, the method makes
    [n] probes and raises "All latency tests failed" exactly when it
    collected no sample, which is exactly when every one of the [n] probes
    was rejected.  In exact arithmetic the turns are those below
    [latencyTestCount].  With the default options the turns are five, in
    binary64 too, and the method returns whenever one of the five probes
    resolves.  With five probes of which the second and the fourth resolve,
    after 42 and 48 ms, it returns the statistics of these two samples: avg
    45, jitter 3, min 42 and max 48, in exact arithmetic and in binary64
    alike. *)
Theorem testLatency_all_failed :
  (forall (num : Type) (N : Number num) (this : NetworkTester num) (w : World num)
          (s : State num) (fuel n : nat),
     turns_are (latencyTestCount this) n ->
     (n < fuel)%nat ->
     let samples := collected w n 0 (reads s) (List.length (requests s)) in
     exists o s',
       testLatency fuel this w s = (o, s')
       /\ List.length (requests s') = (List.length (requests s) + n)%nat
       /\ (o = Throw (JsError "All latency tests failed") <-> samples = [])
       /\ (samples = [] <->
           forall j, (j < n)%nat ->
             network w (List.length (requests s) + j) (probe_request j) = Rejected))
  /\ (forall count : option Q, turns_are count (turns count))
  /\ turns_are (latencyTestCount (default_tester (num := float))) 5
  /\ (forall (w : World float) (s : State float) (j : nat),
        (j < 5)%nat ->
        network w (List.length (requests s) + j) (probe_request j) <> Rejected ->
        exists stats s', testLatency 6 default_tester w s = (Return stats, s'))
  /\ (exists (stats : LatencyStats.t Q) (s' : State Q),
        testLatency 6 default_tester two_of_five initial = (Return stats, s')
        /\ collected two_of_five 5 0 0 0 = [42; 48]%Q
        /\ List.length (requests s') = 5%nat
        /\ (LatencyStats.avg stats == 45)%Q
        /\ (LatencyStats.jitter stats == 3)%Q
        /\ (LatencyStats.min stats == 42)%Q
        /\ (LatencyStats.max stats == 48)%Q)
  /\ (exists s' : State float,
        testLatency 6 default_tester two_of_five initial
        = (Return (LatencyStats.Build 45 3 42 48)%float, s')
        /\ collected two_of_five 5 0 0 0 = [42; 48]%float
        /\ List.length (requests s') = 5%nat).
Proof.
  split; [| split; [| split; [| split; [| split]]]].
  3: apply default_turns_f64.
  3:{ intros w s j Hj Hnet. apply testLatency_default_returns.
      - apply default_turns_f64.
      - intros Hnone.
        pose proof (proj1 (collected_nil w 5 0%nat _ _) Hnone j Hj) as Hrej.
        now apply Hnet. }
  - intros num N this w s fuel n Hn Hfuel samples.
    destruct (testLatency_turns this w s fuel n Hn Hfuel) as (s' & E & Hq).
    eexists _, s'. split; [exact E |]. split; [exact Hq |]. fold samples. split.
    + destruct samples; split; try reflexivity; discriminate.
    + apply (collected_nil w n 0%nat).
  - apply turns_are_exact.
  - do 2 eexists. split; [vm_compute; reflexivity |].
    split; [vm_compute; reflexivity |]. repeat split; reflexivity.
  - eexists. split; [vm_compute; reflexivity |]. split; vm_compute; reflexivity.
Qed.

(** ** A clock that never goes back *)

Section MonotoneClock.
Local Open Scope Q_scope.

Lemma collected_nonneg (w : World Q) :
  monotone w ->
  forall n i r k x, In x (collected w n i r k) -> 0 <= x.
Proof.
  intros Hmono. induction n as [|n IH]; intros i r k x Hx; cbn [collected] in Hx.
  - destruct Hx.
  - destruct (network w k (probe_request i)).
    + now apply IH in Hx.
    + destruct Hx as [<- | Hx]; [| now apply IH in Hx].
      pose proof (Hmono r (S r) ltac:(lia)). change (@sub Q _) with Qminus. lra.
Qed.

(** X7: on a clock that never goes back, the statistics that
    [testLatency] returns are not negative: [min], [avg] and [max] are all
    at least 0. *)
Theorem testLatency_nonnegative (this : NetworkTester Q) (w : World Q)
    (s : State Q) (fuel : nat) (stats : LatencyStats.t Q) :
  monotone w ->
  (turns (latencyTestCount this) < fuel)%nat ->
  fst (testLatency fuel this w s) = Return stats ->
  0 <= LatencyStats.min stats
  /\ 0 <= LatencyStats.avg stats
  /\ 0 <= LatencyStats.max stats.
Proof.
  intros Hmono Hfuel Hrun.
  destruct (testLatency_run this w s fuel Hfuel) as (s' & E & _).
  rewrite E in Hrun. cbn [fst] in Hrun.
  pose proof (collected_nonneg w Hmono (turns (latencyTestCount this)) 0%nat
                (reads s) (List.length (requests s))) as Hpos.
  destruct (collected w (turns (latencyTestCount this)) 0 (reads s)
              (List.length (requests s))) as [|first rest]; [discriminate |].
  injection Hrun as <-.
  destruct (fold_left_Qmin rest first) as [Hmin_in Hmin].
  destruct (fold_left_Qmax rest first) as [Hmax_in _].
  rewrite latency_stats_avg.
  change (LatencyStats.min (latency_stats first rest)) with (fold_left Qmin rest first).
  change (LatencyStats.max (latency_stats first rest)) with (fold_left Qmax rest first).
  split; [now apply Hpos |]. split; [| now apply Hpos].
  destruct (mean_between first rest (fold_left Qmin rest first)
              (fold_left Qmax rest first)) as [H1 _].
  { intros x Hx. split; [now apply Hmin |].
    destruct (fold_left_Qmax rest first) as [_ Hmax]. now apply Hmax. }
  apply Qle_trans with (2 := H1). now apply Hpos.
Qed.

Lemma steady_monotone : monotone steady.
Proof.
  intros i j Hij. cbn [steady clock]. rewrite <- Zle_Qle. lia.
Qed.

Lemma testLatency_nonnegative_example :
  exists stats,
    fst (testLatency 6 default_tester steady initial) = Return stats
    /\ 0 <= LatencyStats.min stats
    /\ 0 <= LatencyStats.avg stats
    /\ 0 <= LatencyStats.max stats.
Proof.
  eexists. split; [vm_compute; reflexivity |].
  apply (testLatency_nonnegative default_tester steady initial 6).
  - exact steady_monotone.
  - vm_compute. lia.
  - vm_compute. reflexivity.
Defined.

(** X8: on a clock that never goes back, [quickCheck] returns a result in
    which [latency] is -1 exactly when [isOnline] is false, and is at least
    0 exactly when [isOnline] is true: the sentinel -1 is never a measured
    latency. *)
Theorem quickCheck_sentinel (w : World Q) (s : State Q) :
  monotone w ->
  exists check,
    fst (quickCheck w s) = Return check
    /\ (QuickCheck.isOnline check = false <-> QuickCheck.latency check == -1)
    /\ (QuickCheck.isOnline check = true <-> 0 <= QuickCheck.latency check).
Proof.
  intros Hmono.
  unfold quickCheck, try_catch, bind, performance_now, fetch, ret.
  cbn [fst snd reads requests].
  destruct (network w (List.length (requests s))
              {| method := HEAD; url := "https://www.google.com/generate_204" |}).
  - eexists. split; [reflexivity |]. cbn [QuickCheck.isOnline QuickCheck.latency].
    change (@ofZ Q _ (-1)%Z) with (-1). split; split; try discriminate; try reflexivity.
    intros Hle. lra.
  - eexists. split; [reflexivity |]. cbn [QuickCheck.isOnline QuickCheck.latency].
    pose proof (Hmono (reads s) (S (reads s)) ltac:(lia)).
    change (@sub Q _) with Qminus.
    split; split; try discriminate; try reflexivity; intros; lra.
Qed.

Lemma quickCheck_sentinel_example :
  exists check,
    fst (quickCheck steady initial) = Return check
    /\ (QuickCheck.isOnline check = false <-> QuickCheck.latency check == -1)
    /\ (QuickCheck.isOnline check = true <-> 0 <= QuickCheck.latency check).
Proof.
  apply (quickCheck_sentinel steady initial). exact steady_monotone.
Defined.

End MonotoneClock.

(** ** Further properties of the throughput samplers *)

(** X24: when every request is rejected, in every interpretation of
    numbers and with [m] readings of the clock before the deadline:
    - [testDownloadSpeed], given fuel, skips each failed request and goes on
      with the next endpoint and the next round: it makes
      [download_attempts m] requests, one for each endpoint reached before
      the deadline (of three readings in a row the first is the [while]'s
      and the other two are the endpoints'), and returns the conversion of
      0 bytes;
    - [testUploadSpeed], when it returns, has read the clock three times and
      made one request if the first reading was before the deadline, none
      otherwise: the first rejected request ends its loop; it returns the
      conversion of 0 bytes.
    The conversion of 0 bytes over a positive time is 0, in exact arithmetic
    and in binary64.  With the default options and a clock that advances by
    a second at each reading: two download requests, one upload request,
    and 0 for both. *)
Theorem failed_requests_policies :
  (forall (num : Type) (N : Number num) (this : NetworkTester num) (w : World num)
          (s : State num) (fuel m : nat) (duration : num),
     all_rejected w ->
     downloadTestDuration this = Some duration ->
     readings_before w (add (clock w (reads s)) (mul duration (ofZ 1000)))
       (S (reads s)) m ->
     (m < fuel)%nat ->
     exists s',
       testDownloadSpeed fuel this w s
       = (Return (speed_Mbps (ofZ 0)
                    (div (sub (clock w (pred (reads s'))) (clock w (reads s)))
                       (ofZ 1000))), s')
       /\ (S (reads s) + m < reads s')%nat
       /\ List.length (requests s')
          = (List.length (requests s) + download_attempts m)%nat)
  /\ (forall (num : Type) (N : Number num) (this : NetworkTester num) (w : World num)
             (s s' : State num) (fuel m : nat) (duration v : num),
        all_rejected w ->
        uploadTestDuration this = Some duration ->
        readings_before w (add (clock w (reads s)) (mul duration (ofZ 1000)))
          (S (reads s)) m ->
        testUploadSpeed fuel this w s = (Return v, s') ->
        v = speed_Mbps (ofZ 0)
              (div (sub (clock w (S (S (reads s)))) (clock w (reads s))) (ofZ 1000))
        /\ reads s' = S (S (S (reads s)))
        /\ List.length (requests s')
           = (List.length (requests s) + upload_attempts m)%nat)
  /\ (download_attempts 0 = 0%nat /\ download_attempts 1 = 0%nat
      /\ download_attempts 2 = 1%nat /\ upload_attempts 0 = 0%nat
      /\ forall m : nat,
           download_attempts (3 + m) = (2 + download_attempts m)%nat
           /\ upload_attempts (S m) = 1%nat)
  /\ (forall seconds : Q, (0 < seconds)%Q -> (speed_Mbps 0 seconds == 0)%Q)
  /\ (forall seconds : float,
        ltb (ofZ 0) seconds = true -> speed_Mbps (ofZ 0) seconds = ofZ 0)
  /\ (exists s' : State float,
        testDownloadSpeed 5 default_tester ticking initial = (Return 0%float, s')
        /\ List.length (requests s') = 2%nat)
  /\ (exists s' : State float,
        testUploadSpeed 5 default_tester ticking initial = (Return 0%float, s')
        /\ List.length (requests s') = 1%nat).
Proof.
  split; [| split; [| split; [| split; [| split; [| split]]]]].
  - intros num N this w s fuel m duration Hall Hdur Hr Hfuel.
    now apply (testDownloadSpeed_rejected this w s fuel m duration).
  - intros num N this w s s' fuel m duration v Hall Hdur Hr E.
    now apply (testUploadSpeed_rejected this w s s' fuel m duration v).
  - do 4 (split; [reflexivity |]).
    intros m. split; [reflexivity | unfold upload_attempts; lia].
  - intros seconds _. apply speed_Mbps_of_nothing.
  - apply speed_Mbps_of_nothing_f64.
  - eexists. split; vm_compute; reflexivity.
  - eexists. split; vm_compute; reflexivity.
Qed.

Section Throughput.
Local Open Scope Q_scope.

(** X9: in exact arithmetic and for a positive duration, the conversion
    to Mbps is monotone in the number of bytes, and is not negative for a
    number of bytes that is not negative. *)
Theorem speed_Mbps_monotone (bytes bytes' seconds : Q) :
  0 < seconds ->
  0 <= bytes ->
  bytes <= bytes' ->
  0 <= speed_Mbps bytes seconds
  /\ speed_Mbps bytes seconds <= speed_Mbps bytes' seconds.
Proof.
  intros Hs Hb Hbb. rewrite !speed_Mbps_formula.
  assert (0 <= / seconds) as Hinv by (apply Qlt_le_weak, Qinv_lt_0_compat, Hs).
  assert (0 <= bytes / seconds) as H0 by (unfold Qdiv; nra).
  assert (bytes / seconds <= bytes' / seconds) as H1 by (unfold Qdiv; nra).
  set (x := bytes / seconds) in *. set (y := bytes' / seconds) in *. clearbody x y.
  assert (forall a b : Z, (a <= b)%Z -> inject_Z a / 100 <= inject_Z b / 100) as Hdiv.
  { intros a b Hab. rewrite Zle_Qle in Hab. unfold Qdiv. change (/ 100) with (1 # 100). lra. }
  split.
  - apply Qle_trans with (inject_Z (Qfloor 0) / 100); [discriminate |].
    apply Hdiv, Qfloor_resp_le.
    unfold Qdiv. change (/ 1048576) with (1 # 1048576). lra.
  - apply Hdiv, Qfloor_resp_le.
    unfold Qdiv. change (/ 1048576) with (1 # 1048576). lra.
Qed.

Lemma speed_Mbps_monotone_example :
  0 <= speed_Mbps 6250000 2
  /\ speed_Mbps 6250000 2 <= speed_Mbps 12500000 2.
Proof.
  apply speed_Mbps_monotone; [reflexivity | discriminate | discriminate].
Defined.

End Throughput.

Section UploadSize.
Local Open Scope Q_scope.

Lemma quot_bounds (n : Z) (d : positive) :
  ((n ÷ Zpos d < 0 <-> n <= - Zpos d)
   /\ (2 ^ 53 - 1 < n ÷ Zpos d <-> 2 ^ 53 * Zpos d <= n))%Z.
Proof.
  assert (0 < Zpos d)%Z as Hd by lia.
  destruct (Z_lt_le_dec n 0) as [Hn | Hn].
  - replace n with (- (- n))%Z at 1 3 by lia.
    rewrite Z.quot_opp_l, Z.quot_div_nonneg by lia.
    pose proof (Z.div_mod (- n) (Zpos d) ltac:(lia)) as E.
    pose proof (Z.mod_pos_bound (- n) (Zpos d) Hd) as Hm.
    pose proof (Z.div_pos (- n) (Zpos d) ltac:(lia) Hd) as Hq.
    set (q := (- n / Zpos d)%Z) in *. set (m := (- n mod Zpos d)%Z) in *.
    split; split; intros; nia.
  - rewrite Z.quot_div_nonneg by lia.
    pose proof (Z.div_mod n (Zpos d) ltac:(lia)) as E.
    pose proof (Z.mod_pos_bound n (Zpos d) Hd) as Hm.
    pose proof (Z.div_pos n (Zpos d) Hn Hd) as Hq.
    set (q := (n / Zpos d)%Z) in *. set (m := (n mod Zpos d)%Z) in *.
    split; split; intros; nia.
Qed.

Lemma ToIndex_Q_None (x : Q) :
  ToIndex_Q x = None <-> x <= -1 \/ inject_Z (2 ^ 53) <= x.
Proof.
  destruct x as [n d]. unfold ToIndex_Q, Qle. cbn [Qnum Qden inject_Z].
  destruct (quot_bounds n d) as [Hlo Hhi].
  destruct (Z.ltb_spec (n ÷ Zpos d) 0) as [H1 | H1];
    destruct (Z.ltb_spec (2 ^ 53 - 1) (n ÷ Zpos d)) as [H2 | H2]; cbn [orb];
    split; intros H; try reflexivity; try discriminate; try lia.
Qed.

(** X10: in exact arithmetic, with a [testFileSize] that is at most -1
    or at least 2^53, the lengths that [new Uint8Array] rejects,
    [testUploadSpeed] raises a [RangeError]; and whenever [testUploadSpeed]
    raises, it does so before it reads the clock or makes a request, and
    leaves the state as it was: no failure of a request makes it raise. *)
Theorem testUploadSpeed_range_error (this : NetworkTester Q) (w : World Q)
    (s : State Q) (fuel : nat) :
  (forall size : Q,
     testFileSize this = Some size ->
     size <= -1 \/ inject_Z (2 ^ 53) <= size ->
     testUploadSpeed fuel this w s = (Throw (JsError "Invalid typed array length"), s))
  /\ (forall e s', testUploadSpeed fuel this w s = (Throw e, s') -> s' = s).
Proof.
  split.
  - intros size Esize Hsize. apply ToIndex_Q_None in Hsize.
    unfold testUploadSpeed. rewrite Esize. cbn [Uint8Array_length].
    change (@ToIndex Q _) with ToIndex_Q. rewrite Hsize. reflexivity.
  - intros e s' E.
    pose proof (testUploadSpeed_result fuel this w s) as Hr. rewrite E in Hr.
    unfold testUploadSpeed in E. rewrite Hr in E. unfold throw in E. congruence.
Qed.

Example testUploadSpeed_range_error_example :
  testUploadSpeed 3
    (constructor {[ "testFileSize"%string := Some (-1) ]} false false)
    (@two_second_upload Q _) initial
  = (Throw (JsError "Invalid typed array length"), initial).
Proof. reflexivity. Qed.

End UploadSize.

Section UploadCount.
Local Open Scope Q_scope.

Lemma upload_while_counts (endTime data_length : Q) (w : World Q) :
  forall (fuel : nat) (s s' : State Q),
    upload_while fuel endTime data_length w s = (Return tt, s') ->
    exists k : nat,
      totalBytes s' == totalBytes s + inject_Z (Z.of_nat k) * data_length
      /\ (forall j, (j < k)%nat ->
            network w (List.length (requests s) + j) upload_request <> Rejected)
      /\ ((requests s' = (repeat upload_request k ++ requests s)%list
           /\ console s' = console s)
          \/ (requests s' = (repeat upload_request (S k) ++ requests s)%list
              /\ network w (List.length (requests s) + k) upload_request = Rejected
              /\ console s' = "Upload test request failed"%string :: console s)).
Proof.
  induction fuel as [|fuel IH]; intros s s'; cbn [upload_while].
  - discriminate.
  - unfold bind at 1. unfold performance_now at 1.
    destruct (ltb _ _).
    + unfold bind at 1. unfold try_catch, bind, fetch.
      cbn [reads requests console totalBytes].
      fold upload_request.
      destruct (network w (List.length (requests s)) upload_request) eqn:Enet.
      * unfold console_warn, ret. cbn [reads requests console totalBytes].
        intros [= <-]. exists 0%nat. cbn [reads requests console totalBytes repeat app].
        split; [change (inject_Z (Z.of_nat 0)) with 0; ring |].
        split; [intros j Hj; lia |]. right.
        rewrite Nat.add_0_r. auto.
      * unfold add_totalBytes, bind, get_totalBytes, set_totalBytes, ret.
        cbn [reads requests console totalBytes].
        intros Hrun. apply IH in Hrun as (k & Hbytes & Hok & Hend).
        cbn [reads requests console totalBytes List.length] in *.
        exists (S k). split; [| split].
        -- rewrite Hbytes, Nat2Z.inj_succ. unfold Z.succ. rewrite inject_Z_plus.
           change (@add Q _) with Qplus. change (inject_Z 1) with 1. ring.
        -- intros [|j] Hj.
           ++ rewrite Nat.add_0_r, Enet. discriminate.
           ++ rewrite <- Nat.add_succ_comm. apply Hok. lia.
        -- rewrite <- Nat.add_succ_comm.
           destruct Hend as [[Hq Hc] | (Hq & Hrej & Hc)]; [left | right];
             repeat split; try assumption;
             rewrite Hq; change (upload_request :: requests s)
                           with ([upload_request] ++ requests s)%list;
             rewrite app_assoc, <- repeat_cons; reflexivity.
    + unfold ret. intros [= <-]. exists 0%nat.
      cbn [reads requests console totalBytes repeat app].
      split; [change (inject_Z (Z.of_nat 0)) with 0; ring |].
      split; [intros j Hj; lia |]. left. auto.
Qed.

(** X11: when [testUploadSpeed] returns, the bytes it counted are a
    whole number [k] of uploads: the first [k] POST requests resolved, and
    either no other request was made and nothing was written to the
    console, or one more request was made, was rejected, was reported with
    "Upload test request failed", and ended the loop. *)
Theorem testUploadSpeed_counts (this : NetworkTester Q) (w : World Q)
    (s s' : State Q) (fuel : nat) (data_length v : Q) :
  Uint8Array_length (testFileSize this) = Some data_length ->
  testUploadSpeed fuel this w s = (Return v, s') ->
  exists k : nat,
    totalBytes s' == inject_Z (Z.of_nat k) * data_length
    /\ (forall j, (j < k)%nat ->
          network w (List.length (requests s) + j) upload_request <> Rejected)
    /\ ((requests s' = (repeat upload_request k ++ requests s)%list
         /\ console s' = console s)
        \/ (requests s' = (repeat upload_request (S k) ++ requests s)%list
            /\ network w (List.length (requests s) + k) upload_request = Rejected
            /\ console s' = "Upload test request failed"%string :: console s)).
Proof.
  intros Hsize. unfold testUploadSpeed. rewrite Hsize.
  unfold bind at 1. unfold set_totalBytes at 1.
  unfold bind at 1. unfold performance_now at 1. cbn [reads requests console totalBytes].
  unfold try_catch. unfold bind at 1.
  set (s0 := {| reads := S (reads s); requests := requests s;
                console := console s; totalBytes := ofZ 0 |}).
  unfold until_deadline.
  destruct (uploadTestDuration this) as [duration |].
  2:{ unfold bind, performance_now, get_totalBytes, ret.
      cbn [reads requests console totalBytes]. intros [= _ <-].
      cbn [reads requests console totalBytes]. exists 0%nat.
      split; [change (@ofZ Q _ 0%Z) with 0; change (inject_Z (Z.of_nat 0)) with 0; ring |].
      split; [intros j Hj; lia |]. left. auto. }
  set (endTime := add (clock w (reads s)) (mul duration (ofZ 1000))).
  pose proof (upload_while_outcome fuel endTime data_length w s0) as Hno.
  pose proof (upload_while_counts endTime data_length w fuel s0) as Hcount.
  destruct (upload_while fuel endTime data_length w s0) as [[[] | e |] s1]; cbn in Hno.
  - unfold bind, performance_now, get_totalBytes, ret.
    cbn [reads requests console totalBytes]. intros [= _ <-].
    destruct (Hcount s1 eq_refl) as (k & Hbytes & Hok & Hend).
    subst s0. cbn [reads requests console totalBytes] in *.
    exists k. split; [| split; assumption].
    rewrite Hbytes. change (@ofZ Q _ 0%Z) with 0. ring.
  - destruct (Hno e eq_refl).
  - discriminate.
Qed.

Lemma testUploadSpeed_counts_example :
  exists (v : Q) (s' : State Q),
    testUploadSpeed 3 two_second_tester (@two_second_upload Q _) initial = (Return v, s')
    /\ exists k : nat,
         totalBytes s' == inject_Z (Z.of_nat k) * 12500000
         /\ (forall j, (j < k)%nat ->
               network (@two_second_upload Q _) (List.length (requests (@initial Q _)) + j)
                 upload_request <> Rejected)
         /\ ((requests s' = (repeat upload_request k ++ requests (@initial Q _))%list
              /\ console s' = console (@initial Q _))
             \/ (requests s'
                 = (repeat upload_request (S k) ++ requests (@initial Q _))%list
                 /\ network (@two_second_upload Q _)
                      (List.length (requests (@initial Q _)) + k) upload_request
                    = Rejected
                 /\ console s'
                    = "Upload test request failed"%string :: console (@initial Q _))).
Proof.
  eexists. eexists. split; [vm_compute; reflexivity |].
  apply (testUploadSpeed_counts two_second_tester two_second_upload initial _ 3
           12500000 (4768 # 100)); vm_compute; reflexivity.
Defined.

End UploadCount.

Section DownloadDeadline.
Context {num : Type} `{Number num}.

Lemma download_read_reads (endTime : num) (w : World num) :
  forall (chunks : list (Chunk num)) (s : State num),
    (reads s <= reads (snd (download_read endTime chunks w s)))%nat.
Proof.
  induction chunks as [|chunk chunks IH]; intros s.
  - cbn [download_read]. unfold bind, performance_now, ret.
    destruct (ltb _ _); cbn; lia.
  - cbn [download_read]. unfold bind at 1. unfold performance_now at 1.
    destruct (ltb _ _); [| cbn; lia].
    destruct chunk as [length | |]; try (cbn; lia).
    unfold bind at 1. unfold add_totalBytes, bind, get_totalBytes, set_totalBytes.
    etransitivity; [| apply IH]. cbn. lia.
Qed.

Lemma download_request_reads (this : NetworkTester num) (endTime : num)
    (u : string) (w : World num) (s : State num) :
  (reads s <= reads (snd (download_request this endTime u w s)))%nat.
Proof.
  unfold download_request, try_catch. unfold bind at 1. unfold fetch.
  destruct (network w _ _) as [| response]; [cbn; lia |].
  cbn [reads requests console totalBytes].
  destruct (if isBrowser this then body response else None) as [chunks |].
  - match goal with
    | |- context [download_read endTime chunks w ?s1] =>
        pose proof (download_read_reads endTime w chunks s1) as Hr;
        destruct (download_read endTime chunks w s1) as [[[] | e |] s2]
    end; cbn in *; lia.
  - destruct (arrayBuffer response); cbn; lia.
Qed.

Lemma download_for_reads (this : NetworkTester num) (endTime : num) (w : World num) :
  forall (urls : list string) (s : State num),
    (reads s <= reads (snd (download_for this endTime urls w s)))%nat.
Proof.
  induction urls as [|u urls IH]; intros s; cbn [download_for].
  - cbn. lia.
  - unfold bind at 1. unfold performance_now at 1.
    destruct (leb _ _); [cbn; lia |].
    unfold bind.
    match goal with
    | |- context [download_request this endTime u w ?s1] =>
        pose proof (download_request_reads this endTime u w s1) as Hr;
        destruct (download_request_returns this endTime u w s1) as [s2 E]
    end.
    rewrite E in Hr |- *. cbn [snd reads] in Hr.
    etransitivity; [| apply IH]. lia.
Qed.

Lemma download_while_deadline (this : NetworkTester num) (endTime : num)
    (w : World num) :
  forall (fuel : nat) (s s' : State num),
    download_while fuel this endTime w s = (Return tt, s') ->
    exists r,
      reads s' = S r /\ (reads s <= r)%nat /\ ltb (clock w r) endTime = false.
Proof.
  induction fuel as [|fuel IH]; intros s s'; cbn [download_while].
  - discriminate.
  - unfold bind at 1. unfold performance_now at 1.
    destruct (ltb (clock w (reads s)) endTime) eqn:E.
    + unfold bind.
      pose proof (download_for_reads this endTime w download_testUrls
                    {| reads := S (reads s); requests := requests s;
                       console := console s; totalBytes := totalBytes s |}) as Hreads.
      destruct (download_for_returns this endTime download_testUrls w
                  {| reads := S (reads s); requests := requests s;
                     console := console s; totalBytes := totalBytes s |})
        as [s1 E1].
      rewrite E1 in Hreads |- *. cbn [snd reads] in Hreads.
      intros Hrest. apply IH in Hrest as (r & Hr & Hle & Hout).
      exists r. split; [exact Hr |]. split; [lia | exact Hout].
    + unfold ret. intros [= <-]. exists (reads s). auto.
Qed.

(** X12: whenever [testDownloadSpeed] ends, in every interpretation of
    numbers, it has read the clock at least three times, and the reading
    before the last, the one that ended the loop, was not before the
    deadline [startTime + downloadTestDuration * 1000] as the program
    computed and compared it: the sampler does not return while the clock
    is before its deadline, whatever the requests do. *)
Theorem testDownloadSpeed_lasts (this : NetworkTester num) (w : World num)
    (s s' : State num) (fuel : nat) (duration v : num) :
  downloadTestDuration this = Some duration ->
  testDownloadSpeed fuel this w s = (Return v, s') ->
  exists r,
    reads s' = S (S r)
    /\ (reads s < r)%nat
    /\ ltb (clock w r) (add (clock w (reads s)) (mul duration (ofZ 1000))) = false.
Proof.
  intros Hdur. unfold testDownloadSpeed. unfold bind at 1. unfold set_totalBytes at 1.
  unfold bind at 1. unfold performance_now at 1.
  cbn [reads requests console totalBytes].
  unfold try_catch. unfold bind at 1.
  set (s0 := {| reads := S (reads s); requests := requests s;
                console := console s; totalBytes := ofZ 0 |}).
  rewrite Hdur. unfold until_deadline.
  set (endTime := add (clock w (reads s)) (mul duration (ofZ 1000))).
  pose proof (download_while_outcome fuel this endTime w s0) as Hno.
  pose proof (download_while_deadline this endTime w fuel s0) as Hdead.
  destruct (download_while fuel this endTime w s0) as [[[] | e |] s1]; cbn in Hno.
  - unfold bind, performance_now, get_totalBytes, ret.
    cbn [reads requests console totalBytes]. intros [= _ <-].
    cbn [reads].
    destruct (Hdead s1 eq_refl) as (r & -> & Hle & Hr).
    exists r. subst s0. cbn [reads] in Hle. split; [reflexivity |]. split; [lia | exact Hr].
  - destruct (Hno e eq_refl).
  - discriminate.
Qed.

End DownloadDeadline.

Lemma testDownloadSpeed_lasts_example :
  downloadTestDuration (two_second_tester (num := float)) = Some 2%float
  /\ exists (v : float) (s' : State float),
       testDownloadSpeed 3 two_second_tester two_second_download initial = (Return v, s')
       /\ exists r,
            reads s' = S (S r)
            /\ (reads (@initial float _) < r)%nat
            /\ ltb (clock two_second_download r)
                 (add (clock two_second_download (reads (@initial float _)))
                    (mul 2%float (ofZ 1000))) = false.
Proof.
  split; [reflexivity |]. do 2 eexists. split; [vm_compute; reflexivity |].
  eapply (testDownloadSpeed_lasts two_second_tester two_second_download initial _ 3);
    [reflexivity | vm_compute; reflexivity].
Defined.

Section DownloadCount.
Local Open Scope Q_scope.

Lemma buffered_app (w : World Q) (new new' : list Request) :
  forall k,
    buffered w k (new ++ new')
    == buffered w k new + buffered w (k + List.length new) new'.
Proof.
  induction new as [|r new IH]; intros k; cbn [app buffered List.length].
  - rewrite Nat.add_0_r. ring.
  - rewrite IH, <- Nat.add_succ_comm. ring.
Qed.

Lemma download_request_buffered (this : NetworkTester Q) (endTime : Q)
    (u : string) (w : World Q) (s s' : State Q) :
  isBrowser this = false ->
  download_request this endTime u w s = (Return tt, s') ->
  let r := {| method := GET; url := u |} in
  requests s' = r :: requests s
  /\ reads s' = reads s
  /\ totalBytes s' == totalBytes s + byteLength_of (network w (List.length (requests s)) r).
Proof.
  intros Hnode. unfold download_request, try_catch. unfold bind at 1. unfold fetch.
  rewrite Hnode. cbn [reads requests console totalBytes].
  destruct (network w (List.length (requests s)) {| method := GET; url := u |})
    as [| [stream [byteLength |]]]; cbn [arrayBuffer byteLength_of].
  - unfold console_warn. intros [= <-]. cbn [reads requests console totalBytes].
    split; [reflexivity |]. split; [reflexivity | ring].
  - unfold add_totalBytes, bind, get_totalBytes, set_totalBytes.
    intros [= <-]. cbn [reads requests console totalBytes].
    split; [reflexivity |]. split; reflexivity.
  - unfold throw, console_warn. intros [= <-]. cbn [reads requests console totalBytes].
    split; [reflexivity |]. split; [reflexivity | ring].
Qed.

Lemma download_for_buffered (this : NetworkTester Q) (endTime : Q) (w : World Q) :
  isBrowser this = false ->
  forall (urls : list string) (s s' : State Q),
    (forall u, In u urls -> In u download_testUrls) ->
    download_for this endTime urls w s = (Return tt, s') ->
    exists new,
      requests s' = (rev new ++ requests s)%list
      /\ Forall download_request_of new
      /\ totalBytes s' == totalBytes s + buffered w (List.length (requests s)) new.
Proof.
  intros Hnode. induction urls as [|u urls IH]; intros s s' Hurls; cbn [download_for].
  - unfold ret. intros [= <-]. exists []. cbn [rev app buffered reads requests console totalBytes].
      split; [reflexivity |]. split; [constructor | ring].
  - unfold bind at 1. unfold performance_now at 1.
    destruct (leb _ _).
    + unfold ret. intros [= <-]. exists []. cbn [rev app buffered reads requests console totalBytes].
      split; [reflexivity |]. split; [constructor | ring].
    + unfold bind.
      destruct (download_request_returns this endTime u w
                  {| reads := S (reads s); requests := requests s;
                     console := console s; totalBytes := totalBytes s |})
        as [s1 E1].
      rewrite E1. intros Hrest.
      apply (download_request_buffered this endTime u w _ s1 Hnode) in E1
        as (Hq1 & _ & Hb1).
      cbn [reads requests console totalBytes] in Hq1, Hb1.
      apply IH in Hrest as (new & Hq & Hall & Hb);
        [| intros u' Hu'; apply Hurls; now right].
      exists ({| method := GET; url := u |} :: new). split; [| split].
      * rewrite Hq, Hq1. cbn [rev]. now rewrite <- app_assoc.
      * constructor; [| exact Hall]. split; [reflexivity |]. apply Hurls. now left.
      * rewrite Hb, Hb1, Hq1. cbn [buffered List.length]. ring.
Qed.

Lemma download_while_buffered (this : NetworkTester Q) (endTime : Q) (w : World Q) :
  isBrowser this = false ->
  forall (fuel : nat) (s s' : State Q),
    download_while fuel this endTime w s = (Return tt, s') ->
    exists new,
      requests s' = (rev new ++ requests s)%list
      /\ Forall download_request_of new
      /\ totalBytes s' == totalBytes s + buffered w (List.length (requests s)) new.
Proof.
  intros Hnode. induction fuel as [|fuel IH]; intros s s'; cbn [download_while].
  - discriminate.
  - unfold bind at 1. unfold performance_now at 1.
    destruct (ltb _ _).
    + unfold bind.
      destruct (download_for_returns this endTime download_testUrls w
                  {| reads := S (reads s); requests := requests s;
                     console := console s; totalBytes := totalBytes s |})
        as [s1 E1].
      rewrite E1. intros Hrest.
      apply (download_for_buffered this endTime w Hnode) in E1
        as (new1 & Hq1 & Hall1 & Hb1); [| auto].
      cbn [reads requests console totalBytes] in Hq1, Hb1.
      apply IH in Hrest as (new2 & Hq2 & Hall2 & Hb2).
      exists (new1 ++ new2)%list. split; [| split].
      * rewrite Hq2, Hq1, rev_app_distr. now rewrite <- app_assoc.
      * apply Forall_app. now split.
      * rewrite Hb2, Hb1, buffered_app, Hq1, length_app, length_rev.
        rewrite (Nat.add_comm (List.length new1)). ring.
    + unfold ret. intros [= <-]. exists []. cbn [rev app buffered reads requests console totalBytes].
      split; [reflexivity |]. split; [constructor | ring].
Qed.

(** X13: outside a browser, when [testDownloadSpeed] returns, every
    request it made is a GET to one of its two URLs, and the bytes it
    counted are the sum of the [byteLength]s of the responses to these
    requests, a request rejected, or whose body could not be read, counting
    for nothing. *)
Theorem testDownloadSpeed_counts (this : NetworkTester Q) (w : World Q)
    (s s' : State Q) (fuel : nat) (v : Q) :
  isBrowser this = false ->
  testDownloadSpeed fuel this w s = (Return v, s') ->
  exists new,
    requests s' = (rev new ++ requests s)%list
    /\ Forall download_request_of new
    /\ totalBytes s' == buffered w (List.length (requests s)) new.
Proof.
  intros Hnode. unfold testDownloadSpeed. unfold bind at 1. unfold set_totalBytes at 1.
  unfold bind at 1. unfold performance_now at 1.
  cbn [reads requests console totalBytes].
  unfold try_catch. unfold bind at 1.
  set (s0 := {| reads := S (reads s); requests := requests s;
                console := console s; totalBytes := ofZ 0 |}).
  unfold until_deadline.
  destruct (downloadTestDuration this) as [duration |].
  2:{ unfold bind, performance_now, get_totalBytes, ret.
      cbn [reads requests console totalBytes]. intros [= _ <-].
      cbn [reads requests console totalBytes]. exists [].
      cbn [rev app buffered]. split; [reflexivity |]. split; [constructor | reflexivity]. }
  set (endTime := add (clock w (reads s)) (mul duration (ofZ 1000))).
  pose proof (download_while_outcome fuel this endTime w s0) as Hno.
  pose proof (download_while_buffered this endTime w Hnode fuel s0) as Hcount.
  destruct (download_while fuel this endTime w s0) as [[[] | e |] s1]; cbn in Hno.
  - unfold bind, performance_now, get_totalBytes, ret.
    cbn [reads requests console totalBytes]. intros [= _ <-].
    destruct (Hcount s1 eq_refl) as (new & Hq & Hall & Hb).
    subst s0. cbn [reads requests console totalBytes] in *.
    exists new. split; [exact Hq |]. split; [exact Hall |].
    rewrite Hb. change (@ofZ Q _ 0%Z) with 0. ring.
  - destruct (Hno e eq_refl).
  - discriminate.
Qed.

Lemma testDownloadSpeed_counts_example :
  exists s' : State Q,
    testDownloadSpeed 3 two_second_tester (@two_second_download Q _) initial
    = (Return (4768 # 100), s')
    /\ exists new,
         requests s' = (rev new ++ requests (@initial Q _))%list
         /\ Forall download_request_of new
         /\ totalBytes s'
            == buffered (@two_second_download Q _)
                 (List.length (requests (@initial Q _))) new.
Proof.
  eexists. split; [vm_compute; reflexivity |].
  apply (testDownloadSpeed_counts two_second_tester two_second_download initial _ 3
           (4768 # 100)); vm_compute; reflexivity.
Defined.

End DownloadCount.

(** ** Provider lookup *)

Section Provider.
Context {num : Type} `{Number num} `{Unicode}.
Local Open Scope string_scope.

Lemma or_else_null (v : JsValue num) : null_or_truthy (or_else v JsNull).
Proof.
  unfold null_or_truthy, or_else. destruct (truthy v) eqn:E; auto.
Qed.

Lemma normalizeProviderName_of_nameable (v : JsValue num) (w : World num)
    (s : State num) :
  normalizeProviderName_of v w s
  = if nameable v then (Return (normalizeProviderName (text_of v)), s)
    else (Throw (JsError "orgString.toLowerCase is not a function"), s).
Proof.
  unfold normalizeProviderName_of, nameable.
  destruct (truthy v) eqn:E; cbn [negb orb].
  - destruct v; reflexivity.
  - destruct v as [| | b | n | [|c t] |]; try reflexivity; discriminate E.
Qed.

(** One turn of the loop for the first service. *)
Lemma provider_attempt_ipapi (json : nat -> Json num) (w : World num) (s : State num) :
  provider_attempt json "https://ipapi.co/json/" w s
  = match network w (List.length (requests s)) ipapi_co,
          json (List.length (requests s)) with
    | Resolved _, JsonValue properties =>
        let org := field properties "org" in
        let asn := field properties "asn" in
        if nameable (or_else org asn) then
          (Return (Some (NetworkProvider.Build
                           (normalizeProviderName (text_of (or_else org asn)))
                           (or_else (field properties "country_name") JsNull)
                           (or_else org JsNull)
                           (or_else asn JsNull))),
           requested ipapi_co s)
        else
          (Return None,
           warned "Failed to fetch from https://ipapi.co/json/" (requested ipapi_co s))
    | _, _ =>
        (Return None,
         warned "Failed to fetch from https://ipapi.co/json/" (requested ipapi_co s))
    end.
Proof.
  unfold provider_attempt.
  replace (includes (utf16 "https://ipapi.co/json/") (utf16 "ipapi.co")) with true
    by (vm_compute; reflexivity).
  unfold try_catch. unfold bind at 1. unfold request_count at 1.
  unfold bind at 1. unfold fetch at 1. fold ipapi_co.
  destruct (network w (List.length (requests s)) ipapi_co) as [| response];
    [reflexivity |].
  unfold bind at 1. unfold response_json.
  destruct (json (List.length (requests s))) as [| | properties]; try reflexivity.
  unfold ret at 1. unfold bind at 1. unfold property at 1. unfold ret at 1.
  unfold bind at 1. unfold property at 1. unfold ret at 1.
  unfold bind at 1. rewrite normalizeProviderName_of_nameable.
  fold (field properties "org"). fold (field properties "asn").
  cbv zeta.
  destruct (nameable (or_else (field properties "org") (field properties "asn")));
    reflexivity.
Qed.

(** One turn of the loop for the second service. *)
Lemma provider_attempt_ip_api (json : nat -> Json num) (w : World num) (s : State num) :
  provider_attempt json "https://ip-api.com/json/" w s
  = match network w (List.length (requests s)) ip_api_com,
          json (List.length (requests s)) with
    | Resolved _, JsonValue properties =>
        let isp := field properties "isp" in
        let org := field properties "org" in
        if nameable (or_else isp org) then
          (Return (Some (NetworkProvider.Build
                           (normalizeProviderName (text_of (or_else isp org)))
                           (or_else (field properties "country") JsNull)
                           (or_else isp JsNull)
                           (or_else (field properties "as") JsNull))),
           requested ip_api_com s)
        else
          (Return None,
           warned "Failed to fetch from https://ip-api.com/json/"
             (requested ip_api_com s))
    | _, _ =>
        (Return None,
         warned "Failed to fetch from https://ip-api.com/json/" (requested ip_api_com s))
    end.
Proof.
  unfold provider_attempt.
  replace (includes (utf16 "https://ip-api.com/json/") (utf16 "ipapi.co")) with false
    by (vm_compute; reflexivity).
  replace (includes (utf16 "https://ip-api.com/json/") (utf16 "ip-api.com")) with true
    by (vm_compute; reflexivity).
  unfold try_catch. unfold bind at 1. unfold request_count at 1.
  unfold bind at 1. unfold fetch at 1. fold ip_api_com.
  destruct (network w (List.length (requests s)) ip_api_com) as [| response];
    [reflexivity |].
  unfold bind at 1. unfold response_json.
  destruct (json (List.length (requests s))) as [| | properties]; try reflexivity.
  unfold ret at 1. unfold bind at 1. unfold property at 1. unfold ret at 1.
  unfold bind at 1. unfold property at 1. unfold ret at 1.
  unfold bind at 1. rewrite normalizeProviderName_of_nameable.
  fold (field properties "isp"). fold (field properties "org").
  cbv zeta.
  destruct (nameable (or_else (field properties "isp") (field properties "org")));
    reflexivity.
Qed.

Lemma getNetworkProvider_unfold (json : nat -> Json num) (w : World num)
    (s : State num) :
  getNetworkProvider json w s
  = match provider_attempt json "https://ipapi.co/json/" w s with
    | (Return (Some provider), s1) => (Return provider, s1)
    | (Return None, s1) =>
        match provider_attempt json "https://ip-api.com/json/" w s1 with
        | (Return (Some provider), s2) => (Return provider, s2)
        | (Return None, s2) => (Return no_provider, s2)
        | (Throw _, s2) =>
            (Return no_provider, warned "Failed to detect network provider:" s2)
        | (OutOfFuel, s2) => (OutOfFuel, s2)
        end
    | (Throw _, s1) =>
        (Return no_provider, warned "Failed to detect network provider:" s1)
    | (OutOfFuel, s1) => (OutOfFuel, s1)
    end.
Proof.
  unfold getNetworkProvider, try_catch, provider_services. cbn [provider_for].
  unfold bind at 1.
  destruct (provider_attempt json "https://ipapi.co/json/" w s)
    as [[[provider |] | e |] s1]; try reflexivity.
  unfold bind at 1.
  destruct (provider_attempt json "https://ip-api.com/json/" w s1)
    as [[[provider |] | e |] s2]; reflexivity.
Qed.

(** X14: in every interpretation of numbers, [getNetworkProvider] never
    raises; the [country], [isp] and [asn] it returns are [null] or truthy;
    and it makes either one request, to ipapi.co, without writing to the
    console, or a request to ipapi.co, a warning about it, and a request to
    ip-api.com, followed by a second warning only when it returns the
    provider with all four fields [null]. *)
Theorem getNetworkProvider_total (json : nat -> Json num) (w : World num)
    (s : State num) :
  exists provider s',
    getNetworkProvider json w s = (Return provider, s')
    /\ null_or_truthy (NetworkProvider.country provider)
    /\ null_or_truthy (NetworkProvider.isp provider)
    /\ null_or_truthy (NetworkProvider.asn provider)
    /\ (s' = requested ipapi_co s
        \/ s' = requested ip_api_com
                  (warned "Failed to fetch from https://ipapi.co/json/"
                     (requested ipapi_co s))
        \/ (s' = warned "Failed to fetch from https://ip-api.com/json/"
                   (requested ip_api_com
                      (warned "Failed to fetch from https://ipapi.co/json/"
                         (requested ipapi_co s)))
            /\ provider = no_provider)).
Proof.
  rewrite getNetworkProvider_unfold, provider_attempt_ipapi.
  assert (forall s1,
            s1 = warned "Failed to fetch from https://ipapi.co/json/"
                   (requested ipapi_co s) ->
            exists provider s',
              match provider_attempt json "https://ip-api.com/json/" w s1 with
              | (Return (Some provider), s2) => (Return provider, s2)
              | (Return None, s2) => (Return no_provider, s2)
              | (Throw _, s2) =>
                  (Return no_provider, warned "Failed to detect network provider:" s2)
              | (OutOfFuel, s2) => (OutOfFuel, s2)
              end = (Return provider, s')
              /\ null_or_truthy (NetworkProvider.country provider)
              /\ null_or_truthy (NetworkProvider.isp provider)
              /\ null_or_truthy (NetworkProvider.asn provider)
              /\ (s' = requested ipapi_co s
                  \/ s' = requested ip_api_com s1
                  \/ (s' = warned "Failed to fetch from https://ip-api.com/json/"
                             (requested ip_api_com s1)
                      /\ provider = no_provider))) as Hsecond.
  { intros s1 _. rewrite provider_attempt_ip_api.
    assert (null_or_truthy (@JsNull num)) as Hnull by now left.
    destruct (network w (List.length (requests s1)) ip_api_com) as [| response];
      [do 2 eexists; split; [reflexivity |]; cbn; auto 10 |].
    destruct (json (List.length (requests s1))) as [| | properties];
      try (do 2 eexists; split; [reflexivity |]; cbn; auto 10).
    cbv zeta.
    destruct (nameable _);
      do 2 eexists; (split; [reflexivity |]); cbn; auto 10 using or_else_null. }
  destruct (network w (List.length (requests s)) ipapi_co) as [| response].
  - destruct (Hsecond _ eq_refl) as (p & s' & E & ?). exists p, s'. now rewrite E.
  - destruct (json (List.length (requests s))) as [| | properties].
    + destruct (Hsecond _ eq_refl) as (p & s' & E & ?). exists p, s'. now rewrite E.
    + destruct (Hsecond _ eq_refl) as (p & s' & E & ?). exists p, s'. now rewrite E.
    + cbv zeta. destruct (nameable _).
      * do 2 eexists. split; [reflexivity |]. cbn. auto 10 using or_else_null.
      * destruct (Hsecond _ eq_refl) as (p & s' & E & ?). exists p, s'. now rewrite E.
Qed.

(** X15: when the request to ipapi.co resolves with JSON other than
    [null], and [org || asn] is falsy or a string, [getNetworkProvider]
    returns what this answer gives ([name] from [org || asn], [country] from
    [country_name], [isp] from [org], [asn] from [asn], each [null] when
    falsy) after this one request: ip-api.com is not asked, even when the
    answer has none of the properties. *)
Theorem getNetworkProvider_first_answer (json : nat -> Json num) (w : World num)
    (s : State num) (response : Response num)
    (properties : gmap string (JsValue num)) :
  let org := field properties "org" in
  let asn := field properties "asn" in
  network w (List.length (requests s)) ipapi_co = Resolved response ->
  json (List.length (requests s)) = JsonValue properties ->
  nameable (or_else org asn) = true ->
  getNetworkProvider json w s
  = (Return (NetworkProvider.Build
               (normalizeProviderName (text_of (or_else org asn)))
               (or_else (field properties "country_name") JsNull)
               (or_else org JsNull)
               (or_else asn JsNull)),
     requested ipapi_co s).
Proof.
  intros org asn Hnet Hjson Hname.
  rewrite getNetworkProvider_unfold, provider_attempt_ipapi, Hnet, Hjson.
  cbv zeta. fold org asn. rewrite Hname. reflexivity.
Qed.

(** X16: when ipapi.co does not answer (its request is rejected, its body
    is no JSON or is [null], or [org || asn] is truthy and no string) and
    ip-api.com does, [getNetworkProvider] warns about the first service and
    returns what the second gives: [name] from [isp || org], [country] from
    [country], [isp] from [isp], [asn] from [as]. *)
Theorem getNetworkProvider_fallback (json : nat -> Json num) (w : World num)
    (s : State num) (response : Response num)
    (properties : gmap string (JsValue num)) :
  let k := List.length (requests s) in
  let isp := field properties "isp" in
  let org := field properties "org" in
  answers w json k ipapi_co "org" "asn" = false ->
  network w (S k) ip_api_com = Resolved response ->
  json (S k) = JsonValue properties ->
  nameable (or_else isp org) = true ->
  getNetworkProvider json w s
  = (Return (NetworkProvider.Build
               (normalizeProviderName (text_of (or_else isp org)))
               (or_else (field properties "country") JsNull)
               (or_else isp JsNull)
               (or_else (field properties "as") JsNull)),
     requested ip_api_com
       (warned "Failed to fetch from https://ipapi.co/json/" (requested ipapi_co s))).
Proof.
  intros k isp org Hfirst Hnet Hjson Hname.
  rewrite getNetworkProvider_unfold, provider_attempt_ipapi.
  unfold answers in Hfirst. fold k.
  assert (provider_attempt json "https://ip-api.com/json/" w
            (warned "Failed to fetch from https://ipapi.co/json/" (requested ipapi_co s))
          = (Return (Some (NetworkProvider.Build
                             (normalizeProviderName (text_of (or_else isp org)))
                             (or_else (field properties "country") JsNull)
                             (or_else isp JsNull)
                             (or_else (field properties "as") JsNull))),
             requested ip_api_com
               (warned "Failed to fetch from https://ipapi.co/json/"
                  (requested ipapi_co s)))) as Esecond.
  { rewrite provider_attempt_ip_api. cbn [warned requested requests List.length].
    fold k. rewrite Hnet, Hjson. cbv zeta. fold isp org. rewrite Hname. reflexivity. }
  destruct (network w k ipapi_co) as [| response1].
  - now rewrite Esecond.
  - destruct (json k) as [| | properties1]; try now rewrite Esecond.
    cbv zeta. rewrite Hfirst. now rewrite Esecond.
Qed.

(** X17: when neither service answers, [getNetworkProvider] returns the
    provider whose four fields are [null], after one request to each
    service, in order, and one warning for each. *)
Theorem getNetworkProvider_none (json : nat -> Json num) (w : World num)
    (s : State num) :
  let k := List.length (requests s) in
  answers w json k ipapi_co "org" "asn" = false ->
  answers w json (S k) ip_api_com "isp" "org" = false ->
  getNetworkProvider json w s
  = (Return no_provider,
     warned "Failed to fetch from https://ip-api.com/json/"
       (requested ip_api_com
          (warned "Failed to fetch from https://ipapi.co/json/"
             (requested ipapi_co s)))).
Proof.
  intros k Hfirst Hsecond.
  rewrite getNetworkProvider_unfold, provider_attempt_ipapi.
  unfold answers in Hfirst, Hsecond. fold k.
  assert (provider_attempt json "https://ip-api.com/json/" w
            (warned "Failed to fetch from https://ipapi.co/json/" (requested ipapi_co s))
          = (Return None,
             warned "Failed to fetch from https://ip-api.com/json/"
               (requested ip_api_com
                  (warned "Failed to fetch from https://ipapi.co/json/"
                     (requested ipapi_co s))))) as Esecond.
  { rewrite provider_attempt_ip_api. cbn [warned requested requests List.length].
    fold k. destruct (network w (S k) ip_api_com) as [| response]; [reflexivity |].
    destruct (json (S k)) as [| | properties]; try reflexivity.
    cbv zeta. now rewrite Hsecond. }
  destruct (network w k ipapi_co) as [| response1].
  - now rewrite Esecond.
  - destruct (json k) as [| | properties1]; try now rewrite Esecond.
    cbv zeta. rewrite Hfirst. now rewrite Esecond.
Qed.

End Provider.

Lemma getNetworkProvider_first_answer_example :
  let json := fun _ : nat =>
    JsonValue {[ "org"%string := JsString (utf16 "AS37282 MTN Nigeria");
                 "country_name"%string := JsString (utf16 "Nigeria");
                 "asn"%string := @JsString Q [] ]} in
  @getNetworkProvider Q _ ascii_only json steady initial
  = (Return (NetworkProvider.Build (Some (utf16 "MTN")) (JsString (utf16 "Nigeria"))
               (JsString (utf16 "AS37282 MTN Nigeria")) JsNull),
     requested ipapi_co initial).
Proof.
  intros json.
  rewrite (@getNetworkProvider_first_answer Q _ ascii_only json steady initial
             {| body := None; arrayBuffer := Some 0%Q |}
             {[ "org"%string := JsString (utf16 "AS37282 MTN Nigeria");
                "country_name"%string := JsString (utf16 "Nigeria");
                "asn"%string := @JsString Q [] ]});
    vm_compute; reflexivity.
Defined.

Lemma getNetworkProvider_fallback_example :
  let json := fun k : nat =>
    match k with
    | O => JsonNull
    | _ => JsonValue {[ "isp"%string := JsString (utf16 "Airtel Networks Limited");
                        "country"%string := JsString (utf16 "Nigeria");
                        "as"%string := @JsString Q (utf16 "AS36873 Airtel") ]}
    end in
  @getNetworkProvider Q _ ascii_only json steady initial
  = (Return (NetworkProvider.Build (Some (utf16 "Airtel")) (JsString (utf16 "Nigeria"))
               (JsString (utf16 "Airtel Networks Limited"))
               (JsString (utf16 "AS36873 Airtel"))),
     requested ip_api_com
       (warned "Failed to fetch from https://ipapi.co/json/"
          (requested ipapi_co initial))).
Proof.
  intros json.
  rewrite (@getNetworkProvider_fallback Q _ ascii_only json steady initial
             {| body := None; arrayBuffer := Some 0%Q |}
             {[ "isp"%string := JsString (utf16 "Airtel Networks Limited");
                "country"%string := JsString (utf16 "Nigeria");
                "as"%string := @JsString Q (utf16 "AS36873 Airtel") ]});
    vm_compute; reflexivity.
Defined.

Lemma getNetworkProvider_none_example :
  @getNetworkProvider Q _ ascii_only (fun _ => JsonValue ∅) ticking initial
  = (Return no_provider,
     warned "Failed to fetch from https://ip-api.com/json/"
       (requested ip_api_com
          (warned "Failed to fetch from https://ipapi.co/json/"
             (requested ipapi_co initial)))).
Proof.
  apply (@getNetworkProvider_none Q _ ascii_only (fun _ => JsonValue ∅) ticking initial);
    vm_compute; reflexivity.
Defined.

(** ** Further properties of the provider names *)

Section ProviderNames.
Context `{Unicode}.

Lemma first_carrier_name (lower name : js_string) :
  first_carrier lower = Some name ->
  In name (map utf16 [ "MTN"; "Airtel"; "Glo"; "9mobile"; "Vodafone"; "Orange";
                       "Verizon"; "AT&T"; "T-Mobile"; "Telkom" ]%string).
Proof.
  unfold first_carrier.
  destruct (List.find _ carrier_rules) as [[patterns name'] |] eqn:E; [| discriminate].
  cbn [fmap option_fmap option_map snd]. intros [= <-].
  apply find_some in E as [Hin _].
  change (In name' (map snd carrier_rules)).
  apply in_map_iff. now exists (patterns, name').
Qed.

(** X18: a name that [normalizeProviderName] returns neither starts nor
    ends with white space, in the sense of [\s] and [trim]: the no-break
    space and the other white space outside ASCII included. *)
Theorem normalizeProviderName_trimmed (orgString : option js_string)
    (name : js_string) :
  normalizeProviderName orgString = Some name ->
  trimmed name.
Proof.
  intros Hname.
  destruct orgString as [s |]; [| discriminate].
  destruct s as [|c s]; [discriminate |].
  rewrite (normalizeProviderName_rules (c :: s)) in Hname by discriminate.
  injection Hname as <-.
  destruct (first_carrier (toLowerCase (c :: s))) as [carrier |] eqn:E.
  - apply first_carrier_name in E. cbn [In map] in E.
    repeat (destruct E as [<- | E]; [split; reflexivity |]). destruct E.
  - destruct (trim_decomposes (replace_AS_prefix (c :: s))) as (_ & _ & _ & _ & _ & Ht).
    exact Ht.
Qed.

(** X19: when a carrier is recognized in [s], [normalizeProviderName]
    returns the carrier's name, and the carrier's name is itself normalized
    to the same name: on recognized carriers the function is idempotent. *)
Theorem normalizeProviderName_carrier_stable (s name : js_string) :
  first_carrier (toLowerCase s) = Some name ->
  normalizeProviderName (Some s) = Some name
  /\ normalizeProviderName (Some name) = Some name.
Proof.
  intros E. split.
  - destruct s as [|c s]; [discriminate E |].
    now rewrite (normalizeProviderName_rules (c :: s)), E by discriminate.
  - apply first_carrier_name in E. cbn [In map] in E.
    repeat (destruct E as [<- | E]; [vm_compute; reflexivity |]). destruct E.
Qed.

End ProviderNames.

Lemma normalizeProviderName_trimmed_example :
  trimmed (utf16 "Some" ++ [160%N] ++ utf16 "Telco").
Proof.
  apply (@normalizeProviderName_trimmed ascii_only
           (Some (utf16 "as9999" ++ [160%N; 32%N; 8195%N] ++ utf16 "Some" ++ [160%N]
                    ++ utf16 "Telco" ++ [32%N; 160%N; 65279%N]))).
  vm_compute. reflexivity.
Defined.

Lemma normalizeProviderName_carrier_stable_example :
  @normalizeProviderName ascii_only (Some (utf16 "AS29465 VODAFONE Group"))
  = Some (utf16 "Vodafone")
  /\ @normalizeProviderName ascii_only (Some (utf16 "Vodafone")) = Some (utf16 "Vodafone").
Proof.
  apply normalizeProviderName_carrier_stable. vm_compute. reflexivity.
Defined.

(** ** Streamed downloads *)

Section DownloadStream.
Local Open Scope Q_scope.

Lemma ltb_true (t deadline : Q) : ltb t deadline = true <-> t < deadline.
Proof.
  change (ltb t deadline) with (negb (Qle_bool deadline t)).
  rewrite negb_true_iff. split.
  - intros E. apply Qnot_le_lt. intros Hle. apply Qle_bool_iff in Hle. congruence.
  - intros Hlt. apply not_true_iff_false. intros E. apply Qle_bool_iff in E. lra.
Qed.

Lemma ltb_false (t deadline : Q) : ltb t deadline = false <-> deadline <= t.
Proof.
  change (ltb t deadline) with (negb (Qle_bool deadline t)).
  rewrite negb_false_iff. apply Qle_bool_iff.
Qed.

Lemma download_read_counts (endTime : Q) (w : World Q) :
  forall (chunks : list (Chunk Q)) (s : State Q),
  exists (n : nat) (o : Outcome unit) (s' : State Q),
    download_read endTime chunks w s = (o, s')
    /\ (n <= List.length chunks)%nat
    /\ Forall is_value (firstn n chunks)
    /\ totalBytes s' == totalBytes s + Qsum (map chunk_bytes (firstn n chunks))
    /\ reads s' = S (reads s + n)
    /\ requests s' = requests s
    /\ console s' = console s
    /\ (forall j, (j < n)%nat -> clock w (reads s + j) < endTime)
    /\ ((o = Return tt
         /\ (endTime <= clock w (reads s + n)
             \/ nth_error chunks n = None
             \/ nth_error chunks n = Some ChunkDone))
        \/ (o = Throw NetworkError
            /\ clock w (reads s + n) < endTime
            /\ nth_error chunks n = Some ChunkError)).
Proof.
  assert (forall (chunks : list (Chunk Q)) (s : State Q) (o : Outcome unit),
            (o = Return tt
             /\ (endTime <= clock w (reads s + 0)
                 \/ nth_error chunks 0 = None
                 \/ nth_error chunks 0 = Some ChunkDone))
            \/ (o = Throw NetworkError
                /\ clock w (reads s + 0) < endTime
                /\ nth_error chunks 0 = Some ChunkError) ->
            exists (n : nat) (o' : Outcome unit) (s' : State Q),
              (o, {| reads := S (reads s); requests := requests s;
                     console := console s; totalBytes := totalBytes s |}) = (o', s')
              /\ (n <= List.length chunks)%nat
              /\ Forall is_value (firstn n chunks)
              /\ totalBytes s' == totalBytes s + Qsum (map chunk_bytes (firstn n chunks))
              /\ reads s' = S (reads s + n)
              /\ requests s' = requests s
              /\ console s' = console s
              /\ (forall j, (j < n)%nat -> clock w (reads s + j) < endTime)
              /\ ((o' = Return tt
                   /\ (endTime <= clock w (reads s + n)
                       \/ nth_error chunks n = None
                       \/ nth_error chunks n = Some ChunkDone))
                  \/ (o' = Throw NetworkError
                      /\ clock w (reads s + n) < endTime
                      /\ nth_error chunks n = Some ChunkError))) as Hstop.
  { intros chunks s o Hend. exists 0%nat. do 2 eexists. split; [reflexivity |].
    change (firstn 0 chunks) with (@nil (Chunk Q)).
    cbn [reads requests console totalBytes map Qsum fold_right].
    split; [lia |]. split; [constructor |]. split; [ring |].
    split; [now rewrite Nat.add_0_r |]. split; [reflexivity |]. split; [reflexivity |].
    split; [intros j Hj; lia |]. exact Hend. }
  induction chunks as [|chunk chunks IH]; intros s.
  - cbn [download_read]. unfold bind, performance_now, ret.
    destruct (ltb (clock w (reads s)) endTime) eqn:E; apply Hstop; left;
      (split; [reflexivity |]).
    + right. now left.
    + left. rewrite Nat.add_0_r. now apply ltb_false.
  - cbn [download_read]. unfold bind at 1. unfold performance_now at 1.
    destruct (ltb (clock w (reads s)) endTime) eqn:E.
    + apply ltb_true in E.
      destruct chunk as [length | |].
      * unfold bind at 1. unfold add_totalBytes, bind, get_totalBytes, set_totalBytes.
        cbn [reads requests console totalBytes].
        destruct (IH {| reads := S (reads s); requests := requests s;
                        console := console s;
                        totalBytes := add (totalBytes s) (default (ofZ 0) length) |})
          as (n & o & s' & Hrun & Hlen & Hval & Hbytes & Hreads & Hreq & Hcon
              & Hbefore & Hend).
        cbn [reads requests console totalBytes] in *.
        exists (S n), o, s'. split; [exact Hrun |].
        split; [cbn [List.length]; lia |].
        split; [cbn [firstn]; constructor; [exact I | exact Hval] |].
        split.
        { rewrite Hbytes. cbn [firstn map Qsum fold_right].
          fold (Qsum (map chunk_bytes (firstn n chunks))).
          change (@add Q _) with Qplus. change (@ofZ Q _ 0%Z) with 0.
          destruct length as [length |]; cbn [default chunk_bytes]; unfold id; ring. }
        split; [rewrite Hreads; lia |].
        split; [exact Hreq |]. split; [exact Hcon |].
        split.
        { intros [|j] Hj; [now rewrite Nat.add_0_r |].
          rewrite <- Nat.add_succ_comm. apply Hbefore. lia. }
        rewrite <- Nat.add_succ_comm. cbn [nth_error]. exact Hend.
      * unfold ret. apply Hstop. left. split; [reflexivity |]. right. now right.
      * unfold throw. apply Hstop. right. rewrite Nat.add_0_r. auto.
    + apply ltb_false in E. unfold ret. apply Hstop. left. split; [reflexivity |].
      left. now rewrite Nat.add_0_r.
Qed.

(** X20: in a browser, for a request that resolves with a stream,
    the inner [try] of [testDownloadSpeed] counts the values of the first
    [n] chunks, for some [n], reading the clock [n + 1] times: these [n]
    chunks carry values and were each read before the deadline; the reading
    stopped at the deadline, at the end of the stream, or at a rejected
    read, which is reported with "Download test failed for: " and the URL
    while the bytes counted so far are kept. *)
Theorem download_request_streams (this : NetworkTester Q) (endTime : Q)
    (u : string) (w : World Q) (s : State Q) (response : Response Q)
    (chunks : list (Chunk Q)) :
  isBrowser this = true ->
  network w (List.length (requests s)) {| method := GET; url := u |}
  = Resolved response ->
  body response = Some chunks ->
  exists (n : nat) (s' : State Q),
    download_request this endTime u w s = (Return tt, s')
    /\ (n <= List.length chunks)%nat
    /\ Forall is_value (firstn n chunks)
    /\ totalBytes s' == totalBytes s + Qsum (map chunk_bytes (firstn n chunks))
    /\ reads s' = S (reads s + n)
    /\ requests s' = {| method := GET; url := u |} :: requests s
    /\ (forall j, (j < n)%nat -> clock w (reads s + j) < endTime)
    /\ ((console s' = console s
         /\ (endTime <= clock w (reads s + n)
             \/ nth_error chunks n = None
             \/ nth_error chunks n = Some ChunkDone))
        \/ (console s' = ("Download test failed for: " ++ u)%string :: console s
            /\ clock w (reads s + n) < endTime
            /\ nth_error chunks n = Some ChunkError)).
Proof.
  intros Hbrowser Hnet Hbody.
  unfold download_request, try_catch. unfold bind at 1. unfold fetch.
  rewrite Hnet, Hbrowser, Hbody.
  set (s0 := {| reads := reads s;
                requests := {| method := GET; url := u |} :: requests s;
                console := console s; totalBytes := totalBytes s |}).
  destruct (download_read_counts endTime w chunks s0)
    as (n & o & s1 & -> & Hlen & Hval & Hbytes & Hreads & Hreq & Hcon & Hbefore & Hend).
  subst s0. cbn [reads requests console totalBytes] in *.
  destruct Hend as [[-> Hstop] | (-> & Hlate & Herr)].
  - exists n, s1. repeat (split; [assumption || reflexivity |]). left. auto.
  - unfold console_warn. eexists n, _. split; [reflexivity |].
    cbn [reads requests console totalBytes].
    repeat (split; [assumption |]). right. rewrite Hcon. auto.
Qed.

Lemma download_request_streams_example :
  let u := "https://speed.cloudflare.com/__down?bytes=10000000"%string in
  let chunks := [ChunkValue (Some 1000); ChunkValue None; ChunkValue (Some 500);
                 ChunkDone] in
  exists (n : nat) (s' : State Q),
    download_request (constructor ∅ true true) 5000 u streaming initial
    = (Return tt, s')
    /\ (n <= List.length chunks)%nat
    /\ Forall is_value (firstn n chunks)
    /\ totalBytes s'
       == totalBytes (@initial Q _) + Qsum (map chunk_bytes (firstn n chunks))
    /\ reads s' = S (reads (@initial Q _) + n)
    /\ requests s' = {| method := GET; url := u |} :: requests (@initial Q _)
    /\ (forall j, (j < n)%nat -> clock streaming (reads (@initial Q _) + j) < 5000)
    /\ ((console s' = console (@initial Q _)
         /\ (5000 <= clock streaming (reads (@initial Q _) + n)
             \/ nth_error chunks n = None
             \/ nth_error chunks n = Some ChunkDone))
        \/ (console s'
            = ("Download test failed for: " ++ u)%string :: console (@initial Q _)
            /\ clock streaming (reads (@initial Q _) + n) < 5000
            /\ nth_error chunks n = Some ChunkError)).
Proof.
  intros u chunks.
  apply (download_request_streams (constructor ∅ true true) 5000 u streaming initial
           streamed_response chunks); reflexivity.
Defined.

End DownloadStream.

(** ** The exceptions of a full run *)

Section RunErrors.
Context {num : Type} `{Number num}.

Lemma latency_for_outcome (this : NetworkTester num) (w : World num) :
  forall fuel i latencies s e,
    fst (latency_for fuel this i latencies w s) <> Throw e.
Proof.
  induction fuel as [|fuel IH]; intros i latencies s e; cbn [latency_for].
  - cbn. discriminate.
  - destruct (lt_number _ _); [| cbn; discriminate].
    unfold bind. rewrite latency_probe_run.
    destruct (network w _ _); apply IH.
Qed.

Lemma testLatency_throws (fuel : nat) (this : NetworkTester num)
    (w : World num) (s : State num) (e : Error) :
  fst (testLatency fuel this w s) = Throw e ->
  e = JsError "All latency tests failed".
Proof.
  unfold testLatency, bind.
  pose proof (latency_for_outcome this w fuel 0%nat [] s) as Hno.
  destruct (latency_for fuel this 0 [] w s) as [[[|first rest] | e' |] s1];
    cbn [fst] in *.
  - unfold throw. cbn. congruence.
  - unfold ret. cbn. discriminate.
  - destruct (Hno e' eq_refl).
  - discriminate.
Qed.

Lemma runSpeedTest_throws (fuel : nat) (this : NetworkTester num)
    (Date_now : num) (w : World num) (s : State num) (e : Error) :
  fst (runSpeedTest fuel this Date_now w s) = Throw e ->
  e = JsError "All latency tests failed"
  \/ (e = JsError "Invalid typed array length"
      /\ Uint8Array_length (testFileSize this) = None).
Proof.
  unfold runSpeedTest. unfold bind at 1.
  pose proof (testLatency_throws fuel this w s) as Hlat.
  destruct (testLatency fuel this w s) as [[latency | e1 |] s1]; cbn [fst] in *.
  - unfold bind at 1.
    pose proof (testDownloadSpeed_result fuel this w s1) as Hdown.
    destruct (testDownloadSpeed fuel this w s1) as [[down | e2 |] s2].
    + unfold bind at 1.
      pose proof (testUploadSpeed_result fuel this w s2) as Hup.
      destruct (testUploadSpeed fuel this w s2) as [[up | e3 |] s3] eqn:Eup;
        cbn [fst] in *.
      * unfold ret. discriminate.
      * intros [= <-]. right. split; [| exact Hup].
        unfold testUploadSpeed in Eup. rewrite Hup in Eup.
        unfold throw in Eup. congruence.
      * discriminate.
    + destruct Hdown.
    + cbn. discriminate.
  - intros [= <-]. left. now apply Hlat.
  - discriminate.
Qed.

(** X21: in every interpretation of numbers, an exception that
    [runSpeedTest] raises is one that [testLatency] raised, or one that
    [testUploadSpeed] raised at its start, before reading the clock or
    making a request: no failure of a download or upload request reaches
    the caller. *)
Theorem runSpeedTest_errors (fuel : nat) (this : NetworkTester num)
    (Date_now : num) (w : World num) (s s' : State num) (e : Error) :
  runSpeedTest fuel this Date_now w s = (Throw e, s') ->
  testLatency fuel this w s = (Throw e, s')
  \/ exists latency s1 downloadSpeed,
       testLatency fuel this w s = (Return latency, s1)
       /\ testDownloadSpeed fuel this w s1 = (Return downloadSpeed, s')
       /\ testUploadSpeed fuel this w s' = (Throw e, s').
Proof.
  unfold runSpeedTest. unfold bind at 1.
  destruct (testLatency fuel this w s) as [[latency | e1 |] s1];
    [| intros [= <- <-]; now left | discriminate].
  unfold bind at 1.
  pose proof (testDownloadSpeed_result fuel this w s1) as Hdown.
  destruct (testDownloadSpeed fuel this w s1) as [[down | e2 |] s2] eqn:Edown;
    [| destruct Hdown | discriminate].
  unfold bind at 1.
  pose proof (testUploadSpeed_result fuel this w s2) as Hup.
  destruct (testUploadSpeed fuel this w s2) as [[up | e3 |] s3] eqn:Eup;
    [unfold ret; discriminate | | discriminate].
  intros [= <- <-]. right. exists latency, s1, down.
  assert (s3 = s2) as ->.
  { unfold testUploadSpeed in Eup. rewrite Hup in Eup. unfold throw in Eup. congruence. }
  split; [reflexivity |]. split; [exact Edown | exact Eup].
Qed.

End RunErrors.

Lemma runSpeedTest_errors_example :
  let e := JsError "All latency tests failed" in
  exists s' : State Q,
    runSpeedTest 6 default_tester 0%Q ticking initial = (Throw e, s')
    /\ (testLatency 6 default_tester ticking initial = (Throw e, s')
        \/ exists latency s1 downloadSpeed,
             testLatency 6 default_tester ticking initial = (Return latency, s1)
             /\ testDownloadSpeed 6 default_tester ticking s1 = (Return downloadSpeed, s')
             /\ testUploadSpeed 6 default_tester ticking s' = (Throw e, s')).
Proof.
  intros e. eexists. split; [vm_compute; reflexivity |].
  apply (runSpeedTest_errors 6 default_tester 0%Q ticking initial).
  vm_compute. reflexivity.
Defined.

(** X22: in exact arithmetic, the only exception [isNetworkGood] raises
    is "All latency tests failed". *)
Theorem isNetworkGood_errors (fuel : nat) (has_window has_document : bool)
    (Date_now : Q) (w : World Q) (s : State Q) (e : Error) :
  fst (isNetworkGood fuel has_window has_document Date_now w s) = Throw e ->
  e = JsError "All latency tests failed".
Proof.
  unfold isNetworkGood. cbv zeta. unfold bind.
  pose proof (runSpeedTest_throws fuel (constructor ∅ has_window has_document)
                Date_now w s) as Hrun.
  destruct (runSpeedTest fuel (constructor ∅ has_window has_document) Date_now w s)
    as [[result | e' |] s']; cbn [fst] in *.
  - unfold ret. discriminate.
  - intros [= <-]. destruct (Hrun e' eq_refl) as [-> | [_ Hsize]]; [reflexivity |].
    vm_compute in Hsize. discriminate Hsize.
  - discriminate.
Qed.

Lemma isNetworkGood_errors_example :
  let e := JsError "All latency tests failed" in
  fst (isNetworkGood 6 false false 0%Q ticking initial) = Throw e
  /\ e = JsError "All latency tests failed".
Proof.
  intros e. split; [vm_compute; reflexivity |].
  apply (isNetworkGood_errors 6 false false 0%Q ticking initial).
  vm_compute. reflexivity.
Defined.
